(** * GreenSnap backend: classification gateway and report submission

    A shallow embedding of

    - [classifyImage] (the classification gateway, in its two copies:
      the unnamed module with the 30 s bound, and
      [src/services/classificationService.js] with the 10 s bound, which is
      the one [routes/reportRoutes.js] imports), and
    - the [router.post('/')] handler of [routes/reportRoutes.js]
      (the submission workflow),
    - the [router.post('/test-classify')] and [router.delete('/:id')]
      handlers of the same file, and
    - the keep-alive job that follows the gateway in
      [src/services/classificationService.js],

    together with the properties the specification states about them, and
    further properties read off the code.

    Modelling conventions.

    - JavaScript numbers that reach the code come out of [JSON.parse]; they
      are modelled as rationals [Q].  The comparisons [>=], [<], [>] and
      [Math.max] are exact on them.  A detection carries a number as its
      confidence.
    - The process-wide [imageCache] is a [gmap] from hex digests to verdicts;
      the [setTimeout] callbacks that delete entries are a list of pending
      timers, and a clock in milliseconds says when they fire.
    - Everything asynchronous is an explicit outcome supplied by the
      environment (what the detector answered and after how long, what the
      asset host answered, what the database did).  While a handler waits,
      the clock moves and due timers fire, but no other handler runs: the
      race between two requests for one image is not modelled.
    - Handlers live in a small monad with state, a trace of effects,
      exceptions ([throw]) and early exit ([return res.status(..).json(..)]).
      The deletion handler touches neither the cache nor the clock; it has a
      smaller monad of its own, with its own trace.
    - [Buffer.from(s, 'base64')] and [createHash('md5')] belong to the
      platform; they are modelled after Node's decoder and RFC 1321. *)

From Stdlib Require Import QArith ZArith String Ascii List Bool Lia Lqa.
From stdpp Require Import gmap strings list pretty.

Import ListNotations.
Local Open Scope Z_scope.
Local Open Scope string_scope.
Local Open Scope list_scope.

(** ** JavaScript values and strings *)

(** A value as it can arrive in a JSON request body.  [JObject] stands for
    any object or array; only its string conversion is ever observed. *)
Inductive JsValue : Type :=
| JUndefined
| JNull
| JBool (b : bool)
| JNum (n : Q)
| JStr (s : string)
| JObject (toString : string).

(** [!v] is [negb (truthy v)]. *)
Definition truthy (v : JsValue) : bool :=
  match v with
  | JUndefined | JNull => false
  | JBool b => b
  | JNum n => negb (Qeq_bool n 0)
  | JStr s => negb (String.eqb s EmptyString)
  | JObject _ => true
  end.

(** [v === 0] *)
Definition strict_eq_zero (v : JsValue) : bool :=
  match v with
  | JNum n => Qeq_bool n 0
  | _ => false
  end.

(** An exception object: [error.name] and [error.message]. *)
Record JsError : Type := mkError { err_name : string; err_message : string }.

Definition Error (msg : string) : JsError := mkError "Error" msg.
Definition TypeError (msg : string) : JsError := mkError "TypeError" msg.

(** [s.includes(sub)] *)
Fixpoint includes (s sub : string) : bool :=
  String.prefix sub s ||
  match s with
  | EmptyString => false
  | String _ rest => includes rest sub
  end.

(** If [s] starts with [p], what follows. *)
Fixpoint drop_prefix (p s : string) : option string :=
  match p with
  | EmptyString => Some s
  | String a p' =>
      match s with
      | EmptyString => None
      | String b s' => if Ascii.eqb a b then drop_prefix p' s' else None
      end
  end.

Definition in_range (lo hi c : ascii) : bool :=
  (N.leb (N_of_ascii lo) (N_of_ascii c)) && (N.leb (N_of_ascii c) (N_of_ascii hi)).

Definition is_alnum (c : ascii) : bool :=
  in_range "A" "Z" c || in_range "a" "z" c || in_range "0" "9" c.

(** The regular-expression class [\w]. *)
Definition is_word_char (c : ascii) : bool :=
  is_alnum c || Ascii.eqb c "_".

(** The class [[A-Za-z0-9+/=]]. *)
Definition is_base64_text_char (c : ascii) : bool :=
  is_alnum c || Ascii.eqb c "+" || Ascii.eqb c "/" || Ascii.eqb c "=".

(** Drops the longest run of [\w] characters; says how many were dropped. *)
Fixpoint skip_word_chars (s : string) : nat * string :=
  match s with
  | EmptyString => (O, s)
  | String c rest =>
      if is_word_char c
      then let '(n, r) := skip_word_chars rest in (S n, r)
      else (O, s)
  end.

(** A match of [/^data:image\/\w+;base64,/] at the start of [s]: what is
    left after it.  The character after the [\w+] run has to be [;], which
    is not a word character, so only the longest run can match. *)
Definition match_data_uri_prefix (s : string) : option string :=
  match drop_prefix "data:image/" s with
  | None => None
  | Some r1 =>
      match skip_word_chars r1 with
      | (O, _) => None
      | (S _, r2) => drop_prefix ";base64," r2
      end
  end.

(** [s.replace(/^data:image\/\w+;base64,/, '')] *)
Definition strip_data_uri (s : string) : string :=
  match match_data_uri_prefix s with
  | Some rest => rest
  | None => s
  end.

Fixpoint string_forallb (p : ascii -> bool) (s : string) : bool :=
  match s with
  | EmptyString => true
  | String c rest => p c && string_forallb p rest
  end.

(** [[A-Za-z0-9+/=]+$] *)
Definition is_base64_text (s : string) : bool :=
  negb (String.eqb s EmptyString) && string_forallb is_base64_text_char s.

(** [/^(data:image\/\w+;base64,)?[A-Za-z0-9+/=]+$/.test(s)]: the optional
    group is tried first, then skipped. *)
Definition base64_regex_test (s : string) : bool :=
  match match_data_uri_prefix s with
  | Some rest => is_base64_text rest || is_base64_text s
  | None => is_base64_text s
  end.

Definition is_js_space (c : ascii) : bool :=
  let n := N_of_ascii c in
  (N.eqb n 32 || (N.leb 9 n && N.leb n 13))%N.

Fixpoint trim_start (s : string) : string :=
  match s with
  | EmptyString => s
  | String c rest => if is_js_space c then trim_start rest else s
  end.

Fixpoint trim_end (s : string) : string :=
  match s with
  | EmptyString => s
  | String c rest =>
      match trim_end rest with
      | EmptyString => if is_js_space c then EmptyString else String c EmptyString
      | r => String c r
      end
  end.

(** [s.trim()], on the ASCII white space. *)
Definition trim (s : string) : string := trim_end (trim_start s).

(** ** Platform functions: base64 decoding and MD5 *)

Definition is_base64_digit (c : ascii) : bool :=
  is_alnum c || Ascii.eqb c "+" || Ascii.eqb c "/" || Ascii.eqb c "-" || Ascii.eqb c "_".

(** Node's base64 decoder skips characters outside the alphabet and stops
    at the first [=]: the number of digits it consumes. *)
Fixpoint base64_digits (s : string) : Z :=
  match s with
  | EmptyString => 0
  | String c rest =>
      if Ascii.eqb c "=" then 0
      else (if is_base64_digit c then 1 else 0) + base64_digits rest
  end.

(** [Buffer.from(s, 'base64').length]: every four digits give three bytes,
    a last group of two or three gives one or two. *)
Definition Buffer_from_base64_length (s : string) : Z :=
  3 * base64_digits s / 4.

(** [createHash('md5').update(s).digest('hex')] (RFC 1321), on the bytes of
    the string. *)
Module MD5.

Definition mask32 (x : Z) : Z := Z.land x 4294967295.

Definition rotl (x n : Z) : Z :=
  mask32 (Z.lor (Z.shiftl x n) (Z.shiftr x (32 - n))).

Definition not32 (x : Z) : Z := Z.lxor x 4294967295.

Definition K : list Z :=
  [3614090360; 3905402710; 606105819; 3250441966; 4118548399; 1200080426;
   2821735955; 4249261313; 1770035416; 2336552879; 4294925233; 2304563134;
   1804603682; 4254626195; 2792965006; 1236535329; 4129170786; 3225465664;
   643717713; 3921069994; 3593408605; 38016083; 3634488961; 3889429448;
   568446438; 3275163606; 4107603335; 1163531501; 2850285829; 4243563512;
   1735328473; 2368359562; 4294588738; 2272392833; 1839030562; 4259657740;
   2763975236; 1272893353; 4139469664; 3200236656; 681279174; 3936430074;
   3572445317; 76029189; 3654602809; 3873151461; 530742520; 3299628645;
   4096336452; 1126891415; 2878612391; 4237533241; 1700485571; 2399980690;
   4293915773; 2240044497; 1873313359; 4264355552; 2734768916; 1309151649;
   4149444226; 3174756917; 718787259; 3951481745].

Definition S : list Z :=
  [7; 12; 17; 22; 7; 12; 17; 22; 7; 12; 17; 22; 7; 12; 17; 22;
   5; 9; 14; 20; 5; 9; 14; 20; 5; 9; 14; 20; 5; 9; 14; 20;
   4; 11; 16; 23; 4; 11; 16; 23; 4; 11; 16; 23; 4; 11; 16; 23;
   6; 10; 15; 21; 6; 10; 15; 21; 6; 10; 15; 21; 6; 10; 15; 21].

Definition Words : Type := (Z * Z * Z * Z)%type.

Definition step (M : list Z) (st : Words) (i : nat) : Words :=
  let '(a, b, c, d) := st in
  let iz := Z.of_nat i in
  let '(f, g) :=
    if Z.ltb iz 16 then (Z.lor (Z.land b c) (Z.land (not32 b) d), iz)
    else if Z.ltb iz 32 then (Z.lor (Z.land d b) (Z.land (not32 d) c), (5 * iz + 1) mod 16)
    else if Z.ltb iz 48 then (Z.lxor (Z.lxor b c) d, (3 * iz + 5) mod 16)
    else (Z.lxor c (Z.lor b (not32 d)), (7 * iz) mod 16) in
  let f' := mask32 (f + a + nth i K 0 + nth (Z.to_nat g) M 0) in
  (d, mask32 (b + rotl f' (nth i S 0)), b, c).

Fixpoint words_of_bytes (bs : list Z) : list Z :=
  match bs with
  | b0 :: b1 :: b2 :: b3 :: rest =>
      (b0 + 256 * b1 + 65536 * b2 + 16777216 * b3) :: words_of_bytes rest
  | _ => []
  end.

Definition block (st : Words) (bs : list Z) : Words :=
  let '(a0, b0, c0, d0) := st in
  let '(a, b, c, d) := fold_left (step (words_of_bytes bs)) (seq 0 64) st in
  (mask32 (a0 + a), mask32 (b0 + b), mask32 (c0 + c), mask32 (d0 + d)).

Fixpoint blocks (fuel : nat) (st : Words) (bs : list Z) : Words :=
  match fuel, bs with
  | Datatypes.S fuel', _ :: _ => blocks fuel' (block st (firstn 64 bs)) (skipn 64 bs)
  | _, _ => st
  end.

Fixpoint le_bytes (n : nat) (x : Z) : list Z :=
  match n with
  | O => []
  | Datatypes.S n' => (x mod 256) :: le_bytes n' (x / 256)
  end.

Definition pad (bs : list Z) : list Z :=
  let len := Z.of_nat (length bs) in
  bs ++ [128] ++ repeat 0 (Z.to_nat ((55 - len) mod 64)) ++ le_bytes 8 (8 * len).

Definition bytes_of_string (s : string) : list Z :=
  map (fun c => Z.of_N (N_of_ascii c)) (list_ascii_of_string s).

Definition hex_digit (x : Z) : ascii :=
  if Z.ltb x 10 then ascii_of_N (Z.to_N (48 + x)) else ascii_of_N (Z.to_N (87 + x)).

Fixpoint hex_of_bytes (bs : list Z) : string :=
  match bs with
  | [] => EmptyString
  | b :: rest => String (hex_digit (b / 16)) (String (hex_digit (b mod 16)) (hex_of_bytes rest))
  end.

Definition digest_hex (s : string) : string :=
  let bs := pad (bytes_of_string s) in
  let '(a, b, c, d) :=
    blocks (length bs) (1732584193, 4023233417, 2562383102, 271733878) bs in
  hex_of_bytes (le_bytes 4 a ++ le_bytes 4 b ++ le_bytes 4 c ++ le_bytes 4 d).

End MD5.

(** ** Verdicts, reports and effects *)

(** The object built at the end of [classifyImage]. *)
Record Verdict : Type := mkVerdict {
  isWaste : bool;
  label : string;
  confidence : Q;
  verification : string;
  isHighConfidence : bool;
  isVerifiedWaste : bool;
  modelVersion : string;
  needsImprovement : bool;
  cacheHit : bool
}.

(** [{ ...v, cacheHit: b }] *)
Definition with_cacheHit (v : Verdict) (b : bool) : Verdict :=
  mkVerdict (isWaste v) (label v) (confidence v) (verification v)
    (isHighConfidence v) (isVerifiedWaste v) (modelVersion v)
    (needsImprovement v) b.

(** One element of the detector's result array, as far as it is read. *)
Record Detection : Type := mkDetection {
  det_class : JsValue;
  det_confidence : Q
}.

(** The [aiVerification] sub-document of a report. *)
Record AiVerification : Type := mkAiVerification {
  ai_isWaste : bool;
  ai_confidence : Q;
  ai_verification : string
}.

(** The argument of [new Report({...})].  [parseFloat] and [new Date] are
    not evaluated: the fields keep their arguments ([None] is [new Date()]). *)
Record ReportDoc : Type := mkReportDoc {
  doc_title : string;
  doc_image : string;
  doc_publicId : string;
  doc_details : string;
  doc_address : string;
  doc_reportType : JsValue;
  doc_coordinates : JsValue * JsValue;
  doc_photoTimestamp : option JsValue;
  doc_user : string;
  doc_aiVerification : option AiVerification
}.

(** What [newReport.save()] resolves to. *)
Record SavedReport : Type := mkSavedReport {
  saved_id : string;
  saved_doc : ReportDoc
}.

(** What the code does to the outside world, in order. *)
Inductive Effect : Type :=
| Console (level text : string)
| DetectorRequest (apiKey : option string) (file : string)
| CloudinaryUpload (dataUri : string)
| ReportSave (doc : ReportDoc)
| UserUpdate (user : string) (incReportCount incPoints : JsValue).

(** A call that leaves the process. *)
Definition is_external_call (e : Effect) : bool :=
  match e with
  | Console _ _ => false
  | _ => true
  end.

Definition is_detector_call (e : Effect) : bool :=
  match e with
  | DetectorRequest _ _ => true
  | _ => false
  end.

(** The JSON body of a response of the submission endpoint; a key that is
    not sent is [None]. *)
Record Body : Type := mkBody {
  body_message : string;
  body_code : option string;
  body_missingFields : option (list string);
  body_classification : option Verdict;
  body_error : option string;
  body_report : option SavedReport;
  body_pointsEarned : option JsValue
}.

Record HttpResponse : Type := mkHttpResponse {
  http_status : Z;
  http_body : Body
}.

(** ** The event loop: cache, timers, clock *)

Record State : Type := mkState {
  imageCache : gmap string Verdict;
  timers : list (N * string);
  now : N
}.

Definition initial_state : State := mkState ∅ [] 0%N.

Definition timer_due (t : N) (tm : N * string) : bool := (tm.1 <=? t)%N.

(** The clock moves on by [dt]; the timers that are due run their
    [imageCache.delete(hash)]. *)
Definition advance (dt : N) (s : State) : State :=
  let t := (now s + dt)%N in
  mkState
    (foldr (fun tm c => delete tm.2 c) (imageCache s) (filter (fun tm => timer_due t tm = true) (timers s)))
    (filter (fun tm => timer_due t tm = false) (timers s))
    t.

(** ** The handler monad *)

Inductive Outcome (A : Type) : Type :=
| Normal (a : A)
| Throw (e : JsError)
| Respond (r : HttpResponse).

Arguments Normal {A} a.
Arguments Throw {A} e.
Arguments Respond {A} r.

Definition M (A : Type) : Type := State -> Outcome A * State * list Effect.

#[global] Instance M_ret : MRet M := fun A a s => (Normal a, s, []).

#[global] Instance M_bind : MBind M := fun A B f m s =>
  match m s with
  | (Normal a, s1, t1) => let '(o, s2, t2) := f a s1 in (o, s2, t1 ++ t2)
  | (Throw e, s1, t1) => (Throw e, s1, t1)
  | (Respond r, s1, t1) => (Respond r, s1, t1)
  end.

Definition throw {A : Type} (e : JsError) : M A := fun s => (Throw e, s, []).

(** [return res.status(status).json(body)] *)
Definition respond {A : Type} (status : Z) (body : Body) : M A :=
  fun s => (Respond (mkHttpResponse status body), s, []).

(** [try { m } catch (error) { h error }]; a [return] inside [m] is no
    exception. *)
Definition try_catch {A : Type} (m : M A) (h : JsError -> M A) : M A := fun s =>
  match m s with
  | (Throw e, s1, t1) => let '(o, s2, t2) := h e s1 in (o, s2, t1 ++ t2)
  | r => r
  end.

Definition emit (e : Effect) : M unit := fun s => (Normal tt, s, [e]).

Definition console (level text : string) : M unit := emit (Console level text).

Definition get_state : M State := fun s => (Normal s, s, []).

Definition modify (f : State -> State) : M unit := fun s => (Normal tt, f s, []).

(** [await] on something that settles after [dt] milliseconds. *)
Definition await {A : Type} (dt : N) (result : JsError + A) : M A :=
  modify (advance dt);;
  match result with
  | inl e => throw e
  | inr a => mret a
  end.

(** [imageCache.set(hash, result)] *)
Definition cache_set (hash : string) (v : Verdict) : M unit :=
  modify (fun s => mkState (<[hash := v]> (imageCache s)) (timers s) (now s)).

(** [setTimeout(() => imageCache.delete(hash), ms)] *)
Definition set_delete_timeout (hash : string) (ms : N) : M unit :=
  modify (fun s => mkState (imageCache s) (timers s ++ [((now s + ms)%N, hash)]) (now s)).

(** ** What the detector can answer *)

(** The parsed JSON body, as far as [classifyImage] looks into it:
    [data.images[0].results] and [data.predictions[0].detections], each
    [None] when the path is missing or falsy.  [Unreadable] is a body on
    which reading the detections throws (the JSON value [null], a results
    field that is no array of objects). *)
Inductive DetectorData : Type :=
| Shapes (images_0_results predictions_0_detections : option (list Detection))
| Unreadable (e : JsError).

Record DetectorResponse : Type := mkDetectorResponse {
  resp_status : Z;
  resp_text : JsError + string;
  resp_json : JsError + DetectorData
}.

(** [response.ok] *)
Definition resp_ok (r : DetectorResponse) : bool :=
  (200 <=? resp_status r)%Z && (resp_status r <=? 299)%Z.

(** How the [fetch] promise settles when nobody aborts it, and after how
    many milliseconds. *)
Record FetchOutcome : Type := mkFetchOutcome {
  fetch_latency : N;
  fetch_result : JsError + DetectorResponse
}.

(** What [controller.abort()] makes [fetch] reject with. *)
Definition AbortError : JsError := mkError "AbortError" "The user aborted a request.".

(** [await fetch(url, { ..., signal })] with
    [setTimeout(() => controller.abort(), ms)] pending: the timer wins when
    it is due no later than the answer. *)
Definition fetch_with_abort (ms : N) (net : FetchOutcome) : M DetectorResponse :=
  if (ms <=? fetch_latency net)%N
  then await ms (inl AbortError)
  else await (fetch_latency net) (fetch_result net).

(** ** Deriving the verdict *)

Definition MIN_CONFIDENCE : Q := 0.65.
Definition HIGH_CONFIDENCE_THRESHOLD : Q := 0.85.

(** [a >= b], [a < b] and [a > b] on numbers *)
Definition Qge_bool (a b : Q) : bool := Qle_bool b a.
Definition Qlt_bool (a b : Q) : bool := negb (Qle_bool b a).
Definition Qgt_bool (a b : Q) : bool := negb (Qle_bool a b).

(** [Math.max(x, ...xs)] *)
Definition Math_max (x : Q) (xs : list Q) : Q :=
  fold_left (fun m y => if Qgt_bool y m then y else m) xs x.

(** [detections.filter(det => det.class === 0)] *)
Definition wasteDetections (detections : list Detection) : list Detection :=
  List.filter (fun det => strict_eq_zero (det_class det)) detections.

(** [wasteDetections.length > 0 ? Math.max(...confidences) : 0] *)
Definition maxConfidence (detections : list Detection) : Q :=
  match map det_confidence (wasteDetections detections) with
  | [] => 0%Q
  | c :: cs => Math_max c cs
  end.

(** The [result] object built from the detections. *)
Definition verdict_of_detections (detections : list Detection) : Verdict :=
  let maxConfidence := maxConfidence detections in
  let isWaste := Qge_bool maxConfidence 0.25 in
  let verification :=
    if isWaste then
      if Qge_bool maxConfidence HIGH_CONFIDENCE_THRESHOLD then "high_confidence"
      else if Qge_bool maxConfidence MIN_CONFIDENCE then "medium_confidence"
      else "unverified"
    else "unverified" in
  {| isWaste := isWaste;
     label := if isWaste then "waste" else "non-waste";
     confidence := maxConfidence;
     verification := verification;
     isHighConfidence := Qge_bool maxConfidence HIGH_CONFIDENCE_THRESHOLD;
     isVerifiedWaste := isWaste && Qge_bool maxConfidence HIGH_CONFIDENCE_THRESHOLD;
     modelVersion := "YOLOv8";
     needsImprovement := isWaste && Qgt_bool maxConfidence 0.7 && Qlt_bool maxConfidence 0.85;
     cacheHit := false |}.

(** The [catch] block of [classifyImage]; [secs] is the bound named in the
    message. *)
Definition classify_catch {A : Type} (secs : string) (error : JsError) : M A :=
  console "error" "Ultralytics API Error:";;
  if String.eqb (err_name error) "AbortError" then
    throw (Error ("SERVICE_TIMEOUT: Request timed out after " +:+ secs +:+ " seconds"))
  else if includes (err_message error) "ECONNREFUSED" || includes (err_message error) "ENOTFOUND" then
    throw (Error "SERVICE_DOWN: API server is unreachable")
  else if includes (err_message error) "SERVICE_TIMEOUT" then
    throw (Error "SERVICE_TIMEOUT: Request timed out")
  else
    throw (Error ("SERVICE_ERROR: " +:+ err_message error)).

(** ** The gateway with the 30 s bound (the unnamed module) *)

Module Gateway.

Definition classifyImage (apiKey : option string) (imageBase64 : string)
    (net : FetchOutcome) : M Verdict :=
  let hash := MD5.digest_hex imageBase64 in
  s ← get_state;
  match imageCache s !! hash with
  | Some cached => mret (with_cacheHit cached true)
  | None =>
      let rawBase64 := strip_data_uri imageBase64 in
      console "log" "Ultralytics API Key:";;
      try_catch
        (console "log" "Sending request to Ultralytics API...";;
         emit (DetectorRequest apiKey rawBase64);;
         response ← fetch_with_abort 30000 net;
         console "log" "Received response:";;
         if negb (resp_ok response) then
           errorText ← await 0 (resp_text response);
           console "error" "API Error Details:";;
           throw (Error ("API_ERROR: " +:+ pretty (resp_status response) +:+ " - " +:+ errorText))
         else
           data ← await 0 (resp_json response);
           console "log" "Full API Response:";;
           detections ←
             match data with
             | Unreadable e => throw e
             | Shapes (Some results) _ => mret results
             | Shapes None (Some detections) => mret detections
             | Shapes None None => console "warn" "Unexpected response format:";; mret []
             end;
           console "log" "All detected classes:";;
           let result := verdict_of_detections detections in
           cache_set hash result;;
           set_delete_timeout hash 300000;;
           mret result)
        (classify_catch "30")
  end.

End Gateway.

(** ** The gateway with the 10 s bound ([services/classificationService.js]) *)

Module Service.

Definition classifyImage (apiKey : option string) (imageBase64 : string)
    (net : FetchOutcome) : M Verdict :=
  let hash := MD5.digest_hex imageBase64 in
  s ← get_state;
  match imageCache s !! hash with
  | Some cached => mret cached
  | None =>
      let rawBase64 := strip_data_uri imageBase64 in
      try_catch
        (emit (DetectorRequest apiKey rawBase64);;
         response ← fetch_with_abort 10000 net;
         if negb (resp_ok response) then
           errorText ← await 0 (resp_text response);
           throw (Error ("API_ERROR: " +:+ pretty (resp_status response) +:+ " - " +:+ errorText))
         else
           data ← await 0 (resp_json response);
           detections ←
             match data with
             | Unreadable e => throw e
             | Shapes (Some results) _ => mret results
             | Shapes None _ => mret []
             end;
           let result := verdict_of_detections detections in
           cache_set hash result;;
           set_delete_timeout hash 300000;;
           mret result)
        (classify_catch "10")
  end.

End Service.

(** ** The submission endpoint ([router.post('/')]) *)

(** [req.body] after destructuring, and [req.user._id]. *)
Record Request : Type := mkRequest {
  title : JsValue;
  image : JsValue;
  details : JsValue;
  address : JsValue;
  latitude : JsValue;
  longitude : JsValue;
  photoTimestamp : JsValue;
  reportType : JsValue;
  forceSubmit : JsValue;
  user_id : string
}.

(** What [cloudinary.uploader.upload] resolves to. *)
Record UploadResponse : Type := mkUploadResponse {
  secure_url : string;
  public_id : string
}.

(** What the environment does with each asynchronous call of one request,
    should the handler get to it. *)
Record World : Type := mkWorld {
  ULTRALYTICS_API_KEY : option string;
  detector : FetchOutcome;
  upload_latency : N;
  upload_result : JsError + UploadResponse;
  save_latency : N;
  save_result : JsError + string;
  ledger_latency : N;
  ledger_result : JsError + unit
}.

(** [a || b] *)
Definition js_or (a b : JsValue) : JsValue := if truthy a then a else b.

(** Calling a [String.prototype] method on [v]: the string it is called on,
    or the [TypeError] the call throws. *)
Definition string_method (v : JsValue) (name method : string) : M string :=
  match v with
  | JStr s => mret s
  | JUndefined =>
      throw (TypeError ("Cannot read properties of undefined (reading '" +:+ method +:+ "')"))
  | JNull =>
      throw (TypeError ("Cannot read properties of null (reading '" +:+ method +:+ "')"))
  | _ => throw (TypeError (name +:+ "." +:+ method +:+ " is not a function"))
  end.

(** [if (b) m] *)
Definition when_ (b : bool) (m : M unit) : M unit := if b then m else mret tt.

(** The names every object inherits from [Object.prototype]. *)
Definition inherited_functions : list string :=
  ["constructor"; "hasOwnProperty"; "isPrototypeOf"; "propertyIsEnumerable";
   "toLocaleString"; "toString"; "valueOf"; "__defineGetter__";
   "__defineSetter__"; "__lookupGetter__"; "__lookupSetter__"].

(** [pointsMap[key]] for [pointsMap = { standard: 10, hazardous: 20, large: 15 }].
    A number or a boolean converts to a key that names no property. *)
Definition pointsMap_get (key : JsValue) : JsValue :=
  match key with
  | JStr k | JObject k =>
      if String.eqb k "standard" then JNum 10
      else if String.eqb k "hazardous" then JNum 20
      else if String.eqb k "large" then JNum 15
      else if String.eqb k "__proto__" then JObject "[object Object]"
      else if existsb (String.eqb k) inherited_functions
      then JObject ("function " +:+ k +:+ "() { [native code] }")
      else JUndefined
  | _ => JUndefined
  end.

(** The [missingFields] array after the five pushes. *)
Definition missing_fields (req : Request) : list string :=
  (if truthy (title req) then [] else ["title"]) ++
  (if truthy (image req) then [] else ["image"]) ++
  (if truthy (details req) then [] else ["details"]) ++
  (if truthy (address req) then [] else ["address"]) ++
  (if truthy (latitude req) && truthy (longitude req) then [] else ["location"]).

(** [Promise.race([cloudinaryPromise, uploadTimeout])] with the 15 s timer. *)
Definition upload_race (w : World) : M UploadResponse :=
  if (15000 <=? upload_latency w)%N
  then await 15000 (inl (Error "CLOUDINARY_TIMEOUT"))
  else await (upload_latency w) (upload_result w).

Definition ai_of_verdict (classification : Verdict) : AiVerification :=
  mkAiVerification (isWaste classification) (confidence classification)
    (verification classification).

(** [reportType || 'standard'] *)
Definition finalReportType (req : Request) : JsValue :=
  js_or (reportType req) (JStr "standard").

(** [pointsMap[finalReportType] || 10] *)
Definition pointsToAdd (req : Request) : JsValue :=
  js_or (pointsMap_get (finalReportType req)) (JNum 10).

(** Lines 31-62, "Server-side validation" and "Base64 validation": the size
    check reads [image] first, then come the required fields, then the
    pattern.  The value is the image string. *)
Definition validate (req : Request) : M string :=
  image_s ← string_method (image req) "image" "replace";
  let base64Data := strip_data_uri image_s in
  when_ (5 * 1024 * 1024 <? Buffer_from_base64_length base64Data)%Z
    (respond 413
       (mkBody "Image too large (max 5MB)" (Some "IMAGE_TOO_LARGE")
          None None None None None));;
  let missingFields := missing_fields req in
  when_ (0 <? length missingFields)%nat
    (respond 400
       (mkBody ("Missing required fields: " +:+ String.concat ", " missingFields)
          (Some "MISSING_FIELDS") (Some missingFields) None None None None));;
  when_ (negb (base64_regex_test image_s))
    (respond 400
       (mkBody "Invalid image format" (Some "INVALID_IMAGE_FORMAT")
          None None None None None));;
  mret image_s.

(** Lines 97-127, "Cloudinary upload with timeout". *)
Definition host (w : World) (image_s : string) : M UploadResponse :=
  try_catch
    (emit (CloudinaryUpload ("data:image/jpeg;base64," +:+ image_s));;
     upload_race w)
    (fun uploadError =>
       console "error" "Cloudinary Upload Error:";;
       if String.eqb (err_message uploadError) "CLOUDINARY_TIMEOUT" then
         respond 504
           (mkBody "Image upload timed out" (Some "CLOUDINARY_TIMEOUT")
              None None None None None)
       else
         respond 500
           (mkBody "Image upload failed" (Some "CLOUDINARY_ERROR")
              None None (Some (err_message uploadError)) None None)).

(** Lines 129-151, "Create report in DB". *)
Definition persist (req : Request) (w : World) (classification : option Verdict)
    (uploadResponse : UploadResponse) : M SavedReport :=
  title_s ← string_method (title req) "title" "trim";
  details_s ← string_method (details req) "details" "trim";
  address_s ← string_method (address req) "address" "trim";
  let newReport :=
    {| doc_title := trim title_s;
       doc_image := secure_url uploadResponse;
       doc_publicId := public_id uploadResponse;
       doc_details := trim details_s;
       doc_address := trim address_s;
       doc_reportType := finalReportType req;
       doc_coordinates := (longitude req, latitude req);
       doc_photoTimestamp :=
         if truthy (photoTimestamp req) then Some (photoTimestamp req) else None;
       doc_user := user_id req;
       doc_aiVerification := ai_of_verdict <$> classification |} in
  emit (ReportSave newReport);;
  id ← await (save_latency w) (save_result w);
  mret (mkSavedReport id newReport).

(** Lines 153-162, "Update user points". *)
Definition award (req : Request) (w : World) : M unit :=
  try_catch
    (emit (UserUpdate (user_id req) (JNum 1) (pointsToAdd req));;
     await (ledger_latency w) (ledger_result w))
    (fun updateError => console "error" "User update error:").

(** Lines 170-184, the [catch] of the whole handler. *)
Definition on_error (error : JsError) : M unit :=
  console "error" "Report Creation Error:";;
  if String.eqb (err_name error) "ValidationError" then
    respond 400
      (mkBody "Validation Error" (Some "VALIDATION_ERROR") None None
         (Some (err_message error)) None None)
  else
    respond 500
      (mkBody "Internal server error" (Some "INTERNAL_SERVER_ERROR") None None
         (Some (err_message error)) None None).

Section Router.

(** The default export of the module the router imports as [classifyImage],
    with the value of [process.env.ULTRALYTICS_API_KEY] it reads. *)
Variable classifyImage : option string -> string -> FetchOutcome -> M Verdict.

(** Lines 64-95, "Only run AI check if user hasn't forced the submit". *)
Definition classify_or_skip (req : Request) (w : World) (image_s : string)
    : M (option Verdict) :=
  if negb (truthy (forceSubmit req)) then
    try_catch
      (classification ← classifyImage (ULTRALYTICS_API_KEY w) image_s (detector w);
       when_ (negb (isWaste classification))
         (respond 400
            (mkBody "Image does not show recognizable waste" (Some "NOT_WASTE")
               None (Some classification) None None None));;
       when_ (Qlt_bool (confidence classification) 0.7)
         (respond 400
            (mkBody "Low confidence in waste detection" (Some "LOW_CONFIDENCE")
               None (Some classification) None None None));;
       mret (Some classification))
      (fun error =>
         console "error" "Classification Error:";;
         respond 503
           (mkBody "Waste verification service unavailable"
              (Some "SERVICE_UNAVAILABLE") None None
              (Some (err_message error)) None None))
  else mret None.

(** The handler of [router.post('/')], after [protectRoute]. *)
Definition submit (req : Request) (w : World) : M unit :=
  try_catch
    (image_s ← validate req;
     classification ← classify_or_skip req w image_s;
     uploadResponse ← host w image_s;
     savedReport ← persist req w classification uploadResponse;
     award req w;;
     respond 201
       (mkBody "Report created successfully" None None classification None
          (Some savedReport) (Some (pointsToAdd req))))
    on_error.

End Router.

(** ** The diagnostic endpoint ([router.post('/test-classify')]) *)

(** The JSON body of an answer of the endpoint: the verdict itself, or an
    object with [error] and one of [code] and [details]. *)
Inductive TestBody : Type :=
| VerdictBody (result : Verdict)
| ErrorBody (error : string) (code details : option string).

Record TestResponse : Type := mkTestResponse {
  test_status : Z;
  test_body : TestBody
}.

Section TestClassify.

(** The default export of the module the router imports as [classifyImage],
    and the message of the [TypeError] that [createHash('md5').update(v)]
    throws for a [v] that is not a string (line 15 of the gateway, before its
    [try]). *)
Variable classifyImage : option string -> string -> FetchOutcome -> M Verdict.
Variable ERR_INVALID_ARG_TYPE : JsValue -> string.

(** [classifyImage(image)] for whatever the body held. *)
Definition classifyImage_of_value (w : World) (image : JsValue) : M Verdict :=
  match image with
  | JStr image_s => classifyImage (ULTRALYTICS_API_KEY w) image_s (detector w)
  | v => throw (TypeError (ERR_INVALID_ARG_TYPE v))
  end.

(** The handler, after [protectRoute], for a [req.body] that holds [image];
    its value is the response it sends. *)
Definition test_classify (image : JsValue) (w : World) : M TestResponse :=
  try_catch
    (if negb (truthy image) then
       mret (mkTestResponse 400 (ErrorBody "No image provided" (Some "MISSING_IMAGE") None))
     else
       result ← classifyImage_of_value w image;
       mret (mkTestResponse 200 (VerdictBody result)))
    (fun error =>
       console "error" "Test classification error:";;
       mret (mkTestResponse 500
               (ErrorBody "Classification failed" None (Some (err_message error))))).

End TestClassify.

(** ** The deletion endpoint ([router.delete('/:id')]) *)

(** What the handler reads of the document [Report.findById] resolves to:
    [report.user.toString()], [report.publicId], [report.reportType]. *)
Record StoredReport : Type := mkStoredReport {
  stored_user : string;
  stored_publicId : JsValue;
  stored_reportType : JsValue
}.

(** What the handler does to the outside world, in order.  The update of
    the user is [$inc: { reportCount: -1, points: -pointsToDeduct }]; the
    effect keeps the operand of the minus. *)
Inductive StoreEffect : Type :=
| StoreConsole (level text : string)
| FindById (id : string)
| CloudinaryDestroy (publicId : JsValue)
| UserDecrement (user : string) (pointsToDeduct : JsValue)
| DeleteOne (id : string).

(** What the environment does with each asynchronous call of one request,
    should the handler get to it. *)
Record Store : Type := mkStore {
  find_result : JsError + option StoredReport;
  destroy_result : JsError + unit;
  decrement_result : JsError + unit;
  deleteOne_result : JsError + unit
}.

(** The handler touches neither the cache nor the clock: an outcome and a
    trace. *)
Definition StoreM (A : Type) : Type := (Outcome A * list StoreEffect)%type.

#[global] Instance StoreM_ret : MRet StoreM := fun A a => (Normal a, []).

#[global] Instance StoreM_bind : MBind StoreM := fun A B f m =>
  match m with
  | (Normal a, t1) => let '(o, t2) := f a in (o, t1 ++ t2)
  | (Throw e, t1) => (Throw e, t1)
  | (Respond r, t1) => (Respond r, t1)
  end.

Definition store_emit (e : StoreEffect) : StoreM unit := (Normal tt, [e]).

Definition store_await {A : Type} (result : JsError + A) : StoreM A :=
  match result with
  | inl e => (Throw e, [])
  | inr a => (Normal a, [])
  end.

(** [return res.status(status).json({ message })] *)
Definition store_respond {A : Type} (status : Z) (message : string) : StoreM A :=
  (Respond (mkHttpResponse status (mkBody message None None None None None None)), []).

Definition store_try_catch {A : Type} (m : StoreM A) (h : JsError -> StoreM A) : StoreM A :=
  match m with
  | (Throw e, t1) => let '(o, t2) := h e in (o, t1 ++ t2)
  | r => r
  end.

Definition store_when (b : bool) (m : StoreM unit) : StoreM unit := if b then m else mret tt.

(** [report.reportType ? pointsMap[report.reportType] || 10 : 10] *)
Definition pointsToDeduct (reportType : JsValue) : JsValue :=
  if truthy reportType then js_or (pointsMap_get reportType) (JNum 10) else JNum 10.

(** The handler, after [protectRoute]: [id] is [req.params.id], [user] is
    [req.user._id.toString()]. *)
Definition delete_report (id user : string) (db : Store) : StoreM unit :=
  store_try_catch
    (report ← (store_emit (FindById id);; store_await (find_result db));
     match report with
     | None => store_respond 404 "Report not found"
     | Some report =>
         store_when (negb (String.eqb (stored_user report) user))
           (store_respond 401 "Unauthorized");;
         store_when (truthy (stored_publicId report))
           (store_try_catch
              (store_emit (CloudinaryDestroy (stored_publicId report));;
               store_await (destroy_result db))
              (fun deleteError => store_emit (StoreConsole "error" "Cloudinary deletion error:")));;
         store_emit (UserDecrement user (pointsToDeduct (stored_reportType report)));;
         store_await (decrement_result db);;
         store_emit (DeleteOne id);;
         store_await (deleteOne_result db);;
         store_respond 200 "Report deleted successfully"
     end)
    (fun error =>
       store_emit (StoreConsole "error" "Delete Report Error:");;
       store_respond 500 "Internal Server Error").

(** ** The keep-alive job (the [cron.CronJob] that follows the 10 s gateway) *)

(** [s.replace(/\/{2,}/g, '/')]: every run of two or more slashes becomes
    one slash. *)
Fixpoint collapse_slashes (s : string) : string :=
  match s with
  | EmptyString => EmptyString
  | String c rest =>
      match rest with
      | EmptyString => String c EmptyString
      | String c' _ =>
          if Ascii.eqb c "/" && Ascii.eqb c' "/"
          then collapse_slashes rest
          else String c (collapse_slashes rest)
      end
  end.

(** What [new URL(process.env.API_URL)] gives, as far as it is read. *)
Record ParsedUrl : Type := mkParsedUrl {
  url_hostname : string;
  url_pathname : string;
  url_port : string
}.

(** The [options] of the request; [port] is the string of the URL or the
    number 443. *)
Record RequestOptions : Type := mkRequestOptions {
  opt_hostname : string;
  opt_path : string;
  opt_method : string;
  opt_port : string + Z;
  opt_userAgent : string
}.

Inductive JobEffect : Type :=
| JobConsole (level text : string)
| HttpsRequest (options : RequestOptions).

(** [`${apiUrl.pathname}/health`.replace(/\/{2,}/g, '/')] *)
Definition health_path (pathname : string) : string :=
  collapse_slashes (pathname +:+ "/health").

Definition health_options (apiUrl : ParsedUrl) : RequestOptions :=
  {| opt_hostname := url_hostname apiUrl;
     opt_path := health_path (url_pathname apiUrl);
     opt_method := "GET";
     opt_port := if String.eqb (url_port apiUrl) EmptyString then inr 443
                 else inl (url_port apiUrl);
     opt_userAgent := "GreenSnap-Health-Check" |}.

(** One run of the job: [API_URL] is [process.env.API_URL], [parse] is
    [new URL], [answer] is what comes back, a status code or a connection
    error.  [https.request] itself is taken not to throw. *)
Definition health_check (API_URL : option string) (parse : string -> JsError + ParsedUrl)
    (answer : JsError + Z) : list JobEffect :=
  match API_URL with
  | None | Some EmptyString =>
      [JobConsole "error" "Health check failed: API_URL environment variable is not set"]
  | Some url =>
      match parse url with
      | inl e => [JobConsole "error" "Health check setup failed:"]
      | inr apiUrl =>
          HttpsRequest (health_options apiUrl) ::
          match answer with
          | inr statusCode =>
              if Z.eqb statusCode 200
              then [JobConsole "log" "Health check successful"]
              else [JobConsole "log"
                      ("Health check failed with status: " +:+ pretty statusCode)]
          | inl e => [JobConsole "error" "Health check connection error:"]
          end
      end
  end.

(** * Properties *)

(** ** The digest on known inputs *)

Example md5_empty : MD5.digest_hex EmptyString = "d41d8cd98f00b204e9800998ecf8427e".
Proof. vm_compute. reflexivity. Qed.

Example md5_abc : MD5.digest_hex "abc" = "900150983cd24fb0d6963f7d28e17f72".
Proof. vm_compute. reflexivity. Qed.

Example md5_two_blocks :
  MD5.digest_hex
    "aaaaaaaaaaaaaaaaaaaaaaaaaaaaaaaaaaaaaaaaaaaaaaaaaaaaaaaaaaaaaaaaaaaaaa"
  = "0f5c6c4e740bfcc08c3c26ccb2673d46".
Proof. vm_compute. reflexivity. Qed.

(** ** Numbers *)

Lemma Qge_bool_iff (a b : Q) : Qge_bool a b = true <-> (b <= a)%Q.
Proof. unfold Qge_bool. apply Qle_bool_iff. Qed.

Lemma Qlt_bool_iff (a b : Q) : Qlt_bool a b = true <-> (a < b)%Q.
Proof.
  unfold Qlt_bool. rewrite negb_true_iff, <- not_true_iff_false, Qle_bool_iff.
  split; [apply Qnot_le_lt | apply Qlt_not_le].
Qed.

Lemma Qgt_bool_iff (a b : Q) : Qgt_bool a b = true <-> (b < a)%Q.
Proof. apply (Qlt_bool_iff b a). Qed.

Lemma Qge_bool_false_iff (a b : Q) : Qge_bool a b = false <-> (a < b)%Q.
Proof.
  unfold Qge_bool. rewrite <- not_true_iff_false, Qle_bool_iff.
  split; [apply Qnot_le_lt | apply Qlt_not_le].
Qed.

Lemma Math_max_ge_first (xs : list Q) : forall x, (x <= Math_max x xs)%Q.
Proof.
  unfold Math_max. induction xs as [|y ys IH]; intros x; simpl.
  - apply Qle_refl.
  - destruct (Qgt_bool y x) eqn:E.
    + apply Qgt_bool_iff in E. eapply Qle_trans; [apply Qlt_le_weak, E | apply IH].
    + apply IH.
Qed.

Lemma Math_max_ge (xs : list Q) : forall x y, In y xs -> (y <= Math_max x xs)%Q.
Proof.
  induction xs as [|z zs IH]; intros x y Hin; [destruct Hin|].
  unfold Math_max in *. simpl. destruct Hin as [->|Hin].
  - destruct (Qgt_bool y x) eqn:E.
    + apply (Math_max_ge_first zs y).
    + eapply Qle_trans; [|apply (Math_max_ge_first zs x)].
      unfold Qgt_bool in E. apply negb_false_iff, Qle_bool_iff in E. exact E.
  - apply IH, Hin.
Qed.

Lemma Math_max_in (xs : list Q) : forall x, In (Math_max x xs) (x :: xs).
Proof.
  unfold Math_max. induction xs as [|y ys IH]; intros x; simpl.
  - now left.
  - destruct (Qgt_bool y x).
    + right. apply IH.
    + destruct (IH x) as [H|H]; [left | right; right]; exact H.
Qed.

(** ** The confidence is the largest waste-class confidence *)

Definition is_waste_class (d : Detection) : Prop := strict_eq_zero (det_class d) = true.

Lemma wasteDetections_In (ds : list Detection) (d : Detection) :
  In d (wasteDetections ds) <-> In d ds /\ is_waste_class d.
Proof. unfold wasteDetections, is_waste_class. apply filter_In. Qed.

Lemma maxConfidence_upper (ds : list Detection) (d : Detection) :
  In d ds -> is_waste_class d -> (det_confidence d <= maxConfidence ds)%Q.
Proof.
  intros Hin Hw. unfold maxConfidence.
  assert (Hc : In (det_confidence d) (map det_confidence (wasteDetections ds))).
  { apply in_map, wasteDetections_In. now split. }
  destruct (map det_confidence (wasteDetections ds)) as [|c cs]; [destruct Hc|].
  destruct Hc as [->|Hc].
  - apply Math_max_ge_first.
  - now apply Math_max_ge.
Qed.

Lemma maxConfidence_attained (ds : list Detection) :
  wasteDetections ds <> [] ->
  exists d, In d ds /\ is_waste_class d /\ maxConfidence ds = det_confidence d.
Proof.
  intros Hne. unfold maxConfidence.
  destruct (map det_confidence (wasteDetections ds)) as [|c cs] eqn:E.
  - destruct (wasteDetections ds); [now destruct Hne | discriminate E].
  - pose proof (Math_max_in cs c) as Hin. rewrite <- E in Hin.
    apply in_map_iff in Hin as (d & Hd & Hin).
    apply wasteDetections_In in Hin as [Hin Hw]. now exists d.
Qed.

Lemma maxConfidence_none (ds : list Detection) :
  wasteDetections ds = [] -> maxConfidence ds = 0%Q.
Proof. intros E. unfold maxConfidence. now rewrite E. Qed.

(** ** Time passing *)

Arguments MD5.digest_hex : simpl never.

Lemma foldr_delete_lookup (tms : list (N * string)) (c : gmap string Verdict) (h : string) :
  foldr (fun tm c => delete tm.2 c) c tms !! h =
  if decide (h ∈ tms.*2) then None else c !! h.
Proof.
  induction tms as [|[d k] tms IH].
  - destruct (decide (h ∈ ([] : list (N * string)).*2)) as [Hin|_]; [|done].
    now apply elem_of_nil in Hin.
  - change (delete k (foldr (fun tm c => delete tm.2 c) c tms) !! h =
            if decide (h ∈ k :: tms.*2) then None else c !! h).
    destruct (decide (k = h)) as [->|Hne].
    + rewrite lookup_delete_eq. destruct (decide (h ∈ h :: tms.*2)) as [_|Hnin]; [done |].
      exfalso. apply Hnin. left.
    + rewrite lookup_delete_ne, IH by done.
      destruct (decide (h ∈ tms.*2)) as [Hin|Hnin];
        destruct (decide (h ∈ k :: tms.*2)) as [Hin'|Hnin']; try done.
      * exfalso. apply Hnin'. now right.
      * exfalso. apply elem_of_cons in Hin' as [->|Hin']; [done | now apply Hnin].
Qed.

(** A key is still cached after [dt] exactly when it was cached and none of
    its timers was due. *)
Lemma advance_lookup_Some (dt : N) (s : State) (h : string) (v : Verdict) :
  imageCache (advance dt s) !! h = Some v <->
  imageCache s !! h = Some v /\ forall d, (d, h) ∈ timers s -> (now s + dt < d)%N.
Proof.
  unfold advance. simpl. rewrite foldr_delete_lookup.
  destruct (decide (h ∈ (filter (fun tm => timer_due (now s + dt) tm = true) (timers s)).*2))
    as [Hin|Hnin].
  - split; [discriminate |]. intros [_ Hall].
    apply list_elem_of_fmap in Hin as ([d k] & -> & Hin).
    apply list_elem_of_filter in Hin as [Hdue Hin].
    unfold timer_due in Hdue. simpl in Hdue. apply N.leb_le in Hdue.
    apply Hall in Hin. lia.
  - split; [| now intros [? _]]. intros Hv. split; [exact Hv |].
    intros d Hin. destruct (N.lt_ge_cases (now s + dt) d) as [Hlt|Hge]; [exact Hlt |].
    exfalso. apply Hnin. apply list_elem_of_fmap. exists (d, h). split; [done |].
    apply list_elem_of_filter. split; [| exact Hin].
    unfold timer_due. simpl. now apply N.leb_le.
Qed.

Lemma advance_timers (dt : N) (s : State) (tm : N * string) :
  tm ∈ timers (advance dt s) <-> tm ∈ timers s /\ (now s + dt < tm.1)%N.
Proof.
  unfold advance. simpl. rewrite list_elem_of_filter. unfold timer_due.
  rewrite N.leb_gt. tauto.
Qed.

Lemma advance_now (dt : N) (s : State) : now (advance dt s) = (now s + dt)%N.
Proof. reflexivity. Qed.

Lemma advance_cache_subseteq (dt : N) (s : State) (h : string) (v : Verdict) :
  imageCache (advance dt s) !! h = Some v -> imageCache s !! h = Some v.
Proof. rewrite advance_lookup_Some. now intros [? _]. Qed.

Lemma State_eq (s1 s2 : State) :
  imageCache s1 = imageCache s2 -> timers s1 = timers s2 -> now s1 = now s2 -> s1 = s2.
Proof. destruct s1, s2. simpl. now intros -> -> ->. Qed.

(** Waiting twice is waiting once for the sum. *)
Lemma advance_advance (a b : N) (s : State) :
  advance b (advance a s) = advance (a + b) s.
Proof.
  apply State_eq.
  - apply map_eq. intros h. apply option_eq. intros v.
    rewrite !advance_lookup_Some. rewrite advance_now. split.
    + intros [[Hv Ha] Hb]. split; [exact Hv |]. intros d Hin.
      destruct (N.lt_ge_cases (now s + a) d) as [Hlt|Hge].
      * specialize (Hb d). rewrite advance_timers in Hb.
        specialize (Hb (conj Hin Hlt)). lia.
      * specialize (Ha d Hin). lia.
    + intros [Hv Hab]. split; [split; [exact Hv |] |].
      * intros d Hin. specialize (Hab d Hin). lia.
      * intros d Hin. apply advance_timers in Hin as [Hin _].
        specialize (Hab d Hin). lia.
  - unfold advance. simpl. induction (timers s) as [|tm tms IH]; [done |].
    rewrite !filter_cons. unfold timer_due in *.
    destruct (decide ((tm.1 <=? now s + a)%N = false)) as [Ha|Ha];
      destruct (decide ((tm.1 <=? now s + (a + b))%N = false)) as [Hab|Hab].
    + rewrite filter_cons, decide_True; [now rewrite IH |].
      apply N.leb_gt. apply N.leb_gt in Hab. lia.
    + rewrite filter_cons, decide_False; [exact IH |].
      intros H. apply Hab. apply N.leb_gt. apply N.leb_gt in H. lia.
    + exfalso. apply Ha. apply N.leb_gt. apply N.leb_gt in Hab. lia.
    + exact IH.
  - simpl. lia.
Qed.

Lemma advance_min_zero (dt : N) (s : State) : advance 0 (advance dt s) = advance dt s.
Proof. rewrite advance_advance. now rewrite N.add_0_r. Qed.

(** ** Running the gateway *)

(** The state after [imageCache.set(hash, v)] and the [setTimeout]. *)
Definition stored (hash : string) (v : Verdict) (s : State) : State :=
  mkState (<[hash := v]> (imageCache s)) (timers s ++ [((now s + 300000)%N, hash)]) (now s).

(** What the [catch] block throws for the exception [error]. *)
Definition classify_error (secs : string) (error : JsError) : JsError :=
  if String.eqb (err_name error) "AbortError" then
    Error ("SERVICE_TIMEOUT: Request timed out after " +:+ secs +:+ " seconds")
  else if includes (err_message error) "ECONNREFUSED" || includes (err_message error) "ENOTFOUND" then
    Error "SERVICE_DOWN: API server is unreachable"
  else if includes (err_message error) "SERVICE_TIMEOUT" then
    Error "SERVICE_TIMEOUT: Request timed out"
  else
    Error ("SERVICE_ERROR: " +:+ err_message error).

Lemma classify_catch_throws {A : Type} (secs : string) (error : JsError) (s : State) :
  classify_catch (A := A) secs error s =
  (Throw (classify_error secs error), s, [Console "error" "Ultralytics API Error:"]).
Proof.
  unfold classify_catch, classify_error, console, emit, throw, mbind, M_bind.
  destruct (String.eqb (err_name error) "AbortError"); [reflexivity |].
  destruct (includes (err_message error) "ECONNREFUSED" || includes (err_message error) "ENOTFOUND");
    [reflexivity |].
  destruct (includes (err_message error) "SERVICE_TIMEOUT"); reflexivity.
Qed.

(** The exceptions the [try] block can raise, by where they come from:
    the abort timer, [fetch] itself, a status that is not a success (with the
    body read or not), [response.json()], and the reading of the detections. *)
Inductive raises (ms : N) (net : FetchOutcome) : JsError -> Prop :=
| raises_abort :
    (ms <= fetch_latency net)%N -> raises ms net AbortError
| raises_fetch e :
    (fetch_latency net < ms)%N -> fetch_result net = inl e -> raises ms net e
| raises_text r e :
    (fetch_latency net < ms)%N -> fetch_result net = inr r ->
    resp_ok r = false -> resp_text r = inl e -> raises ms net e
| raises_status r errorText :
    (fetch_latency net < ms)%N -> fetch_result net = inr r ->
    resp_ok r = false -> resp_text r = inr errorText ->
    raises ms net
      (Error ("API_ERROR: " +:+ pretty (resp_status r) +:+ " - " +:+ errorText))
| raises_json r e :
    (fetch_latency net < ms)%N -> fetch_result net = inr r ->
    resp_ok r = true -> resp_json r = inl e -> raises ms net e
| raises_unreadable r e :
    (fetch_latency net < ms)%N -> fetch_result net = inr r ->
    resp_ok r = true -> resp_json r = inr (Unreadable e) -> raises ms net e.

(** The detector answers in time with a success status and a body that
    parses to [data]. *)
Definition answers (ms : N) (net : FetchOutcome) (data : DetectorData) : Prop :=
  (fetch_latency net < ms)%N /\
  exists r, fetch_result net = inr r /\ resp_ok r = true /\ resp_json r = inr data.

(** The detection list the 30 s gateway reads out of a body: either of the
    two shapes, or nothing. *)
Inductive reports : DetectorData -> list Detection -> Prop :=
| reports_results results other : reports (Shapes (Some results) other) results
| reports_detections detections : reports (Shapes None (Some detections)) detections
| reports_neither : reports (Shapes None None) [].

(** Every outcome of the network is one of the two. *)
Lemma raises_or_answers (ms : N) (net : FetchOutcome) :
  (exists e, raises ms net e) \/ (exists data ds, answers ms net data /\ reports data ds).
Proof.
  destruct (N.le_gt_cases ms (fetch_latency net)) as [Hle|Hlt].
  { left. eexists. now apply raises_abort. }
  destruct (fetch_result net) as [e|r] eqn:Hr.
  { left. exists e. now apply raises_fetch. }
  destruct (resp_ok r) eqn:Hok.
  - destruct (resp_json r) as [e|data] eqn:Hj.
    { left. exists e. now apply (raises_json ms net r). }
    destruct data as [a b|e].
    + right. assert (Hans : answers ms net (Shapes a b)).
      { split; [exact Hlt |]. exists r. now repeat split. }
      destruct a as [results|]; [| destruct b as [detections|]].
      * exists (Shapes (Some results) b), results. split; [exact Hans | constructor].
      * exists (Shapes None (Some detections)), detections. split; [exact Hans | constructor].
      * exists (Shapes None None), []. split; [exact Hans | constructor].
    + left. exists e. now apply (raises_unreadable ms net r).
  - destruct (resp_text r) as [e|txt] eqn:Ht.
    + left. exists e. now apply (raises_text ms net r).
    + left. eexists. eapply raises_status; eassumption.
Qed.

Arguments classify_catch : simpl never.

Ltac run_handler :=
  unfold Gateway.classifyImage, Service.classifyImage, fetch_with_abort,
    try_catch, console, emit, await, modify, cache_set, set_delete_timeout,
    get_state, throw, mbind, M_bind, mret, M_ret.

Ltac settle_latency :=
  repeat match goal with
    | H : (?ms <= ?l)%N |- context [(?ms <=? ?l)%N] =>
        rewrite (proj2 (N.leb_le ms l) H)
    | H : (?l < ?ms)%N |- context [(?ms <=? ?l)%N] =>
        rewrite (proj2 (N.leb_gt ms l) H)
    end.

(** A cached key: the stored verdict comes back with [cacheHit: true];
    nothing else happens. *)
Lemma Gateway_classify_hit (apiKey : option string) (imageBase64 : string)
    (net : FetchOutcome) (s : State) (cached : Verdict) :
  imageCache s !! MD5.digest_hex imageBase64 = Some cached ->
  Gateway.classifyImage apiKey imageBase64 net s = (Normal (with_cacheHit cached true), s, []).
Proof. intros Hhit. run_handler. now rewrite Hhit. Qed.

(** A key that is not cached, and an exception in the [try] block. *)
Lemma Gateway_classify_raises (apiKey : option string) (imageBase64 : string)
    (net : FetchOutcome) (s : State) (e : JsError) :
  imageCache s !! MD5.digest_hex imageBase64 = None ->
  raises 30000 net e ->
  exists t,
    Gateway.classifyImage apiKey imageBase64 net s =
      (Throw (classify_error "30" e), advance (N.min (fetch_latency net) 30000) s, t) /\
    List.filter is_external_call t = [DetectorRequest apiKey (strip_data_uri imageBase64)].
Proof.
  intros Hmiss Hraise. run_handler. rewrite Hmiss.
  destruct Hraise; settle_latency;
    repeat match goal with
      | H : _ = _ |- _ => rewrite H; clear H
      end;
    simpl; try rewrite classify_catch_throws; simpl;
    try rewrite advance_min_zero;
    first [rewrite N.min_r by lia | rewrite N.min_l by lia];
    eexists; split; reflexivity.
Qed.

(** A key that is not cached, and a detector that answers. *)
Lemma Gateway_classify_answers (apiKey : option string) (imageBase64 : string)
    (net : FetchOutcome) (s : State) (data : DetectorData) (ds : list Detection) :
  imageCache s !! MD5.digest_hex imageBase64 = None ->
  answers 30000 net data -> reports data ds ->
  exists t,
    Gateway.classifyImage apiKey imageBase64 net s =
      (Normal (verdict_of_detections ds),
       stored (MD5.digest_hex imageBase64) (verdict_of_detections ds)
         (advance (fetch_latency net) s), t) /\
    List.filter is_external_call t = [DetectorRequest apiKey (strip_data_uri imageBase64)].
Proof.
  intros Hmiss (Hlt & r & Hr & Hok & Hj) Hrep. run_handler. rewrite Hmiss.
  settle_latency. rewrite Hr, Hok. simpl. rewrite Hj. simpl.
  rewrite advance_min_zero.
  destruct Hrep; simpl; eexists; split; reflexivity.
Qed.

(** The same three for the 10 s gateway. *)
Inductive Service_reports : DetectorData -> list Detection -> Prop :=
| Service_reports_results results other :
    Service_reports (Shapes (Some results) other) results
| Service_reports_nothing other : Service_reports (Shapes None other) [].

Lemma Service_raises_or_answers (ms : N) (net : FetchOutcome) :
  (exists e, raises ms net e) \/
  (exists data ds, answers ms net data /\ Service_reports data ds).
Proof.
  destruct (raises_or_answers ms net) as [H|(data & ds & Hans & Hrep)]; [now left |].
  right. exists data. destruct Hrep.
  - exists results. split; [exact Hans | constructor].
  - exists []. split; [exact Hans | constructor].
  - exists []. split; [exact Hans | constructor].
Qed.

Lemma Service_classify_hit (apiKey : option string) (imageBase64 : string)
    (net : FetchOutcome) (s : State) (cached : Verdict) :
  imageCache s !! MD5.digest_hex imageBase64 = Some cached ->
  Service.classifyImage apiKey imageBase64 net s = (Normal cached, s, []).
Proof. intros Hhit. run_handler. now rewrite Hhit. Qed.

Lemma Service_classify_raises (apiKey : option string) (imageBase64 : string)
    (net : FetchOutcome) (s : State) (e : JsError) :
  imageCache s !! MD5.digest_hex imageBase64 = None ->
  raises 10000 net e ->
  exists t,
    Service.classifyImage apiKey imageBase64 net s =
      (Throw (classify_error "10" e), advance (N.min (fetch_latency net) 10000) s, t) /\
    List.filter is_external_call t = [DetectorRequest apiKey (strip_data_uri imageBase64)].
Proof.
  intros Hmiss Hraise. run_handler. rewrite Hmiss.
  destruct Hraise; settle_latency;
    repeat match goal with
      | H : _ = _ |- _ => rewrite H; clear H
      end;
    simpl; try rewrite classify_catch_throws; simpl;
    try rewrite advance_min_zero;
    first [rewrite N.min_r by lia | rewrite N.min_l by lia];
    eexists; split; reflexivity.
Qed.

Lemma Service_classify_answers (apiKey : option string) (imageBase64 : string)
    (net : FetchOutcome) (s : State) (data : DetectorData) (ds : list Detection) :
  imageCache s !! MD5.digest_hex imageBase64 = None ->
  answers 10000 net data -> Service_reports data ds ->
  exists t,
    Service.classifyImage apiKey imageBase64 net s =
      (Normal (verdict_of_detections ds),
       stored (MD5.digest_hex imageBase64) (verdict_of_detections ds)
         (advance (fetch_latency net) s), t) /\
    List.filter is_external_call t = [DetectorRequest apiKey (strip_data_uri imageBase64)].
Proof.
  intros Hmiss (Hlt & r & Hr & Hok & Hj) Hrep. run_handler. rewrite Hmiss.
  settle_latency. rewrite Hr, Hok. simpl. rewrite Hj. simpl.
  rewrite advance_min_zero.
  destruct Hrep; simpl; eexists; split; reflexivity.
Qed.

(** ** C1: the verdict of a fresh classification *)

(** [c] is the largest confidence among the waste-class detections of [ds],
    or 0 when there is none. *)
Definition is_max_waste_confidence (ds : list Detection) (c : Q) : Prop :=
  (forall d, In d ds -> is_waste_class d -> (det_confidence d <= c)%Q) /\
  ((exists d, In d ds /\ is_waste_class d /\ c = det_confidence d) \/
   ((forall d, In d ds -> ~ is_waste_class d) /\ c = 0%Q)).

(** The rules that give every other field of a verdict from its confidence. *)
Definition follows_verdict_rules (v : Verdict) : Prop :=
  let c := confidence v in
  (isWaste v = true <-> (0.25 <= c)%Q) /\
  (label v = if isWaste v then "waste" else "non-waste") /\
  (isWaste v = true /\ (0.85 <= c)%Q -> verification v = "high_confidence") /\
  (isWaste v = true /\ (c < 0.85)%Q /\ (0.65 <= c)%Q -> verification v = "medium_confidence") /\
  (isWaste v = false \/ (c < 0.65)%Q -> verification v = "unverified") /\
  (isHighConfidence v = true <-> (0.85 <= c)%Q) /\
  (isVerifiedWaste v = true <-> isWaste v = true /\ (0.85 <= c)%Q) /\
  (needsImprovement v = true <-> isWaste v = true /\ (0.7 < c)%Q /\ (c < 0.85)%Q).

Lemma maxConfidence_is_max (ds : list Detection) :
  is_max_waste_confidence ds (maxConfidence ds).
Proof.
  split.
  - intros d. apply maxConfidence_upper.
  - destruct (wasteDetections ds) as [|d0 rest] eqn:E.
    + right. split; [| now apply maxConfidence_none].
      intros d Hin Hw. assert (Hd : In d (wasteDetections ds)).
      { apply wasteDetections_In. now split. }
      rewrite E in Hd. destruct Hd.
    + left. apply maxConfidence_attained. now rewrite E.
Qed.

Ltac reflect_comparisons :=
  repeat match goal with
    | H : Qge_bool _ _ = true |- _ => apply Qge_bool_iff in H
    | H : Qge_bool _ _ = false |- _ => apply Qge_bool_false_iff in H
    | H : Qgt_bool _ _ = true |- _ => apply Qgt_bool_iff in H
    | H : Qlt_bool _ _ = true |- _ => apply Qlt_bool_iff in H
    | H : Qgt_bool _ _ = false |- _ =>
        unfold Qgt_bool in H; apply negb_false_iff, Qle_bool_iff in H
    | H : Qlt_bool _ _ = false |- _ =>
        unfold Qlt_bool in H; apply negb_false_iff, Qle_bool_iff in H
    end.

Lemma verdict_of_detections_rules (ds : list Detection) :
  follows_verdict_rules (verdict_of_detections ds).
Proof.
  unfold follows_verdict_rules, verdict_of_detections, MIN_CONFIDENCE,
    HIGH_CONFIDENCE_THRESHOLD. simpl.
  generalize (maxConfidence ds). intros c.
  destruct (Qge_bool c 0.25) eqn:E1; destruct (Qge_bool c 0.85) eqn:E2;
    destruct (Qge_bool c 0.65) eqn:E3; destruct (Qgt_bool c 0.7) eqn:E4;
    destruct (Qlt_bool c 0.85) eqn:E5; reflect_comparisons; simpl;
    repeat split; intros; try reflexivity; try discriminate; try lra;
    repeat match goal with
      | H : _ /\ _ |- _ => destruct H
      | H : _ \/ _ |- _ => destruct H
      end; try discriminate; try lra.
Qed.

(** C1.  When the key is not cached and the detector answers with the
    detection list [ds], [classifyImage] returns a verdict whose confidence is
    the largest confidence among the class-0 detections of [ds] (0 when there
    is none), whose other fields follow from that confidence by the
    thresholds 0.25, 0.65, 0.7 and 0.85, and which is not a cache hit. *)
Theorem classify_verdict_from_detections (apiKey : option string)
    (imageBase64 : string) (net : FetchOutcome) (s : State)
    (data : DetectorData) (ds : list Detection) :
  imageCache s !! MD5.digest_hex imageBase64 = None ->
  answers 30000 net data -> reports data ds ->
  exists v s' t,
    Gateway.classifyImage apiKey imageBase64 net s = (Normal v, s', t) /\
    is_max_waste_confidence ds (confidence v) /\
    follows_verdict_rules v /\
    cacheHit v = false.
Proof.
  intros Hmiss Hans Hrep.
  destruct (Gateway_classify_answers apiKey imageBase64 net s data ds Hmiss Hans Hrep)
    as (t & Hrun & _).
  exists (verdict_of_detections ds). eexists. exists t. split; [exact Hrun |].
  split; [apply maxConfidence_is_max |]. split; [apply verdict_of_detections_rules |].
  reflexivity.
Qed.

(** ** Histories of the process *)

(** What happens to the cache over the life of the process: calls of
    [classifyImage] (from either route), and time passing in between. *)
Inductive Event : Type :=
| Classify (apiKey : option string) (imageBase64 : string) (net : FetchOutcome)
| Wait (dt : N).

Definition step (classify : option string -> string -> FetchOutcome -> M Verdict)
    (s : State) (e : Event) : State :=
  match e with
  | Classify apiKey imageBase64 net => (classify apiKey imageBase64 net s).1.2
  | Wait dt => advance dt s
  end.

Definition run (classify : option string -> string -> FetchOutcome -> M Verdict)
    (es : list Event) (s : State) : State :=
  fold_left (step classify) es s.

(** Every key has at most one pending timer, and a key with a pending timer
    is cached. *)
Definition timers_wf (s : State) : Prop :=
  NoDup (timers s).*2 /\
  forall tm, tm ∈ timers s -> is_Some (imageCache s !! tm.2).

Lemma timers_wf_initial : timers_wf initial_state.
Proof. split; [constructor | intros tm Hin; now apply elem_of_nil in Hin]. Qed.

Lemma timers_wf_advance (dt : N) (s : State) : timers_wf s -> timers_wf (advance dt s).
Proof.
  intros [Hnd Hin]. split.
  - unfold advance. simpl. clear Hin.
    induction (timers s) as [|tm tms IH]; [constructor |].
    rewrite fmap_cons in Hnd. apply NoDup_cons in Hnd as [Hnotin Hnd].
    rewrite filter_cons. case_decide; [| now apply IH].
    rewrite fmap_cons. apply NoDup_cons. split; [| now apply IH].
    intros Hin. apply Hnotin. apply list_elem_of_fmap in Hin as (tm' & Heq & Hin).
    apply list_elem_of_fmap. exists tm'. split; [exact Heq |].
    now apply list_elem_of_filter in Hin as [_ Hin].
  - intros [d h] Htm. apply advance_timers in Htm as [Htm Hlt].
    destruct (Hin _ Htm) as [v Hv]. exists v. simpl in *.
    apply advance_lookup_Some. split; [exact Hv |].
    intros d' Htm'. destruct (N.lt_ge_cases (now s + dt) d') as [H|H]; [exact H |].
    assert (Heq : (d', h) = (d, h)).
    { clear - Hnd Htm Htm'. induction (timers s) as [|tm tms IH].
      - now apply elem_of_nil in Htm.
      - rewrite fmap_cons in Hnd. apply NoDup_cons in Hnd as [Hnotin Hnd].
        apply elem_of_cons in Htm as [Htm|Htm]; apply elem_of_cons in Htm' as [Htm'|Htm'].
        + congruence.
        + exfalso. apply Hnotin. subst tm. apply list_elem_of_fmap. now exists (d', h).
        + exfalso. apply Hnotin. subst tm. apply list_elem_of_fmap. now exists (d, h).
        + now apply IH. }
    injection Heq as ->. exact Hlt.
Qed.

Lemma timers_wf_stored (h : string) (v : Verdict) (s : State) :
  timers_wf s -> imageCache s !! h = None -> timers_wf (stored h v s).
Proof.
  intros [Hnd Hin] Hmiss. split.
  - unfold stored. simpl. rewrite fmap_app. apply NoDup_app. split; [exact Hnd |].
    split; [| apply NoDup_singleton].
    intros k Hk Hk'. apply list_elem_of_singleton in Hk'. simpl in Hk'. subst k.
    apply list_elem_of_fmap in Hk as (tm & Heq & Htm).
    destruct (Hin _ Htm) as [v' Hv']. rewrite <- Heq in Hv'. congruence.
  - intros tm Htm. unfold stored in *. simpl in *.
    apply elem_of_app in Htm as [Htm|Htm].
    + destruct (decide (h = tm.2)) as [<-|Hne].
      * rewrite lookup_insert_eq. eauto.
      * rewrite lookup_insert_ne by done. now apply Hin.
    + apply list_elem_of_singleton in Htm. subst tm. simpl. rewrite lookup_insert_eq. eauto.
Qed.

(** Where a call of the 30 s gateway leaves the state. *)
Lemma Gateway_classify_state (apiKey : option string) (imageBase64 : string)
    (net : FetchOutcome) (s : State) :
  let h := MD5.digest_hex imageBase64 in
  let s' := (Gateway.classifyImage apiKey imageBase64 net s).1.2 in
  (is_Some (imageCache s !! h) /\ s' = s) \/
  (imageCache s !! h = None /\
   exists dt, s' = advance dt s \/
     exists ds, s' = stored h (verdict_of_detections ds) (advance dt s) /\
       exists data, answers 30000 net data /\ reports data ds).
Proof.
  intros h s'. subst s'. destruct (imageCache s !! h) as [c|] eqn:Hc.
  - left. split; [eauto |]. unfold h in Hc.
    now rewrite (Gateway_classify_hit _ _ _ _ _ Hc).
  - right. split; [reflexivity |]. unfold h in Hc.
    destruct (raises_or_answers 30000 net) as [[e He]|(data & ds & Hans & Hrep)].
    + destruct (Gateway_classify_raises apiKey _ _ _ _ Hc He) as (t & -> & _).
      eexists. left. reflexivity.
    + destruct (Gateway_classify_answers apiKey _ _ _ _ _ Hc Hans Hrep) as (t & -> & _).
      eexists. right. exists ds. split; [reflexivity |]. now exists data.
Qed.

Lemma Gateway_step_timers_wf (s : State) (e : Event) :
  timers_wf s -> timers_wf (step Gateway.classifyImage s e).
Proof.
  intros Hwf. destruct e as [apiKey img net|dt]; simpl; [| now apply timers_wf_advance].
  destruct (Gateway_classify_state apiKey img net s)
    as [[_ ->]|[Hmiss [dt [->|(ds & -> & _)]]]]; [exact Hwf | now apply timers_wf_advance |].
  apply timers_wf_stored; [now apply timers_wf_advance |].
  destruct (imageCache (advance dt s) !! MD5.digest_hex img) eqn:E; [| reflexivity].
  apply advance_cache_subseteq in E. congruence.
Qed.

Lemma Gateway_run_timers_wf (es : list Event) (s : State) :
  timers_wf s -> timers_wf (run Gateway.classifyImage es s).
Proof.
  revert s. induction es as [|e es IH]; intros s Hwf; [exact Hwf |].
  simpl. apply IH. now apply Gateway_step_timers_wf.
Qed.

(** The clock never goes back. *)
Lemma Gateway_step_now (s : State) (e : Event) :
  (now s <= now (step Gateway.classifyImage s e))%N.
Proof.
  destruct e as [apiKey img net|dt]; simpl; [| lia].
  destruct (Gateway_classify_state apiKey img net s)
    as [[_ ->]|[_ [dt [->|(ds & -> & _)]]]]; simpl; lia.
Qed.

Lemma Gateway_run_now (es : list Event) (s : State) :
  (now s <= now (run Gateway.classifyImage es s))%N.
Proof.
  revert s. induction es as [|e es IH]; intros s; simpl; [lia |].
  etransitivity; [apply (Gateway_step_now s e) | apply IH].
Qed.

(** ** C2: a second classification within five minutes *)

(** [h] is cached with [v], and the only timers that can delete it are due
    at [T]. *)
Definition cached_until (h : string) (v : Verdict) (T : N) (s : State) : Prop :=
  imageCache s !! h = Some v /\ forall d, (d, h) ∈ timers s -> d = T.

Lemma cached_until_advance (h : string) (v : Verdict) (T dt : N) (s : State) :
  cached_until h v T s -> (now s + dt < T)%N -> cached_until h v T (advance dt s).
Proof.
  intros [Hv Htm] Hlt. split.
  - apply advance_lookup_Some. split; [exact Hv |].
    intros d Hin. now rewrite (Htm d Hin).
  - intros d Hin. apply advance_timers in Hin as [Hin _]. now apply Htm.
Qed.

Lemma cached_until_stored (h h' : string) (v v' : Verdict) (T : N) (s : State) :
  cached_until h v T s -> h' <> h -> cached_until h v T (stored h' v' s).
Proof.
  intros [Hv Htm] Hne. split; unfold stored; simpl.
  - now rewrite lookup_insert_ne.
  - intros d Hin. apply elem_of_app in Hin as [Hin|Hin]; [now apply Htm |].
    apply list_elem_of_singleton in Hin. congruence.
Qed.

Lemma Gateway_step_cached_until (h : string) (v : Verdict) (T : N) (s : State) (e : Event) :
  cached_until h v T s -> (now (step Gateway.classifyImage s e) < T)%N ->
  cached_until h v T (step Gateway.classifyImage s e).
Proof.
  intros Hc. destruct e as [apiKey img net|dt]; simpl.
  2:{ intros Hlt. now apply cached_until_advance. }
  destruct (Gateway_classify_state apiKey img net s)
    as [[_ ->]|[Hmiss [dt [->|(ds & -> & _)]]]]; simpl; intros Hlt.
  - exact Hc.
  - now apply cached_until_advance.
  - apply cached_until_stored; [now apply cached_until_advance |].
    intros Heq. destruct Hc as [Hv _]. congruence.
Qed.

Lemma Gateway_run_cached_until (h : string) (v : Verdict) (T : N) (es : list Event) :
  forall s, cached_until h v T s -> (now (run Gateway.classifyImage es s) < T)%N ->
  cached_until h v T (run Gateway.classifyImage es s).
Proof.
  induction es as [|e es IH]; intros s Hc Hlt; [exact Hc |].
  simpl in *. apply IH; [| exact Hlt].
  apply Gateway_step_cached_until; [exact Hc |].
  pose proof (Gateway_run_now es (step Gateway.classifyImage s e)). lia.
Qed.

(** A fresh verdict is cached until five minutes after it was stored. *)
Lemma stored_cached_until (h : string) (v : Verdict) (s : State) :
  timers_wf s -> imageCache s !! h = None ->
  cached_until h v (now s + 300000) (stored h v s).
Proof.
  intros [_ Hin] Hmiss. split; unfold stored; simpl.
  - apply lookup_insert_eq.
  - intros d Htm. apply elem_of_app in Htm as [Htm|Htm].
    + destruct (Hin _ Htm) as [v' Hv']. simpl in Hv'. congruence.
    + apply list_elem_of_singleton in Htm. congruence.
Qed.

(** X1.  The 30 s gateway.  The first call finds the image not cached and
    computes [v]; calls and waits follow, for less than 300000 ms in all; then
    a call with the same string returns [v] with [cacheHit] set, without
    asking the detector.  The verdict stored by the first call has
    [cacheHit = false]. *)
Lemma Gateway_second_classification_hits (history es : list Event)
    (apiKey apiKey' : option string) (imageBase64 : string)
    (net net' : FetchOutcome) (v : Verdict) (s1 : State) (t1 : list Effect) :
  let s0 := run Gateway.classifyImage history initial_state in
  let s2 := run Gateway.classifyImage es s1 in
  imageCache s0 !! MD5.digest_hex imageBase64 = None ->
  Gateway.classifyImage apiKey imageBase64 net s0 = (Normal v, s1, t1) ->
  (now s2 < now s1 + 300000)%N ->
  cacheHit v = false /\
  imageCache s1 !! MD5.digest_hex imageBase64 = Some v /\
  Gateway.classifyImage apiKey' imageBase64 net' s2 = (Normal (with_cacheHit v true), s2, []) /\
  confidence (with_cacheHit v true) = confidence v /\
  isWaste (with_cacheHit v true) = isWaste v /\
  verification (with_cacheHit v true) = verification v /\
  cacheHit (with_cacheHit v true) = true.
Proof.
  intros s0 s2 Hmiss Hrun Hlt.
  assert (Hwf : timers_wf s0) by apply Gateway_run_timers_wf, timers_wf_initial.
  destruct (raises_or_answers 30000 net) as [[e He]|(data & ds & Hans & Hrep)].
  { destruct (Gateway_classify_raises apiKey _ _ _ _ Hmiss He) as (t & Hthrow & _).
    rewrite Hthrow in Hrun. discriminate Hrun. }
  destruct (Gateway_classify_answers apiKey _ _ _ _ _ Hmiss Hans Hrep) as (t & Hok & _).
  rewrite Hok in Hrun. injection Hrun as <- <- <-.
  assert (Hc : cached_until (MD5.digest_hex imageBase64) (verdict_of_detections ds)
                 (now (advance (fetch_latency net) s0) + 300000)
                 (stored (MD5.digest_hex imageBase64) (verdict_of_detections ds)
                    (advance (fetch_latency net) s0))).
  { apply stored_cached_until; [now apply timers_wf_advance |].
    destruct (imageCache (advance (fetch_latency net) s0) !! MD5.digest_hex imageBase64) eqn:E;
      [| reflexivity].
    apply advance_cache_subseteq in E. congruence. }
  split; [reflexivity |]. split; [apply Hc |].
  split; [| now repeat split].
  apply Gateway_classify_hit.
  apply (Gateway_run_cached_until _ _ _ es _ Hc). exact Hlt.
Qed.

(** The 10 s gateway hands the stored object back as it is. *)
Lemma Service_second_classification_flag (apiKey apiKey' : option string)
    (imageBase64 : string) (net net' : FetchOutcome) (s0 s1 : State)
    (v : Verdict) (t1 : list Effect) :
  imageCache s0 !! MD5.digest_hex imageBase64 = None ->
  Service.classifyImage apiKey imageBase64 net s0 = (Normal v, s1, t1) ->
  Service.classifyImage apiKey' imageBase64 net' s1 = (Normal v, s1, []) /\
  cacheHit v = false.
Proof.
  intros Hmiss Hrun.
  destruct (Service_raises_or_answers 10000 net) as [[e He]|(data & ds & Hans & Hrep)].
  { destruct (Service_classify_raises apiKey _ _ _ _ Hmiss He) as (t & Hthrow & _).
    rewrite Hthrow in Hrun. discriminate Hrun. }
  destruct (Service_classify_answers apiKey _ _ _ _ _ Hmiss Hans Hrep) as (t & Hok & _).
  rewrite Hok in Hrun. injection Hrun as <- <- <-.
  split; [| reflexivity].
  apply Service_classify_hit. unfold stored. simpl. apply lookup_insert_eq.
Qed.

(** ** C7: bounds on every verdict *)

(** Every detection the detector reports, in either shape, has its
    confidence in [[0,1]]. *)
Definition confidences_in_unit (net : FetchOutcome) : Prop :=
  forall r a b ds d,
    fetch_result net = inr r -> resp_json r = inr (Shapes a b) ->
    a = Some ds \/ b = Some ds -> In d ds ->
    (0 <= det_confidence d)%Q /\ (det_confidence d <= 1)%Q.

Definition event_in_unit (e : Event) : Prop :=
  match e with
  | Classify _ _ net => confidences_in_unit net
  | Wait _ => True
  end.

Definition verdict_bounds (v : Verdict) : Prop :=
  ((0 <= confidence v)%Q /\ (confidence v <= 1)%Q) /\
  (verification v = "high_confidence" -> (0.85 <= confidence v)%Q) /\
  (verification v = "medium_confidence" ->
     (0.65 <= confidence v)%Q /\ (confidence v < 0.85)%Q) /\
  (verification v = "high_confidence" \/ verification v = "medium_confidence" ->
     isWaste v = true).

Definition cache_bounded (s : State) : Prop :=
  forall h v, imageCache s !! h = Some v -> verdict_bounds v.

Lemma verdict_of_detections_bounds (ds : list Detection) :
  (forall d, In d ds -> (0 <= det_confidence d)%Q /\ (det_confidence d <= 1)%Q) ->
  verdict_bounds (verdict_of_detections ds).
Proof.
  intros Hunit. split.
  - simpl. destruct (maxConfidence_is_max ds) as [_ [(d & Hin & _ & ->)|[_ ->]]].
    + now apply Hunit.
    + split; lra.
  - unfold verdict_of_detections, MIN_CONFIDENCE, HIGH_CONFIDENCE_THRESHOLD. simpl.
    generalize (maxConfidence ds). intros c.
    destruct (Qge_bool c 0.25) eqn:E1; destruct (Qge_bool c 0.85) eqn:E2;
      destruct (Qge_bool c 0.65) eqn:E3; reflect_comparisons;
      repeat split; intros; try discriminate; try lra;
      repeat match goal with
        | H : _ \/ _ |- _ => destruct H
        end; try discriminate; try reflexivity.
Qed.

Lemma reports_in_unit (ms : N) (net : FetchOutcome) (data : DetectorData)
    (ds : list Detection) (d : Detection) :
  confidences_in_unit net -> answers ms net data -> reports data ds -> In d ds ->
  (0 <= det_confidence d)%Q /\ (det_confidence d <= 1)%Q.
Proof.
  intros Hunit (_ & r & Hr & _ & Hj) Hrep Hin.
  destruct Hrep.
  - eapply Hunit; eauto.
  - eapply Hunit; eauto.
  - destruct Hin.
Qed.

Lemma cache_bounded_advance (dt : N) (s : State) :
  cache_bounded s -> cache_bounded (advance dt s).
Proof. intros Hb h v Hv. apply advance_cache_subseteq in Hv. now apply (Hb h). Qed.

Lemma Gateway_step_cache_bounded (s : State) (e : Event) :
  event_in_unit e -> cache_bounded s -> cache_bounded (step Gateway.classifyImage s e).
Proof.
  intros Hunit Hb. destruct e as [apiKey img net|dt]; simpl;
    [| now apply cache_bounded_advance].
  destruct (Gateway_classify_state apiKey img net s)
    as [[_ ->]|[Hmiss [dt [->|(ds & -> & data & Hans & Hrep)]]]];
    [exact Hb | now apply cache_bounded_advance |].
  intros h v. unfold stored. simpl.
  destruct (decide (MD5.digest_hex img = h)) as [->|Hne].
  - rewrite lookup_insert_eq. intros [= <-]. apply verdict_of_detections_bounds.
    intros d Hin. now apply (reports_in_unit 30000 net data ds).
  - rewrite lookup_insert_ne by done. apply cache_bounded_advance, Hb.
Qed.

Lemma Gateway_run_cache_bounded (es : list Event) :
  forall s, Forall event_in_unit es -> cache_bounded s ->
  cache_bounded (run Gateway.classifyImage es s).
Proof.
  induction es as [|e es IH]; intros s Hunit Hb; [exact Hb |].
  apply Forall_cons in Hunit as [He Hes]. simpl. apply IH; [exact Hes |].
  now apply Gateway_step_cache_bounded.
Qed.

(** C7.  Whatever calls and waits came before, with a detector whose
    detections all have a confidence in [[0,1]], a verdict returned by
    [classifyImage] has its confidence in [[0,1]]; "high_confidence" means a
    confidence of at least 0.85, "medium_confidence" one in [[0.65, 0.85)];
    and both mean that [isWaste] is set. *)
Theorem classify_verdict_bounds (history : list Event) (apiKey : option string)
    (imageBase64 : string) (net : FetchOutcome) (v : Verdict) (s' : State)
    (t : list Effect) :
  Forall event_in_unit history -> confidences_in_unit net ->
  Gateway.classifyImage apiKey imageBase64 net
    (run Gateway.classifyImage history initial_state) = (Normal v, s', t) ->
  ((0 <= confidence v)%Q /\ (confidence v <= 1)%Q) /\
  (verification v = "high_confidence" -> (0.85 <= confidence v)%Q) /\
  (verification v = "medium_confidence" ->
     (0.65 <= confidence v)%Q /\ (confidence v < 0.85)%Q) /\
  (verification v = "high_confidence" \/ verification v = "medium_confidence" ->
     isWaste v = true).
Proof.
  intros Hhist Hunit Hrun.
  assert (Hb : cache_bounded (run Gateway.classifyImage history initial_state)).
  { apply Gateway_run_cache_bounded; [exact Hhist |].
    intros h c Hc. unfold initial_state in Hc. simpl in Hc.
    rewrite lookup_empty in Hc. discriminate Hc. }
  set (s := run Gateway.classifyImage history initial_state) in *.
  destruct (imageCache s !! MD5.digest_hex imageBase64) as [c|] eqn:Hc.
  - rewrite (Gateway_classify_hit _ _ _ _ _ Hc) in Hrun. injection Hrun as <- _ _.
    apply (Hb _ _ Hc).
  - destruct (raises_or_answers 30000 net) as [[e He]|(data & ds & Hans & Hrep)].
    + destruct (Gateway_classify_raises apiKey _ _ _ _ Hc He) as (t' & Hthrow & _).
      rewrite Hthrow in Hrun. discriminate Hrun.
    + destruct (Gateway_classify_answers apiKey _ _ _ _ _ Hc Hans Hrep) as (t' & Hok & _).
      rewrite Hok in Hrun. injection Hrun as <- _ _.
      apply verdict_of_detections_bounds.
      intros d Hin. now apply (reports_in_unit 30000 net data ds).
Qed.

(** ** C4: how the gateway fails *)







(** ** Running the submission handler *)

Lemma bind_Normal {A B : Type} (m : M A) (f : A -> M B) (s s1 : State) (a : A)
    (t1 : list Effect) :
  m s = (Normal a, s1, t1) ->
  (m ≫= f) s = (let '(o, s2, t2) := f a s1 in (o, s2, t1 ++ t2)).
Proof. intros H. unfold mbind, M_bind. now rewrite H. Qed.

Lemma bind_Throw {A B : Type} (m : M A) (f : A -> M B) (s s1 : State) (e : JsError)
    (t1 : list Effect) :
  m s = (Throw e, s1, t1) -> (m ≫= f) s = (Throw e, s1, t1).
Proof. intros H. unfold mbind, M_bind. now rewrite H. Qed.

Lemma bind_Respond {A B : Type} (m : M A) (f : A -> M B) (s s1 : State)
    (r : HttpResponse) (t1 : list Effect) :
  m s = (Respond r, s1, t1) -> (m ≫= f) s = (Respond r, s1, t1).
Proof. intros H. unfold mbind, M_bind. now rewrite H. Qed.

Lemma try_catch_Respond {A : Type} (m : M A) (h : JsError -> M A) (s s1 : State)
    (r : HttpResponse) (t1 : list Effect) :
  m s = (Respond r, s1, t1) -> try_catch m h s = (Respond r, s1, t1).
Proof. intros H. unfold try_catch. now rewrite H. Qed.

Lemma try_catch_Throw {A : Type} (m : M A) (h : JsError -> M A) (s s1 : State)
    (e : JsError) (t1 : list Effect) :
  m s = (Throw e, s1, t1) ->
  try_catch m h s = (let '(o, s2, t2) := h e s1 in (o, s2, t1 ++ t2)).
Proof. intros H. unfold try_catch. now rewrite H. Qed.

Lemma on_error_responds (error : JsError) (s : State) :
  exists r, on_error error s = (Respond r, s, [Console "error" "Report Creation Error:"]) /\
    http_status r = (if String.eqb (err_name error) "ValidationError" then 400 else 500) /\
    body_code (http_body r) =
      Some (if String.eqb (err_name error) "ValidationError"
            then "VALIDATION_ERROR" else "INTERNAL_SERVER_ERROR") /\
    body_error (http_body r) = Some (err_message error) /\
    body_classification (http_body r) = None.
Proof.
  unfold on_error, console, emit, respond, mbind, M_bind.
  destruct (String.eqb (err_name error) "ValidationError"); eexists; repeat split.
Qed.

(** The five outcomes of the validation, in the order of the checks. *)
Definition image_too_large : HttpResponse :=
  mkHttpResponse 413
    (mkBody "Image too large (max 5MB)" (Some "IMAGE_TOO_LARGE") None None None None None).

Definition fields_missing (missingFields : list string) : HttpResponse :=
  mkHttpResponse 400
    (mkBody ("Missing required fields: " +:+ String.concat ", " missingFields)
       (Some "MISSING_FIELDS") (Some missingFields) None None None None).

Definition invalid_image_format : HttpResponse :=
  mkHttpResponse 400
    (mkBody "Invalid image format" (Some "INVALID_IMAGE_FORMAT") None None None None None).

Lemma validate_no_string (req : Request) (s : State) :
  (forall image_s, image req <> JStr image_s) ->
  exists msg, validate req s = (Throw (TypeError msg), s, []).
Proof.
  intros Hno. unfold validate, string_method, throw, mbind, M_bind.
  destruct (image req) as [| |b|n|str|o]; try (eexists; reflexivity).
  now destruct (Hno str).
Qed.

Lemma validate_too_large (req : Request) (s : State) (image_s : string) :
  image req = JStr image_s ->
  (5 * 1024 * 1024 < Buffer_from_base64_length (strip_data_uri image_s))%Z ->
  validate req s = (Respond image_too_large, s, []).
Proof.
  intros Himg Hbig. unfold validate, string_method, when_, respond, mbind, M_bind, mret, M_ret.
  rewrite Himg. apply Z.ltb_lt in Hbig. now rewrite Hbig.
Qed.

Lemma validate_missing (req : Request) (s : State) (image_s : string) :
  image req = JStr image_s ->
  (Buffer_from_base64_length (strip_data_uri image_s) <= 5 * 1024 * 1024)%Z ->
  missing_fields req <> [] ->
  validate req s = (Respond (fields_missing (missing_fields req)), s, []).
Proof.
  intros Himg Hsmall Hmiss.
  unfold validate, string_method, when_, respond, mbind, M_bind, mret, M_ret.
  rewrite Himg. apply Z.ltb_ge in Hsmall. rewrite Hsmall.
  destruct (missing_fields req) as [|f fs]; [now destruct Hmiss |]. reflexivity.
Qed.

Lemma validate_bad_format (req : Request) (s : State) (image_s : string) :
  image req = JStr image_s ->
  (Buffer_from_base64_length (strip_data_uri image_s) <= 5 * 1024 * 1024)%Z ->
  missing_fields req = [] ->
  base64_regex_test image_s = false ->
  validate req s = (Respond invalid_image_format, s, []).
Proof.
  intros Himg Hsmall Hmiss Hbad.
  unfold validate, string_method, when_, respond, mbind, M_bind, mret, M_ret.
  rewrite Himg. apply Z.ltb_ge in Hsmall. rewrite Hsmall, Hmiss, Hbad. reflexivity.
Qed.

Lemma validate_passes (req : Request) (s : State) (image_s : string) :
  image req = JStr image_s ->
  (Buffer_from_base64_length (strip_data_uri image_s) <= 5 * 1024 * 1024)%Z ->
  missing_fields req = [] ->
  base64_regex_test image_s = true ->
  validate req s = (Normal image_s, s, []).
Proof.
  intros Himg Hsmall Hmiss Hgood.
  unfold validate, string_method, when_, respond, mbind, M_bind, mret, M_ret.
  rewrite Himg. apply Z.ltb_ge in Hsmall. rewrite Hsmall, Hmiss, Hgood. reflexivity.
Qed.

(** The validation changes nothing and calls nobody, whatever it decides. *)
Lemma validate_pure (req : Request) (s : State) :
  exists o, validate req s = (o, s, []).
Proof.
  destruct (image req) as [| |b|n|image_s|obj] eqn:Himg;
    try (destruct (validate_no_string req s) as [msg ->];
         [intros ? ?; congruence | eauto]).
  destruct (Z.lt_ge_cases (5 * 1024 * 1024) (Buffer_from_base64_length (strip_data_uri image_s)))
    as [Hbig|Hsmall].
  { rewrite (validate_too_large req s image_s Himg Hbig). eauto. }
  destruct (missing_fields req) as [|f fs] eqn:Hmiss.
  2:{ rewrite (validate_missing req s image_s Himg Hsmall); [eauto | now rewrite Hmiss]. }
  destruct (base64_regex_test image_s) eqn:Hre.
  - rewrite (validate_passes req s image_s Himg Hsmall Hmiss Hre). eauto.
  - rewrite (validate_bad_format req s image_s Himg Hsmall Hmiss Hre). eauto.
Qed.

(** What the handler does once the classification step is over: host the
    image, persist the report, award the points, answer 201. *)
Definition finish (req : Request) (w : World) (image_s : string)
    (classification : option Verdict) : M unit :=
  uploadResponse ← host w image_s;
  savedReport ← persist req w classification uploadResponse;
  award req w;;
  respond 201
    (mkBody "Report created successfully" None None classification None
       (Some savedReport) (Some (pointsToAdd req))).

Definition created (req : Request) (classification : option Verdict)
    (savedReport : SavedReport) : HttpResponse :=
  mkHttpResponse 201
    (mkBody "Report created successfully" None None classification None
       (Some savedReport) (Some (pointsToAdd req))).

(** The answer of the handler's [catch] to a save that threw [e]. *)
Definition save_failed (e : JsError) : HttpResponse :=
  if String.eqb (err_name e) "ValidationError" then
    mkHttpResponse 400
      (mkBody "Validation Error" (Some "VALIDATION_ERROR") None None
         (Some (err_message e)) None None)
  else
    mkHttpResponse 500
      (mkBody "Internal server error" (Some "INTERNAL_SERVER_ERROR") None None
         (Some (err_message e)) None None).

(** The codes an answer can carry after the classification step. *)
Definition later_codes : list (option string) :=
  [Some "CLOUDINARY_TIMEOUT"; Some "CLOUDINARY_ERROR"; Some "VALIDATION_ERROR";
   Some "INTERNAL_SERVER_ERROR"; None].

Lemma try_catch_bind_Normal {A B : Type} (m : M A) (f : A -> M B) (h : JsError -> M B)
    (s s1 : State) (a : A) (t1 : list Effect) :
  m s = (Normal a, s1, t1) ->
  try_catch (m ≫= f) h s =
  (let '(o, s2, t2) := try_catch (f a) h s1 in (o, s2, t1 ++ t2)).
Proof.
  intros H. unfold try_catch, mbind, M_bind. rewrite H.
  destruct (f a s1) as [[[b|e|r] s2] t2]; try reflexivity.
  destruct (h e s2) as [[o s3] t3]. now rewrite app_assoc.
Qed.

Ltac run_finish :=
  unfold finish, host, persist, award, on_error, upload_race, string_method,
    try_catch, console, emit, await, modify, respond, throw, mbind, M_bind,
    mret, M_ret.

(** Which effect of a concrete trace is the [ReportSave] that [H] names. *)
Ltac saved_doc H :=
  simpl in H;
  repeat match type of H with
    | _ \/ _ => destruct H as [H|H]
    end;
  try discriminate H; try (exfalso; exact H).

Ltac finish_leaf :=
  eexists _, _, _; split; [reflexivity |]; simpl;
  split; [eexists; reflexivity |];
  split; [reflexivity |];
  split; [simpl; auto 10 |];
  split; [intros H201; first [discriminate H201 | reflexivity] |];
  split; [intros Hne; first [reflexivity | now destruct Hne] |];
  split;
  [ intros doc Hin; saved_doc Hin; injection Hin as <-; reflexivity |];
  split;
  [ intros doc id' e' Hin Hs Hl; saved_doc Hin;
    try discriminate Hs; try discriminate Hl;
    injection Hin as <-; injection Hs as <-;
    (split; [reflexivity | eexists [_]; reflexivity])
  | intros doc e' Hin Hs; saved_doc Hin; try discriminate Hs;
    injection Hin as <-; injection Hs as <-;
    repeat match goal with
      | H : String.eqb _ _ = _ |- _ => rewrite H; clear H
      end;
    (split; [reflexivity | eexists [_]; reflexivity]) ].

(** Every way the rest of the handler can go. *)
Lemma finish_cases (req : Request) (w : World) (image_s : string)
    (classification : option Verdict) (s1 : State) :
  exists r s' t,
    try_catch (finish req w image_s classification) on_error s1 = (Respond r, s', t) /\
    (exists rest, t = CloudinaryUpload ("data:image/jpeg;base64," +:+ image_s) :: rest) /\
    List.filter is_detector_call t = [] /\
    In (body_code (http_body r)) later_codes /\
    (http_status r = 201 -> body_classification (http_body r) = classification) /\
    (http_status r <> 201 -> body_classification (http_body r) = None) /\
    (forall doc, In (ReportSave doc) t ->
       doc_aiVerification doc = ai_of_verdict <$> classification) /\
    (forall doc id e,
       In (ReportSave doc) t -> save_result w = inr id -> ledger_result w = inl e ->
       r = created req classification (mkSavedReport id doc) /\
       exists before,
         t = before ++ [ReportSave doc;
                        UserUpdate (user_id req) (JNum 1) (pointsToAdd req);
                        Console "error" "User update error:"]) /\
    (forall doc e,
       In (ReportSave doc) t -> save_result w = inl e ->
       r = save_failed e /\
       exists before,
         t = before ++ [ReportSave doc; Console "error" "Report Creation Error:"]).
Proof.
  run_finish. unfold later_codes, created, save_failed.
  destruct (15000 <=? upload_latency w)%N; simpl; [finish_leaf |].
  destruct (upload_result w) as [ue|u]; simpl.
  { destruct (String.eqb (err_message ue) "CLOUDINARY_TIMEOUT"); finish_leaf. }
  destruct (title req) as [| |tb|tn|title_s|to]; simpl; try finish_leaf.
  destruct (details req) as [| |db|dn|details_s|dobj]; simpl; try finish_leaf.
  destruct (address req) as [| |ab|an|address_s|aobj]; simpl; try finish_leaf.
  destruct (save_result w) as [se|id] eqn:Hsave; simpl.
  { destruct (String.eqb (err_name se) "ValidationError") eqn:Hname; finish_leaf. }
  destruct (ledger_result w) as [le|[]] eqn:Hledger; simpl; finish_leaf.
Qed.

(** The effects of a gateway: the console and the detector. *)
Definition is_gateway_effect (e : Effect) : bool :=
  match e with
  | Console _ _ | DetectorRequest _ _ => true
  | _ => false
  end.

Lemma external_only_detector (t : list Effect) (req : Effect) :
  List.filter is_external_call t = [req] -> is_gateway_effect req = true ->
  forall e, In e t -> is_gateway_effect e = true.
Proof.
  intros Hf Hreq e Hin. destruct (is_external_call e) eqn:He.
  - assert (Hin' : In e (List.filter is_external_call t)) by now apply filter_In.
    rewrite Hf in Hin'. destruct Hin' as [<-|[]]. exact Hreq.
  - now destruct e.
Qed.

Lemma Gateway_classify_effects (apiKey : option string) (imageBase64 : string)
    (net : FetchOutcome) (s : State) (e : Effect) :
  In e (Gateway.classifyImage apiKey imageBase64 net s).2 -> is_gateway_effect e = true.
Proof.
  destruct (imageCache s !! MD5.digest_hex imageBase64) as [c|] eqn:Hc.
  { now rewrite (Gateway_classify_hit _ _ _ _ _ Hc). }
  destruct (raises_or_answers 30000 net) as [[err He]|(data & ds & Hans & Hrep)].
  - destruct (Gateway_classify_raises apiKey _ _ _ _ Hc He) as (t & -> & Hf).
    now apply (external_only_detector t _ Hf).
  - destruct (Gateway_classify_answers apiKey _ _ _ _ _ Hc Hans Hrep) as (t & -> & Hf).
    now apply (external_only_detector t _ Hf).
Qed.

Lemma Service_classify_effects (apiKey : option string) (imageBase64 : string)
    (net : FetchOutcome) (s : State) (e : Effect) :
  In e (Service.classifyImage apiKey imageBase64 net s).2 -> is_gateway_effect e = true.
Proof.
  destruct (imageCache s !! MD5.digest_hex imageBase64) as [c|] eqn:Hc.
  { now rewrite (Service_classify_hit _ _ _ _ _ Hc). }
  destruct (Service_raises_or_answers 10000 net) as [[err He]|(data & ds & Hans & Hrep)].
  - destruct (Service_classify_raises apiKey _ _ _ _ Hc He) as (t & -> & Hf).
    now apply (external_only_detector t _ Hf).
  - destruct (Service_classify_answers apiKey _ _ _ _ _ Hc Hans Hrep) as (t & -> & Hf).
    now apply (external_only_detector t _ Hf).
Qed.

(** The request passes the validation: the image is a string that decodes
    to at most 5 MB and matches the pattern, and no required field is
    missing. *)
Definition passes_validation (req : Request) (image_s : string) : Prop :=
  image req = JStr image_s /\
  (Buffer_from_base64_length (strip_data_uri image_s) <= 5 * 1024 * 1024)%Z /\
  missing_fields req = [] /\
  base64_regex_test image_s = true.

Definition not_waste (classification : Verdict) : HttpResponse :=
  mkHttpResponse 400
    (mkBody "Image does not show recognizable waste" (Some "NOT_WASTE")
       None (Some classification) None None None).

Definition low_confidence (classification : Verdict) : HttpResponse :=
  mkHttpResponse 400
    (mkBody "Low confidence in waste detection" (Some "LOW_CONFIDENCE")
       None (Some classification) None None None).

Section RouterProperties.

Variable classifyImage : option string -> string -> FetchOutcome -> M Verdict.

Lemma submit_validate_Respond (req : Request) (w : World) (s : State) (r : HttpResponse) :
  validate req s = (Respond r, s, []) ->
  submit classifyImage req w s = (Respond r, s, []).
Proof.
  intros H. unfold submit. apply try_catch_Respond. now apply bind_Respond.
Qed.

Lemma submit_validate_Throw (req : Request) (w : World) (s : State) (e : JsError) :
  validate req s = (Throw e, s, []) ->
  submit classifyImage req w s = on_error e s.
Proof.
  intros H. unfold submit. erewrite try_catch_Throw; [| eapply bind_Throw; exact H].
  now destruct (on_error e s) as [[o s2] t2].
Qed.

Lemma submit_validate_Normal (req : Request) (w : World) (s : State) (image_s : string) :
  validate req s = (Normal image_s, s, []) ->
  submit classifyImage req w s =
  try_catch
    (classification ← classify_or_skip classifyImage req w image_s;
     finish req w image_s classification)
    on_error s.
Proof.
  intros H. unfold submit. erewrite try_catch_bind_Normal; [| exact H].
  cbv beta. now destruct (try_catch _ on_error s) as [[o s2] t2].
Qed.

Lemma classify_or_skip_forced (req : Request) (w : World) (image_s : string) (s : State) :
  truthy (forceSubmit req) = true ->
  classify_or_skip classifyImage req w image_s s = (Normal None, s, []).
Proof. intros H. unfold classify_or_skip. now rewrite H. Qed.

Lemma classify_or_skip_verdict (req : Request) (w : World) (image_s : string)
    (s s1 : State) (v : Verdict) (t1 : list Effect) :
  truthy (forceSubmit req) = false ->
  classifyImage (ULTRALYTICS_API_KEY w) image_s (detector w) s = (Normal v, s1, t1) ->
  classify_or_skip classifyImage req w image_s s =
  if negb (isWaste v) then (Respond (not_waste v), s1, t1)
  else if Qlt_bool (confidence v) 0.7 then (Respond (low_confidence v), s1, t1)
  else (Normal (Some v), s1, t1).
Proof.
  intros Hf Hc. unfold classify_or_skip, try_catch, when_, respond, mbind, M_bind, mret, M_ret.
  rewrite Hf. cbn [negb]. rewrite Hc. simpl.
  destruct (isWaste v); simpl; [| now rewrite app_nil_r].
  destruct (Qlt_bool (confidence v) 0.7); simpl; now rewrite app_nil_r.
Qed.

Lemma classify_or_skip_Throw (req : Request) (w : World) (image_s : string)
    (s s1 : State) (e : JsError) (t1 : list Effect) :
  truthy (forceSubmit req) = false ->
  classifyImage (ULTRALYTICS_API_KEY w) image_s (detector w) s = (Throw e, s1, t1) ->
  exists r,
    classify_or_skip classifyImage req w image_s s =
      (Respond r, s1, t1 ++ [Console "error" "Classification Error:"]) /\
    http_status r = 503 /\ body_code (http_body r) = Some "SERVICE_UNAVAILABLE" /\
    body_error (http_body r) = Some (err_message e).
Proof.
  intros Hf Hc.
  unfold classify_or_skip, try_catch, console, emit, respond, mbind, M_bind.
  rewrite Hf. cbn [negb]. rewrite Hc. simpl. eexists. repeat split.
Qed.

Lemma classify_or_skip_Respond (req : Request) (w : World) (image_s : string)
    (s s1 : State) (r : HttpResponse) (t1 : list Effect) :
  truthy (forceSubmit req) = false ->
  classifyImage (ULTRALYTICS_API_KEY w) image_s (detector w) s = (Respond r, s1, t1) ->
  classify_or_skip classifyImage req w image_s s = (Respond r, s1, t1).
Proof.
  intros Hf Hc. unfold classify_or_skip, try_catch, mbind, M_bind.
  rewrite Hf. cbn [negb]. now rewrite Hc.
Qed.

(** The rest of the handler after a step that went through. *)
Lemma continue_Normal (req : Request) (w : World) (image_s : string)
    (classification : option Verdict) (s s1 : State) (t1 : list Effect) :
  classify_or_skip classifyImage req w image_s s = (Normal classification, s1, t1) ->
  try_catch
    (classification ← classify_or_skip classifyImage req w image_s;
     finish req w image_s classification)
    on_error s =
  (let '(o, s2, t2) := try_catch (finish req w image_s classification) on_error s1 in
   (o, s2, t1 ++ t2)).
Proof. apply try_catch_bind_Normal. Qed.

Lemma continue_Respond (req : Request) (w : World) (image_s : string)
    (r : HttpResponse) (s s1 : State) (t1 : list Effect) :
  classify_or_skip classifyImage req w image_s s = (Respond r, s1, t1) ->
  try_catch
    (classification ← classify_or_skip classifyImage req w image_s;
     finish req w image_s classification)
    on_error s = (Respond r, s1, t1).
Proof. intros H. apply try_catch_Respond. now apply bind_Respond. Qed.

Lemma passes_validation_validate (req : Request) (image_s : string) (s : State) :
  passes_validation req image_s -> validate req s = (Normal image_s, s, []).
Proof. intros (Himg & Hsmall & Hmiss & Hre). now apply validate_passes. Qed.

(** C3.  The request passes the validation, [forceSubmit] is not set, and
    [classifyImage] returns the verdict [v].  Then the answer is NOT_WASTE
    exactly when [v.isWaste] is false, and LOW_CONFIDENCE exactly when
    [v.isWaste] is true and [v.confidence < 0.7]; either one is a 400 that
    carries [v], and nothing is done after the classification.  In every
    other case the handler goes on: the next thing it does is the upload, a
    report it saves has its [aiVerification] taken from [v], and a 201
    carries [v]. *)
Theorem classification_gate (req : Request) (w : World) (s s1 : State)
    (image_s : string) (v : Verdict) (t1 : list Effect) :
  passes_validation req image_s ->
  truthy (forceSubmit req) = false ->
  classifyImage (ULTRALYTICS_API_KEY w) image_s (detector w) s = (Normal v, s1, t1) ->
  exists r s' t,
    submit classifyImage req w s = (Respond r, s', t) /\
    (body_code (http_body r) = Some "NOT_WASTE" <-> isWaste v = false) /\
    (body_code (http_body r) = Some "LOW_CONFIDENCE" <->
       isWaste v = true /\ (confidence v < 0.7)%Q) /\
    (isWaste v = false \/ (confidence v < 0.7)%Q ->
       http_status r = 400 /\ body_classification (http_body r) = Some v /\
       s' = s1 /\ t = t1) /\
    (isWaste v = true -> (0.7 <= confidence v)%Q ->
       exists rest,
         t = t1 ++ CloudinaryUpload ("data:image/jpeg;base64," +:+ image_s) :: rest /\
         (forall doc, In (ReportSave doc) rest ->
            doc_aiVerification doc = Some (ai_of_verdict v)) /\
         (http_status r = 201 -> body_classification (http_body r) = Some v)).
Proof.
  intros Hvalid Hforce Hclassify.
  rewrite (submit_validate_Normal req w s image_s (passes_validation_validate _ _ _ Hvalid)).
  pose proof (classify_or_skip_verdict req w image_s s s1 v t1 Hforce Hclassify) as Hstep.
  destruct (isWaste v) eqn:Hwaste; simpl in Hstep.
  - destruct (Qlt_bool (confidence v) 0.7) eqn:Hlow.
    + rewrite (continue_Respond _ _ _ _ _ _ _ Hstep).
      apply Qlt_bool_iff in Hlow.
      eexists _, _, _. split; [reflexivity |]. simpl.
      split; [split; [discriminate | discriminate] |].
      split; [split; [now split | reflexivity] |].
      split; [now repeat split |].
      intros _ Hhigh. exfalso. now apply (Qlt_not_le _ _ Hlow).
    + rewrite (continue_Normal _ _ _ _ _ _ _ Hstep).
      destruct (finish_cases req w image_s (Some v) s1)
        as (r & s' & t & -> & [rest ->] & _ & Hcode & H201 & _ & Hdoc & _ & _).
      unfold Qlt_bool in Hlow. apply negb_false_iff, Qle_bool_iff in Hlow.
      exists r, s'. eexists. split; [reflexivity |].
      assert (Hno : forall c, body_code (http_body r) = Some c ->
                c <> "NOT_WASTE" /\ c <> "LOW_CONFIDENCE").
      { intros c Hc. rewrite Hc in Hcode. unfold later_codes in Hcode. simpl in Hcode.
        destruct Hcode as [H|[H|[H|[H|[H|[]]]]]]; try discriminate H;
          injection H as <-; split; discriminate. }
      split; [split; [intros Hc; now destruct (Hno _ Hc) | discriminate] |].
      split; [split; [intros Hc; now destruct (Hno _ Hc) |] |].
      { intros [_ Hlt]. exfalso. now apply (Qlt_not_le _ _ Hlt). }
      split.
      { intros [H|Hlt]; [discriminate H |]. exfalso. now apply (Qlt_not_le _ _ Hlt). }
      intros _ _. exists rest. split; [reflexivity |]. split; [| exact H201].
      intros doc Hin. apply Hdoc. now right.
  - rewrite (continue_Respond _ _ _ _ _ _ _ Hstep).
    eexists _, _, _. split; [reflexivity |]. simpl.
    split; [split; reflexivity |].
    split; [split; [discriminate | intros [H _]; discriminate H] |].
    split; [now repeat split |].
    intros H. discriminate H.
Qed.

End RouterProperties.

(** Every outcome of the validation. *)
Lemma validate_cases (req : Request) (s : State) :
  (exists msg, validate req s = (Throw (TypeError msg), s, [])) \/
  validate req s = (Respond image_too_large, s, []) \/
  validate req s = (Respond (fields_missing (missing_fields req)), s, []) \/
  validate req s = (Respond invalid_image_format, s, []) \/
  (exists image_s, validate req s = (Normal image_s, s, [])).
Proof.
  destruct (image req) as [| |b|n|image_s|obj] eqn:Himg;
    try (left; apply validate_no_string; intros ? ?; congruence).
  destruct (Z.lt_ge_cases (5 * 1024 * 1024) (Buffer_from_base64_length (strip_data_uri image_s)))
    as [Hbig|Hsmall].
  { right. left. now apply (validate_too_large req s image_s). }
  destruct (missing_fields req) as [|f fs] eqn:Hmiss.
  2:{ right. right. left. rewrite <- Hmiss.
      apply (validate_missing req s image_s Himg Hsmall). now rewrite Hmiss. }
  destruct (base64_regex_test image_s) eqn:Hre.
  - right. right. right. right. exists image_s. now apply validate_passes.
  - right. right. right. left. now apply (validate_bad_format req s image_s).
Qed.

(** ** C5: missing fields *)

(** Which names the [missingFields] array holds. *)
Lemma missing_fields_In (req : Request) (f : string) :
  In f (missing_fields req) <->
  (f = "title" /\ truthy (title req) = false) \/
  (f = "image" /\ truthy (image req) = false) \/
  (f = "details" /\ truthy (details req) = false) \/
  (f = "address" /\ truthy (address req) = false) \/
  (f = "location" /\ (truthy (latitude req) = false \/ truthy (longitude req) = false)).
Proof.
  unfold missing_fields.
  destruct (truthy (title req)), (truthy (image req)), (truthy (details req)),
    (truthy (address req)), (truthy (latitude req)), (truthy (longitude req));
    simpl; split; intros H;
    repeat match goal with
      | H : _ \/ _ |- _ => destruct H
      | H : _ /\ _ |- _ => destruct H
      | H : False |- _ => destruct H
      | H : true = false |- _ => discriminate H
      end; subst; auto 12.
Qed.

Lemma missing_fields_nonempty (req : Request) :
  truthy (title req) = false \/ truthy (image req) = false \/
  truthy (details req) = false \/ truthy (address req) = false \/
  truthy (latitude req) = false \/ truthy (longitude req) = false ->
  missing_fields req <> [].
Proof.
  intros H Hnil.
  assert (Hin : exists f, In f (missing_fields req)).
  { destruct H as [H|[H|[H|[H|[H|H]]]]].
    - exists "title". apply missing_fields_In. auto.
    - exists "image". apply missing_fields_In. auto.
    - exists "details". apply missing_fields_In. auto.
    - exists "address". apply missing_fields_In. auto 6.
    - exists "location". apply missing_fields_In. auto 8.
    - exists "location". apply missing_fields_In. auto 8. }
  destruct Hin as [f Hin]. rewrite Hnil in Hin. destruct Hin.
Qed.

(** C5, as the code has it.  The image is a string that decodes to at most
    5 MB, and a required field is missing: [title], [image], [details],
    [address], [latitude] or [longitude] is absent or otherwise falsy (null,
    the empty string, 0, false).  Then the request is rejected with status
    400 and code MISSING_FIELDS, the answer lists exactly the falsy fields
    ("location" when the latitude or the longitude is), and nothing was
    called and nothing changed. *)
Theorem missing_fields_rejected
    (classifyImage : option string -> string -> FetchOutcome -> M Verdict)
    (req : Request) (w : World) (s : State) (image_s : string) :
  image req = JStr image_s ->
  (Buffer_from_base64_length (strip_data_uri image_s) <= 5 * 1024 * 1024)%Z ->
  truthy (title req) = false \/ truthy (image req) = false \/
  truthy (details req) = false \/ truthy (address req) = false \/
  truthy (latitude req) = false \/ truthy (longitude req) = false ->
  exists r listed,
    submit classifyImage req w s = (Respond r, s, []) /\
    http_status r = 400 /\
    body_code (http_body r) = Some "MISSING_FIELDS" /\
    body_missingFields (http_body r) = Some listed /\
    body_message (http_body r) = "Missing required fields: " +:+ String.concat ", " listed /\
    forall f, In f listed <->
      (f = "title" /\ truthy (title req) = false) \/
      (f = "image" /\ truthy (image req) = false) \/
      (f = "details" /\ truthy (details req) = false) \/
      (f = "address" /\ truthy (address req) = false) \/
      (f = "location" /\ (truthy (latitude req) = false \/ truthy (longitude req) = false)).
Proof.
  intros Himg Hsmall Hfalsy.
  exists (fields_missing (missing_fields req)), (missing_fields req).
  split.
  { apply submit_validate_Respond.
    apply (validate_missing req s image_s Himg Hsmall).
    now apply missing_fields_nonempty. }
  repeat split; try reflexivity; apply missing_fields_In.
Qed.

(** ** C9: the size check comes first *)

(** C9.  An image that decodes to more than 5 MB is rejected with status 413
    and code IMAGE_TOO_LARGE whatever the other fields are, missing or not,
    before anything is called.  And the size check reads [image] before the
    check for a missing image: a request whose image is no string (absent,
    for one) ends in the handler's [catch], with status 500 and code
    INTERNAL_SERVER_ERROR and the [TypeError]'s message. *)
Theorem size_check_comes_first
    (classifyImage : option string -> string -> FetchOutcome -> M Verdict)
    (req : Request) (w : World) (s : State) :
  (forall image_s,
     image req = JStr image_s ->
     (5 * 1024 * 1024 < Buffer_from_base64_length (strip_data_uri image_s))%Z ->
     submit classifyImage req w s = (Respond image_too_large, s, []) /\
     http_status image_too_large = 413 /\
     body_code (http_body image_too_large) = Some "IMAGE_TOO_LARGE") /\
  ((forall image_s, image req <> JStr image_s) ->
     exists r msg,
       submit classifyImage req w s =
         (Respond r, s, [Console "error" "Report Creation Error:"]) /\
       http_status r = 500 /\
       body_code (http_body r) = Some "INTERNAL_SERVER_ERROR" /\
       body_error (http_body r) = Some msg /\
       (image req = JUndefined ->
          msg = "Cannot read properties of undefined (reading 'replace')")).
Proof.
  split.
  - intros image_s Himg Hbig. split; [| now split].
    apply submit_validate_Respond. now apply (validate_too_large req s image_s).
  - intros Hno.
    assert (Hthrow : exists msg,
      validate req s = (Throw (TypeError msg), s, []) /\
      (image req = JUndefined ->
         msg = "Cannot read properties of undefined (reading 'replace')")).
    { unfold validate, string_method, throw, mbind, M_bind.
      destruct (image req) as [| |b|n|str|o];
        try (eexists; split; [reflexivity | intros H; first [reflexivity | discriminate H]]).
      now destruct (Hno str). }
    destruct Hthrow as (msg & Hthrow & Hmsg).
    rewrite (submit_validate_Throw classifyImage req w s _ Hthrow).
    destruct (on_error_responds (TypeError msg) s) as (r & -> & Hst & Hcode & Herr & _).
    exists r, msg. split; [reflexivity |]. simpl in *. now repeat split.
Qed.

(** ** C6: a forced submission *)

(** With [forceSubmit] set the handler is the validation followed by the
    rest; the classifier does not occur. *)
Lemma forced_submit_run
    (classifyImage : option string -> string -> FetchOutcome -> M Verdict)
    (req : Request) (w : World) (s : State) :
  truthy (forceSubmit req) = true ->
  submit classifyImage req w s =
  match validate req s with
  | (Normal image_s, _, _) => try_catch (finish req w image_s None) on_error s
  | (Throw e, _, _) => on_error e s
  | (Respond r, _, _) => (Respond r, s, [])
  end.
Proof.
  intros Hforce.
  destruct (validate_cases req s) as [[msg H]|[H|[H|[H|[image_s H]]]]]; rewrite H.
  - now apply submit_validate_Throw.
  - now apply submit_validate_Respond.
  - now apply submit_validate_Respond.
  - now apply submit_validate_Respond.
  - rewrite (submit_validate_Normal classifyImage req w s image_s H).
    rewrite (continue_Normal classifyImage req w image_s None s s []
               (classify_or_skip_forced classifyImage req w image_s s Hforce)).
    now destruct (try_catch (finish req w image_s None) on_error s) as [[o s2] t2].
Qed.

(** C6.  With [forceSubmit] set, whatever the classifier is: the handler
    answers without a request to the detector, a report it saves has
    [aiVerification] null, the answer carries no classification, and the
    same answer, state and effects come out with any other classifier in its
    place. *)
Theorem force_submit_skips_classification
    (classifyImage : option string -> string -> FetchOutcome -> M Verdict)
    (req : Request) (w : World) (s : State) :
  truthy (forceSubmit req) = true ->
  exists r s' t,
    submit classifyImage req w s = (Respond r, s', t) /\
    List.filter is_detector_call t = [] /\
    (forall doc, In (ReportSave doc) t -> doc_aiVerification doc = None) /\
    body_classification (http_body r) = None /\
    forall other, submit other req w s = (Respond r, s', t).
Proof.
  intros Hforce.
  assert (Hrun : exists r s' t,
    match validate req s with
    | (Normal image_s, _, _) => try_catch (finish req w image_s None) on_error s
    | (Throw e, _, _) => on_error e s
    | (Respond r, _, _) => (Respond r, s, [])
    end = (Respond r, s', t) /\
    List.filter is_detector_call t = [] /\
    (forall doc, In (ReportSave doc) t -> doc_aiVerification doc = None) /\
    body_classification (http_body r) = None).
  { destruct (validate_cases req s) as [[msg H]|[H|[H|[H|[image_s H]]]]]; rewrite H.
    - destruct (on_error_responds (TypeError msg) s) as (r & -> & _ & _ & _ & Hnone).
      eexists _, _, _. split; [reflexivity |]. split; [reflexivity |].
      split; [| exact Hnone]. intros doc [Hd|[]]. discriminate Hd.
    - eexists _, _, _. split; [reflexivity |]. now repeat split.
    - eexists _, _, _. split; [reflexivity |]. now repeat split.
    - eexists _, _, _. split; [reflexivity |]. now repeat split.
    - destruct (finish_cases req w image_s None s)
        as (r & s' & t & -> & _ & Hdet & _ & H201 & Hother & Hdoc & _ & _).
      exists r, s', t. split; [reflexivity |]. split; [exact Hdet |].
      split; [exact Hdoc |].
      destruct (Z.eq_dec (http_status r) 201) as [Heq|Hne]; [now apply H201 | now apply Hother]. }
  destruct Hrun as (r & s' & t & Hrun & Hdet & Hdoc & Hnone).
  exists r, s', t. split; [now rewrite forced_submit_run |].
  split; [exact Hdet |]. split; [exact Hdoc |]. split; [exact Hnone |].
  intros other. now rewrite forced_submit_run.
Qed.

(** ** C8: a ledger update that fails *)

Lemma In_app_gateway (t1 t2 : list Effect) (x : Effect) :
  is_gateway_effect x = false ->
  (forall eff, In eff t1 -> is_gateway_effect eff = true) ->
  In x (t1 ++ t2) -> In x t2.
Proof.
  intros Hx Hgw Hin. apply in_app_or in Hin as [Hin|Hin]; [| exact Hin].
  apply Hgw in Hin. congruence.
Qed.

(** A handler that uploaded, saved or updated something went through the
    validation and the classification step, and did it in the rest. *)
Lemma submit_through_finish
    (classifyImage : option string -> string -> FetchOutcome -> M Verdict)
    (req : Request) (w : World) (s s' : State) (r : HttpResponse)
    (t : list Effect) (x : Effect) :
  (forall apiKey imageBase64 net st eff,
     In eff (classifyImage apiKey imageBase64 net st).2 -> is_gateway_effect eff = true) ->
  is_gateway_effect x = false ->
  submit classifyImage req w s = (Respond r, s', t) ->
  In x t ->
  exists image_s c s1 t1 t2,
    t = t1 ++ t2 /\
    try_catch (finish req w image_s c) on_error s1 = (Respond r, s', t2) /\
    In x t2.
Proof.
  intros Hgw Hx Hrun Hin.
  assert (Hfinish : forall image_s c s1 t1,
    (forall eff, In eff t1 -> is_gateway_effect eff = true) ->
    (let '(o, s2, t2) := try_catch (finish req w image_s c) on_error s1 in
     (o, s2, t1 ++ t2)) = (Respond r, s', t) ->
    exists image_s c s1 t1 t2,
      t = t1 ++ t2 /\
      try_catch (finish req w image_s c) on_error s1 = (Respond r, s', t2) /\
      In x t2).
  { intros image_s c s1 t1 Ht1 Heq.
    destruct (try_catch (finish req w image_s c) on_error s1) as [[o2 s2] t2] eqn:Hf.
    injection Heq as -> -> <-.
    exists image_s, c, s1, t1, t2. split; [reflexivity |]. split; [exact Hf |].
    now apply (In_app_gateway t1 t2 x Hx Ht1). }
  assert (Hconsole : forall level text, x <> Console level text).
  { intros level text ->. discriminate Hx. }
  destruct (validate_cases req s) as [[msg H]|[H|[H|[H|[image_s H]]]]].
  - rewrite (submit_validate_Throw classifyImage req w s _ H) in Hrun.
    destruct (on_error_responds (TypeError msg) s) as (r0 & Hr0 & _).
    rewrite Hr0 in Hrun. injection Hrun as _ _ <-. destruct Hin as [Hd|[]].
    now destruct (Hconsole _ _ (eq_sym Hd)).
  - rewrite (submit_validate_Respond classifyImage req w s _ H) in Hrun.
    injection Hrun as _ _ <-. destruct Hin.
  - rewrite (submit_validate_Respond classifyImage req w s _ H) in Hrun.
    injection Hrun as _ _ <-. destruct Hin.
  - rewrite (submit_validate_Respond classifyImage req w s _ H) in Hrun.
    injection Hrun as _ _ <-. destruct Hin.
  - rewrite (submit_validate_Normal classifyImage req w s image_s H) in Hrun.
    destruct (truthy (forceSubmit req)) eqn:Hforce.
    { rewrite (continue_Normal classifyImage req w image_s None s s []
                 (classify_or_skip_forced classifyImage req w image_s s Hforce)) in Hrun.
      apply (Hfinish image_s None s []); [intros eff [] | exact Hrun]. }
    destruct (classifyImage (ULTRALYTICS_API_KEY w) image_s (detector w) s)
      as [[[v|err|r1] s1] t1] eqn:Hc.
    + pose proof (classify_or_skip_verdict classifyImage req w image_s s s1 v t1 Hforce Hc)
        as Hstep.
      assert (Ht1 : forall eff, In eff t1 -> is_gateway_effect eff = true).
      { intros eff Heff. apply (Hgw (ULTRALYTICS_API_KEY w) image_s (detector w) s).
        now rewrite Hc. }
      destruct (negb (isWaste v)); [| destruct (Qlt_bool (confidence v) 0.7)].
      * rewrite (continue_Respond classifyImage _ _ _ _ _ _ _ Hstep) in Hrun.
        injection Hrun as _ _ <-. apply Ht1 in Hin. congruence.
      * rewrite (continue_Respond classifyImage _ _ _ _ _ _ _ Hstep) in Hrun.
        injection Hrun as _ _ <-. apply Ht1 in Hin. congruence.
      * rewrite (continue_Normal classifyImage _ _ _ _ _ _ _ Hstep) in Hrun.
        now apply (Hfinish image_s (Some v) s1 t1).
    + destruct (classify_or_skip_Throw classifyImage req w image_s s s1 err t1 Hforce Hc)
        as (r0 & Hstep & _).
      rewrite (continue_Respond classifyImage _ _ _ _ _ _ _ Hstep) in Hrun.
      injection Hrun as _ _ <-.
      apply in_app_or in Hin as [Hin|[Hd|[]]];
        [| now destruct (Hconsole _ _ (eq_sym Hd))].
      assert (Hg : is_gateway_effect x = true).
      { apply (Hgw (ULTRALYTICS_API_KEY w) image_s (detector w) s). now rewrite Hc. }
      congruence.
    + pose proof (classify_or_skip_Respond classifyImage req w image_s s s1 r1 t1 Hforce Hc)
        as Hstep.
      rewrite (continue_Respond classifyImage _ _ _ _ _ _ _ Hstep) in Hrun.
      injection Hrun as _ _ <-.
      assert (Hg : is_gateway_effect x = true).
      { apply (Hgw (ULTRALYTICS_API_KEY w) image_s (detector w) s). now rewrite Hc. }
      congruence.
Qed.

(** C8.  The classifier only logs and asks the detector.  If the handler
    saved the report [doc], the database accepted it under [id], and the
    update of the user failed, then the answer is the 201 with that report and
    the points, and after the save the handler did two things only: the
    update that failed, and the log of its failure. *)
Theorem ledger_failure_keeps_report
    (classifyImage : option string -> string -> FetchOutcome -> M Verdict)
    (req : Request) (w : World) (s s' : State) (r : HttpResponse)
    (t : list Effect) (doc : ReportDoc) (id : string) (e : JsError) :
  (forall apiKey imageBase64 net st eff,
     In eff (classifyImage apiKey imageBase64 net st).2 -> is_gateway_effect eff = true) ->
  submit classifyImage req w s = (Respond r, s', t) ->
  In (ReportSave doc) t ->
  save_result w = inr id ->
  ledger_result w = inl e ->
  http_status r = 201 /\
  body_report (http_body r) = Some (mkSavedReport id doc) /\
  body_pointsEarned (http_body r) = Some (pointsToAdd req) /\
  exists before,
    t = before ++ [ReportSave doc;
                   UserUpdate (user_id req) (JNum 1) (pointsToAdd req);
                   Console "error" "User update error:"].
Proof.
  intros Hgw Hrun Hin Hsave Hledger.
  destruct (submit_through_finish classifyImage req w s s' r t (ReportSave doc) Hgw eq_refl Hrun Hin)
    as (image_s & c & s1 & t1 & t2 & -> & Hf & Hin2).
  destruct (finish_cases req w image_s c s1)
    as (r2 & s2 & t2' & Hf' & _ & _ & _ & _ & _ & _ & Hkeep & _).
  rewrite Hf in Hf'. injection Hf' as <- <- <-.
  destruct (Hkeep doc id e Hin2 Hsave Hledger) as [-> [before ->]].
  repeat split. exists (t1 ++ before). now rewrite app_assoc.
Qed.

(** ** A key that is not cached *)

Lemma advance_miss (dt : N) (s : State) (h : string) :
  imageCache s !! h = None -> imageCache (advance dt s) !! h = None.
Proof.
  intros Hmiss. destruct (imageCache (advance dt s) !! h) eqn:E; [| reflexivity].
  apply advance_cache_subseteq in E. congruence.
Qed.

(** ** Further properties of the submission handler *)

(** X2.  Every request is answered: nothing the handler or the classifier throws
    gets out of it. *)
Theorem submit_always_responds
    (classifyImage : option string -> string -> FetchOutcome -> M Verdict)
    (req : Request) (w : World) (s : State) :
  exists r s' t, submit classifyImage req w s = (Respond r, s', t).
Proof.
  destruct (validate_cases req s) as [[msg H]|[H|[H|[H|[image_s H]]]]].
  - rewrite (submit_validate_Throw classifyImage req w s _ H).
    destruct (on_error_responds (TypeError msg) s) as (r & -> & _). eauto.
  - rewrite (submit_validate_Respond classifyImage req w s _ H). eauto.
  - rewrite (submit_validate_Respond classifyImage req w s _ H). eauto.
  - rewrite (submit_validate_Respond classifyImage req w s _ H). eauto.
  - rewrite (submit_validate_Normal classifyImage req w s image_s H).
    destruct (classify_or_skip classifyImage req w image_s s) as [[[c|e|r] s1] t1] eqn:Hstep.
    + rewrite (continue_Normal classifyImage _ _ _ _ _ _ _ Hstep).
      destruct (finish_cases req w image_s c s1) as (r & s' & t & -> & _). eauto.
    + exfalso. revert Hstep.
      unfold classify_or_skip, try_catch, when_, console, emit, respond, mbind, M_bind,
        mret, M_ret.
      destruct (negb (truthy (forceSubmit req))); [| discriminate].
      destruct (classifyImage (ULTRALYTICS_API_KEY w) image_s (detector w) s)
        as [[[v|err|r1] s2] t2]; simpl; try discriminate.
      destruct (negb (isWaste v)); simpl; [discriminate |].
      destruct (Qlt_bool (confidence v) 0.7); simpl; discriminate.
    + rewrite (continue_Respond classifyImage _ _ _ _ _ _ _ Hstep). eauto.
Qed.

(** X3.  A classifier that throws: the answer is the 503 with the message of
    what it threw, and the handler stops there. *)
Theorem service_failure_rejected
    (classifyImage : option string -> string -> FetchOutcome -> M Verdict)
    (req : Request) (w : World) (s s1 : State) (image_s : string) (e : JsError)
    (t1 : list Effect) :
  passes_validation req image_s ->
  truthy (forceSubmit req) = false ->
  classifyImage (ULTRALYTICS_API_KEY w) image_s (detector w) s = (Throw e, s1, t1) ->
  exists r,
    submit classifyImage req w s =
      (Respond r, s1, t1 ++ [Console "error" "Classification Error:"]) /\
    http_status r = 503 /\
    body_code (http_body r) = Some "SERVICE_UNAVAILABLE" /\
    body_error (http_body r) = Some (err_message e).
Proof.
  intros Hvalid Hforce Hthrow.
  destruct (classify_or_skip_Throw classifyImage req w image_s s s1 e t1 Hforce Hthrow)
    as (r & Hstep & Hprops).
  exists r. split; [| exact Hprops].
  rewrite (submit_validate_Normal classifyImage req w s image_s
             (passes_validation_validate _ _ _ Hvalid)).
  now apply continue_Respond.
Qed.

(** X4.  A save that throws: a schema-validation error is answered 400
    VALIDATION_ERROR, anything else 500 INTERNAL_SERVER_ERROR, each with the
    message; the log of the error is the last thing the handler does, so no
    points are awarded. *)
Theorem save_failure_rejected
    (classifyImage : option string -> string -> FetchOutcome -> M Verdict)
    (req : Request) (w : World) (s s' : State) (r : HttpResponse)
    (t : list Effect) (doc : ReportDoc) (e : JsError) :
  (forall apiKey imageBase64 net st eff,
     In eff (classifyImage apiKey imageBase64 net st).2 -> is_gateway_effect eff = true) ->
  submit classifyImage req w s = (Respond r, s', t) ->
  In (ReportSave doc) t ->
  save_result w = inl e ->
  (err_name e = "ValidationError" ->
     http_status r = 400 /\ body_code (http_body r) = Some "VALIDATION_ERROR") /\
  (err_name e <> "ValidationError" ->
     http_status r = 500 /\ body_code (http_body r) = Some "INTERNAL_SERVER_ERROR") /\
  body_error (http_body r) = Some (err_message e) /\
  exists before,
    t = before ++ [ReportSave doc; Console "error" "Report Creation Error:"].
Proof.
  intros Hgw Hrun Hin Hsave.
  destruct (submit_through_finish classifyImage req w s s' r t (ReportSave doc)
              Hgw eq_refl Hrun Hin)
    as (image_s & c & s1 & t1 & t2 & -> & Hf & Hin2).
  destruct (finish_cases req w image_s c s1)
    as (r2 & s2 & t2' & Hf' & _ & _ & _ & _ & _ & _ & _ & Hfail).
  rewrite Hf in Hf'. injection Hf' as <- <- <-.
  destruct (Hfail doc e Hin2 Hsave) as [-> [before ->]].
  unfold save_failed. split; [| split; [| split]].
  - intros ->%String.eqb_eq. now split.
  - intros Hn%String.eqb_neq. rewrite Hn. now split.
  - now destruct (String.eqb (err_name e) "ValidationError").
  - exists (t1 ++ before). now rewrite app_assoc.
Qed.

Definition upload_timed_out : HttpResponse :=
  mkHttpResponse 504
    (mkBody "Image upload timed out" (Some "CLOUDINARY_TIMEOUT") None None None None None).

Lemma finish_upload_timeout (req : Request) (w : World) (image_s : string)
    (classification : option Verdict) (s1 : State) :
  (15000 <= upload_latency w)%N ->
  try_catch (finish req w image_s classification) on_error s1 =
  (Respond upload_timed_out, advance 15000 s1,
   [CloudinaryUpload ("data:image/jpeg;base64," +:+ image_s);
    Console "error" "Cloudinary Upload Error:"]).
Proof.
  intros Hlate. run_finish. apply N.leb_le in Hlate. now rewrite Hlate.
Qed.

Lemma finish_upload_error (req : Request) (w : World) (image_s : string)
    (classification : option Verdict) (s1 : State) (e : JsError) :
  (upload_latency w < 15000)%N ->
  upload_result w = inl e ->
  err_message e <> "CLOUDINARY_TIMEOUT" ->
  try_catch (finish req w image_s classification) on_error s1 =
  (Respond
     (mkHttpResponse 500
        (mkBody "Image upload failed" (Some "CLOUDINARY_ERROR") None None
           (Some (err_message e)) None None)),
   advance (upload_latency w) s1,
   [CloudinaryUpload ("data:image/jpeg;base64," +:+ image_s);
    Console "error" "Cloudinary Upload Error:"]).
Proof.
  intros Hlt Hres Hmsg. run_finish. apply N.leb_gt in Hlt. rewrite Hlt, Hres. simpl.
  apply String.eqb_neq in Hmsg. now rewrite Hmsg.
Qed.

(** X5.  An upload that does not come back within 15 s is answered 504
    CLOUDINARY_TIMEOUT, one that fails otherwise 500 CLOUDINARY_ERROR with
    its message; either way the log of the error is the last thing the
    handler does, so nothing is saved. *)
Theorem upload_failure_rejected
    (classifyImage : option string -> string -> FetchOutcome -> M Verdict)
    (req : Request) (w : World) (s s' : State) (r : HttpResponse)
    (t : list Effect) (dataUri : string) :
  (forall apiKey imageBase64 net st eff,
     In eff (classifyImage apiKey imageBase64 net st).2 -> is_gateway_effect eff = true) ->
  submit classifyImage req w s = (Respond r, s', t) ->
  In (CloudinaryUpload dataUri) t ->
  ((15000 <= upload_latency w)%N ->
     http_status r = 504 /\ body_code (http_body r) = Some "CLOUDINARY_TIMEOUT" /\
     exists before,
       t = before ++ [CloudinaryUpload dataUri; Console "error" "Cloudinary Upload Error:"]) /\
  (forall e,
     (upload_latency w < 15000)%N -> upload_result w = inl e ->
     err_message e <> "CLOUDINARY_TIMEOUT" ->
     http_status r = 500 /\ body_code (http_body r) = Some "CLOUDINARY_ERROR" /\
     body_error (http_body r) = Some (err_message e) /\
     exists before,
       t = before ++ [CloudinaryUpload dataUri; Console "error" "Cloudinary Upload Error:"]).
Proof.
  intros Hgw Hrun Hin.
  destruct (submit_through_finish classifyImage req w s s' r t (CloudinaryUpload dataUri)
              Hgw eq_refl Hrun Hin)
    as (image_s & c & s1 & t1 & t2 & -> & Hf & Hin2).
  split.
  - intros Hlate. rewrite (finish_upload_timeout req w image_s c s1 Hlate) in Hf.
    injection Hf as <- _ <-. destruct Hin2 as [Hd|[Hd|[]]]; [| discriminate Hd].
    injection Hd as <-. repeat split. now exists t1.
  - intros e Hlt Hres Hmsg.
    rewrite (finish_upload_error req w image_s c s1 e Hlt Hres Hmsg) in Hf.
    injection Hf as <- _ <-. destruct Hin2 as [Hd|[Hd|[]]]; [| discriminate Hd].
    injection Hd as <-. repeat split. now exists t1.
Qed.

(** ** Either copy of the gateway *)

(** One of the two copies of [classifyImage]. *)
Definition is_gateway_copy
    (classify : option string -> string -> FetchOutcome -> M Verdict) : Prop :=
  classify = Gateway.classifyImage \/ classify = Service.classifyImage.

(** What a call of either copy comes to: a hit that changes nothing, a
    failure after some waiting, or a fresh verdict stored after the detector's
    latency. *)
Lemma copy_call_shape
    (classify : option string -> string -> FetchOutcome -> M Verdict)
    (apiKey : option string) (imageBase64 : string) (net : FetchOutcome) (s : State) :
  is_gateway_copy classify ->
  let h := MD5.digest_hex imageBase64 in
  (exists cached v,
     imageCache s !! h = Some cached /\
     classify apiKey imageBase64 net s = (Normal v, s, []) /\
     with_cacheHit v true = with_cacheHit cached true) \/
  (imageCache s !! h = None /\
   exists e dt t,
     classify apiKey imageBase64 net s = (Throw e, advance dt s, t) /\
     List.filter is_external_call t = [DetectorRequest apiKey (strip_data_uri imageBase64)]) \/
  (imageCache s !! h = None /\
   exists ds t,
     classify apiKey imageBase64 net s =
       (Normal (verdict_of_detections ds),
        stored h (verdict_of_detections ds) (advance (fetch_latency net) s), t) /\
     List.filter is_external_call t = [DetectorRequest apiKey (strip_data_uri imageBase64)]).
Proof.
  intros Hcopy h. subst h.
  destruct (imageCache s !! MD5.digest_hex imageBase64) as [cached|] eqn:Hc.
  - left. destruct Hcopy as [->| ->].
    + exists cached, (with_cacheHit cached true). split; [reflexivity |].
      split; [now apply Gateway_classify_hit | reflexivity].
    + exists cached, cached. split; [reflexivity |].
      split; [now apply Service_classify_hit | reflexivity].
  - right. destruct Hcopy as [->| ->].
    + destruct (raises_or_answers 30000 net) as [[e He]|(data & ds & Hans & Hrep)].
      * left. split; [reflexivity |].
        destruct (Gateway_classify_raises apiKey _ _ _ _ Hc He) as (t & Hrun & Ht). eauto 6.
      * right. split; [reflexivity |].
        destruct (Gateway_classify_answers apiKey _ _ _ _ _ Hc Hans Hrep) as (t & Hrun & Ht).
        eauto.
    + destruct (Service_raises_or_answers 10000 net) as [[e He]|(data & ds & Hans & Hrep)].
      * left. split; [reflexivity |].
        destruct (Service_classify_raises apiKey _ _ _ _ Hc He) as (t & Hrun & Ht). eauto 6.
      * right. split; [reflexivity |].
        destruct (Service_classify_answers apiKey _ _ _ _ _ Hc Hans Hrep) as (t & Hrun & Ht).
        eauto.
Qed.

(** Where a call of either copy leaves the state. *)
Lemma copy_call_state
    (classify : option string -> string -> FetchOutcome -> M Verdict)
    (apiKey : option string) (imageBase64 : string) (net : FetchOutcome) (s : State) :
  is_gateway_copy classify ->
  let s' := (classify apiKey imageBase64 net s).1.2 in
  s' = s \/
  exists dt, s' = advance dt s \/
    exists v, imageCache s !! MD5.digest_hex imageBase64 = None /\
      s' = stored (MD5.digest_hex imageBase64) v (advance dt s).
Proof.
  intros Hcopy.
  destruct (copy_call_shape classify apiKey imageBase64 net s Hcopy)
    as [(c & v & _ & -> & _)|[(Hmiss & e & dt & t & -> & _)|(Hmiss & ds & t & -> & _)]]; simpl.
  - now left.
  - right. exists dt. now left.
  - right. eexists. right. eauto.
Qed.

(** Every cached verdict has a pending timer, due within the next five
    minutes. *)
Definition cache_timed (s : State) : Prop :=
  forall h v, imageCache s !! h = Some v ->
    exists d, (d, h) ∈ timers s /\ (now s < d)%N /\ (d <= now s + 300000)%N.

Lemma cache_timed_advance (dt : N) (s : State) :
  cache_timed s -> cache_timed (advance dt s).
Proof.
  intros Hinv h v Hv. apply advance_lookup_Some in Hv as [Hv Hlate].
  destruct (Hinv h v Hv) as (d & Hin & _ & Hle).
  exists d. split; [| rewrite advance_now; specialize (Hlate d Hin); lia].
  apply advance_timers. split; [exact Hin |]. now apply Hlate.
Qed.

Lemma cache_timed_stored (h : string) (v : Verdict) (s : State) :
  cache_timed s -> cache_timed (stored h v s).
Proof.
  intros Hinv k c. unfold stored. simpl.
  destruct (decide (h = k)) as [->|Hne].
  - intros _. exists (now s + 300000)%N. split; [| lia].
    apply elem_of_app. right. apply list_elem_of_singleton. reflexivity.
  - rewrite lookup_insert_ne by done. intros Hc.
    destruct (Hinv k c Hc) as (d & Hin & Hlt & Hle).
    exists d. split; [| now split]. apply elem_of_app. now left.
Qed.

Lemma copy_step_cache_timed
    (classify : option string -> string -> FetchOutcome -> M Verdict)
    (s : State) (e : Event) :
  is_gateway_copy classify -> cache_timed s -> cache_timed (step classify s e).
Proof.
  intros Hcopy Hinv. destruct e as [apiKey img net|dt]; simpl;
    [| now apply cache_timed_advance].
  destruct (copy_call_state classify apiKey img net s Hcopy)
    as [->|[dt [->|(v & _ & ->)]]].
  - exact Hinv.
  - now apply cache_timed_advance.
  - now apply cache_timed_stored, cache_timed_advance.
Qed.

Lemma copy_run_cache_timed
    (classify : option string -> string -> FetchOutcome -> M Verdict)
    (es : list Event) :
  is_gateway_copy classify ->
  forall s, cache_timed s -> cache_timed (run classify es s).
Proof.
  intros Hcopy. induction es as [|e es IH]; intros s Hinv; [exact Hinv |].
  simpl. apply IH. now apply copy_step_cache_timed.
Qed.

(** ** Histories of either copy *)

Lemma copy_step_timers_wf
    (classify : option string -> string -> FetchOutcome -> M Verdict)
    (s : State) (e : Event) :
  is_gateway_copy classify -> timers_wf s -> timers_wf (step classify s e).
Proof.
  intros Hcopy Hwf. destruct e as [apiKey img net|dt]; simpl;
    [| now apply timers_wf_advance].
  destruct (copy_call_state classify apiKey img net s Hcopy)
    as [->|[dt [->|(v & Hmiss & ->)]]];
    [exact Hwf | now apply timers_wf_advance |].
  apply timers_wf_stored; [now apply timers_wf_advance | now apply advance_miss].
Qed.

Lemma copy_run_timers_wf
    (classify : option string -> string -> FetchOutcome -> M Verdict)
    (es : list Event) :
  is_gateway_copy classify ->
  forall s, timers_wf s -> timers_wf (run classify es s).
Proof.
  intros Hcopy. induction es as [|e es IH]; intros s Hwf; [exact Hwf |].
  simpl. apply IH. now apply copy_step_timers_wf.
Qed.

Lemma copy_step_now
    (classify : option string -> string -> FetchOutcome -> M Verdict)
    (s : State) (e : Event) :
  is_gateway_copy classify -> (now s <= now (step classify s e))%N.
Proof.
  intros Hcopy. destruct e as [apiKey img net|dt]; simpl; [| lia].
  destruct (copy_call_state classify apiKey img net s Hcopy)
    as [->|[dt [->|(v & _ & ->)]]]; simpl; lia.
Qed.

Lemma copy_run_now
    (classify : option string -> string -> FetchOutcome -> M Verdict)
    (es : list Event) :
  is_gateway_copy classify ->
  forall s, (now s <= now (run classify es s))%N.
Proof.
  intros Hcopy. induction es as [|e es IH]; intros s; simpl; [lia |].
  etransitivity; [apply (copy_step_now classify s e Hcopy) | apply IH].
Qed.

(** [h] is cached with [v], and its one timer is pending and due at [T]. *)
Definition expires_at (h : string) (v : Verdict) (T : N) (s : State) : Prop :=
  cached_until h v T s /\ (T, h) ∈ timers s.

Lemma expires_at_advance (h : string) (v : Verdict) (T dt : N) (s : State) :
  expires_at h v T s -> (now s + dt < T)%N -> expires_at h v T (advance dt s).
Proof.
  intros [Hc Hin] Hlt. split; [now apply cached_until_advance |].
  apply advance_timers. now split.
Qed.

Lemma expires_at_stored (h h' : string) (v v' : Verdict) (T : N) (s : State) :
  expires_at h v T s -> h' <> h -> expires_at h v T (stored h' v' s).
Proof.
  intros [Hc Hin] Hne. split; [now apply cached_until_stored |].
  unfold stored. simpl. apply elem_of_app. now left.
Qed.

Lemma copy_step_expires_at
    (classify : option string -> string -> FetchOutcome -> M Verdict)
    (h : string) (v : Verdict) (T : N) (s : State) (e : Event) :
  is_gateway_copy classify ->
  expires_at h v T s -> (now (step classify s e) < T)%N ->
  expires_at h v T (step classify s e).
Proof.
  intros Hcopy Hc. destruct e as [apiKey img net|dt]; simpl.
  2:{ intros Hlt. now apply expires_at_advance. }
  destruct (copy_call_state classify apiKey img net s Hcopy)
    as [->|[dt [->|(v' & Hmiss & ->)]]]; simpl; intros Hlt.
  - exact Hc.
  - now apply expires_at_advance.
  - apply expires_at_stored; [now apply expires_at_advance |].
    intros Heq. destruct Hc as [[Hv _] _]. congruence.
Qed.

Lemma copy_run_expires_at
    (classify : option string -> string -> FetchOutcome -> M Verdict)
    (h : string) (v : Verdict) (T : N) (es : list Event) :
  is_gateway_copy classify ->
  forall s, expires_at h v T s -> (now (run classify es s) < T)%N ->
  expires_at h v T (run classify es s).
Proof.
  intros Hcopy. induction es as [|e es IH]; intros s Hc Hlt; [exact Hc |].
  simpl in *. apply IH; [| exact Hlt].
  apply copy_step_expires_at; [exact Hcopy | exact Hc |].
  pose proof (copy_run_now classify es Hcopy (step classify s e)). lia.
Qed.

(** A call that found the key not cached and returned a verdict stored it. *)
Lemma copy_fresh_verdict
    (classify : option string -> string -> FetchOutcome -> M Verdict)
    (apiKey : option string) (imageBase64 : string) (net : FetchOutcome)
    (s s1 : State) (v : Verdict) (t1 : list Effect) :
  is_gateway_copy classify ->
  imageCache s !! MD5.digest_hex imageBase64 = None ->
  classify apiKey imageBase64 net s = (Normal v, s1, t1) ->
  s1 = stored (MD5.digest_hex imageBase64) v (advance (fetch_latency net) s) /\
  (exists ds, v = verdict_of_detections ds) /\
  List.filter is_external_call t1 = [DetectorRequest apiKey (strip_data_uri imageBase64)].
Proof.
  intros Hcopy Hmiss Hrun.
  destruct (copy_call_shape classify apiKey imageBase64 net s Hcopy)
    as [(c & v' & Hhit & _)|[(_ & e & dt & t & Hthrow & _)|(_ & ds & t & Hok & Ht)]].
  - congruence.
  - rewrite Hthrow in Hrun. discriminate Hrun.
  - rewrite Hok in Hrun. injection Hrun as <- <- <-. eauto.
Qed.

Lemma stored_expires_at (h : string) (v : Verdict) (s : State) :
  timers_wf s -> imageCache s !! h = None ->
  expires_at h v (now s + 300000) (stored h v s).
Proof.
  intros Hwf Hmiss. split; [now apply stored_cached_until |].
  unfold stored. simpl. apply elem_of_app. right. now apply list_elem_of_singleton.
Qed.

(** X7.  In either copy, from an empty cache and with one call at a time
    (no call starts while another waits for the detector).  A verdict stored
    at time [T0] stays in the cache through every later call and wait before
    [T0 + 300000] and is deleted by the first wait that reaches
    [T0 + 300000]: the hits in between do not postpone the deletion. *)
Theorem expiry_is_not_postponed
    (classify : option string -> string -> FetchOutcome -> M Verdict)
    (history es : list Event) (apiKey : option string) (imageBase64 : string)
    (net : FetchOutcome) (v : Verdict) (s1 : State) (t1 : list Effect) (dt : N) :
  let s0 := run classify history initial_state in
  let s2 := run classify es s1 in
  is_gateway_copy classify ->
  imageCache s0 !! MD5.digest_hex imageBase64 = None ->
  classify apiKey imageBase64 net s0 = (Normal v, s1, t1) ->
  (now s2 < now s1 + 300000)%N ->
  (now s1 + 300000 <= now s2 + dt)%N ->
  imageCache s2 !! MD5.digest_hex imageBase64 = Some v /\
  imageCache (advance dt s2) !! MD5.digest_hex imageBase64 = None.
Proof.
  intros s0 s2 Hcopy Hmiss Hrun Hbefore Hafter.
  assert (Hwf : timers_wf s0).
  { apply copy_run_timers_wf; [exact Hcopy | apply timers_wf_initial]. }
  destruct (copy_fresh_verdict classify apiKey imageBase64 net s0 s1 v t1 Hcopy Hmiss Hrun)
    as (Hs1 & _ & _).
  assert (Hexp : expires_at (MD5.digest_hex imageBase64) v (now s1 + 300000) s2).
  { apply copy_run_expires_at; [exact Hcopy | | exact Hbefore].
    rewrite Hs1.
    apply (stored_expires_at (MD5.digest_hex imageBase64) v (advance (fetch_latency net) s0));
      [now apply timers_wf_advance | now apply advance_miss]. }
  destruct Hexp as [[Hv _] Hin]. split; [exact Hv |].
  destruct (imageCache (advance dt s2) !! MD5.digest_hex imageBase64) as [c|] eqn:Hc;
    [| reflexivity].
  apply advance_lookup_Some in Hc as [_ Hlate]. specialize (Hlate _ Hin). lia.
Qed.

(** ** Where a cached verdict comes from *)

Lemma run_snoc
    (classify : option string -> string -> FetchOutcome -> M Verdict)
    (es : list Event) (e : Event) (s : State) :
  run classify (es ++ [e]) s = step classify (run classify es s) e.
Proof. unfold run. now rewrite fold_left_app. Qed.

(** The verdict [v] under the key [h] was returned by a call of [history]
    that found [h] not cached and asked the detector; it came in at the time
    of [s1], less than 300000 ms before the time of [s], and its timer is the
    one pending for [h]. *)
Definition computed_in
    (classify : option string -> string -> FetchOutcome -> M Verdict)
    (history : list Event) (s : State) (h : string) (v : Verdict) : Prop :=
  exists before apiKey imageBase64 net after s1 t1,
    history = before ++ Classify apiKey imageBase64 net :: after /\
    MD5.digest_hex imageBase64 = h /\
    imageCache (run classify before initial_state) !! h = None /\
    classify apiKey imageBase64 net (run classify before initial_state) = (Normal v, s1, t1) /\
    List.filter is_external_call t1 = [DetectorRequest apiKey (strip_data_uri imageBase64)] /\
    expires_at h v (now s1 + 300000) s /\
    (now s < now s1 + 300000)%N.

Lemma computed_in_later
    (classify : option string -> string -> FetchOutcome -> M Verdict)
    (history : list Event) (e : Event) (s s' : State) (h : string) (v : Verdict) :
  computed_in classify history s h v ->
  (forall T, expires_at h v T s -> (now s < T)%N -> expires_at h v T s' /\ (now s' < T)%N) ->
  computed_in classify (history ++ [e]) s' h v.
Proof.
  intros (before & k & img & net & after & s1 & t1 & -> & Hh & Hmiss & Hrun & Ht & Hexp & Hlt)
    Hkeep.
  destruct (Hkeep _ Hexp Hlt) as [Hexp' Hlt'].
  exists before, k, img, net, (after ++ [e]), s1, t1.
  split; [rewrite <- List.app_assoc; reflexivity |].
  split; [exact Hh |]. split; [exact Hmiss |]. split; [exact Hrun |].
  split; [exact Ht |]. split; [exact Hexp' | exact Hlt'].
Qed.

Lemma copy_run_computed
    (classify : option string -> string -> FetchOutcome -> M Verdict)
    (history : list Event) :
  is_gateway_copy classify ->
  forall h v,
    imageCache (run classify history initial_state) !! h = Some v ->
    computed_in classify history (run classify history initial_state) h v.
Proof.
  intros Hcopy. induction history as [|e history IH] using rev_ind; intros h v Hv.
  { unfold initial_state in Hv. simpl in Hv. rewrite lookup_empty in Hv. discriminate Hv. }
  assert (Hwf : timers_wf (run classify history initial_state)).
  { apply copy_run_timers_wf; [exact Hcopy | apply timers_wf_initial]. }
  rewrite run_snoc in *. set (s := run classify history initial_state) in *.
  assert (Hwait : forall dt,
    imageCache (advance dt s) !! h = Some v ->
    computed_in classify (history ++ [e]) (advance dt s) h v).
  { intros dt Hc. apply advance_lookup_Some in Hc as [Hc Hlate].
    apply (computed_in_later classify history e s); [now apply IH |].
    intros T Hexp _. pose proof (Hlate T (proj2 Hexp)) as HT.
    split; [now apply expires_at_advance | now rewrite advance_now]. }
  destruct e as [apiKey img net|dt]; simpl in *; [| now apply Hwait].
  destruct (copy_call_shape classify apiKey img net s Hcopy)
    as [(c & v' & _ & Hhit & _)|[(_ & err & dt & t & Hthrow & _)|(Hmiss & ds & t & Hok & Ht)]].
  - rewrite Hhit in *. simpl in *.
    apply (computed_in_later classify history _ s); [now apply IH | tauto].
  - rewrite Hthrow in *. simpl in *. now apply Hwait.
  - rewrite Hok in Hv |- *. simpl in Hv |- *.
    set (s' := stored (MD5.digest_hex img) (verdict_of_detections ds)
                 (advance (fetch_latency net) s)) in *.
    destruct (decide (MD5.digest_hex img = h)) as [<-|Hne].
    + unfold s', stored in Hv. simpl in Hv. rewrite lookup_insert_eq in Hv.
      injection Hv as <-.
      exists history, apiKey, img, net, [], s', t.
      split; [reflexivity |]. split; [reflexivity |]. split; [exact Hmiss |].
      split; [exact Hok |]. split; [exact Ht |]. split; [| unfold s', stored; simpl; lia].
      apply (stored_expires_at (MD5.digest_hex img) (verdict_of_detections ds)
               (advance (fetch_latency net) s));
        [now apply timers_wf_advance | now apply advance_miss].
    + unfold s', stored in Hv. simpl in Hv. rewrite lookup_insert_ne in Hv by done.
      apply advance_lookup_Some in Hv as [Hc Hlate].
      apply (computed_in_later classify history _ s); [now apply IH |].
      intros T Hexp _. pose proof (Hlate T (proj2 Hexp)) as HT.
      split; [| unfold s', stored; simpl; exact HT].
      apply expires_at_stored; [now apply expires_at_advance | exact Hne].
Qed.

(** X6.  In either copy, from an empty cache and after any calls and
    waits, one call at a time.  Once 300000 ms pass without a call, the cache
    is empty.  And a verdict that is in the cache, which is what a call for
    its image returns without asking the detector (the flag [cacheHit]
    apart), was returned by an earlier call that found the image's digest not
    cached and asked the detector; the answer to that call came in less than
    300000 ms ago.  No verdict is served from the cache more than five
    minutes after the detector gave it. *)
Theorem cache_serves_only_fresh_verdicts
    (classify : option string -> string -> FetchOutcome -> M Verdict)
    (history : list Event) :
  let s := run classify history initial_state in
  is_gateway_copy classify ->
  (forall dt, (300000 <= dt)%N -> imageCache (advance dt s) = ∅) /\
  (forall apiKey imageBase64 net cached,
     imageCache s !! MD5.digest_hex imageBase64 = Some cached ->
     (exists v,
        classify apiKey imageBase64 net s = (Normal v, s, []) /\
        with_cacheHit v true = with_cacheHit cached true) /\
     exists before apiKey0 imageBase640 net0 after s1 t1,
       history = before ++ Classify apiKey0 imageBase640 net0 :: after /\
       MD5.digest_hex imageBase640 = MD5.digest_hex imageBase64 /\
       imageCache (run classify before initial_state) !! MD5.digest_hex imageBase640 = None /\
       classify apiKey0 imageBase640 net0 (run classify before initial_state) =
         (Normal cached, s1, t1) /\
       List.filter is_external_call t1 =
         [DetectorRequest apiKey0 (strip_data_uri imageBase640)] /\
       (now s1 <= now s)%N /\ (now s < now s1 + 300000)%N).
Proof.
  intros s Hcopy. split.
  - intros dt Hdt. apply map_eq. intros h. rewrite lookup_empty.
    destruct (imageCache (advance dt s) !! h) as [v|] eqn:Hv; [| reflexivity].
    exfalso. apply advance_lookup_Some in Hv as [Hv Hlate].
    assert (Hinv : cache_timed s).
    { apply copy_run_cache_timed; [exact Hcopy |]. intros k c Hc.
      unfold initial_state in Hc. simpl in Hc. rewrite lookup_empty in Hc. discriminate Hc. }
    destruct (Hinv h v Hv) as (d & Hin & _ & Hle). specialize (Hlate d Hin). lia.
  - intros apiKey imageBase64 net cached Hc. split.
    + destruct (copy_call_shape classify apiKey imageBase64 net s Hcopy)
        as [(c & v & Hhit & Hcall & Hsame)|[(Hnone & _)|(Hnone & _)]];
        [| congruence | congruence].
      rewrite Hc in Hhit. injection Hhit as <-. now exists v.
    + destruct (copy_run_computed classify history Hcopy _ _ Hc)
        as (before & k & img & net0 & after & s1 & t1 & Hsplit & Hh & Hmiss & Hrun & Ht & _ & Hlt).
      exists before, k, img, net0, after, s1, t1.
      split; [exact Hsplit |]. split; [exact Hh |]. rewrite Hh.
      split; [exact Hmiss |]. split; [exact Hrun |]. split; [exact Ht |].
      split; [| exact Hlt].
      assert (Hs1 : s1 = step classify (run classify before initial_state)
                           (Classify k img net0)) by (simpl; now rewrite Hrun).
      unfold s. rewrite Hsplit.
      change (before ++ Classify k img net0 :: after)
        with (before ++ [Classify k img net0] ++ after).
      unfold run. rewrite !fold_left_app. simpl fold_left at 2.
      fold (run classify before initial_state). rewrite Hrun. simpl.
      apply (copy_run_now classify after Hcopy s1).
Qed.

(** ** A call that fails, and the two copies side by side *)


(** X9.  A detector that answers within 10 s with a body in the first shape
    ([images[0].results]): both copies compute the same verdict from it, leave
    the same state and send the same request. *)
Theorem copies_agree_on_first_shape
    (apiKey : option string) (imageBase64 : string) (net : FetchOutcome)
    (s : State) (results : list Detection) (other : option (list Detection)) :
  imageCache s !! MD5.digest_hex imageBase64 = None ->
  answers 10000 net (Shapes (Some results) other) ->
  exists s' t30 t10,
    Gateway.classifyImage apiKey imageBase64 net s =
      (Normal (verdict_of_detections results), s', t30) /\
    Service.classifyImage apiKey imageBase64 net s =
      (Normal (verdict_of_detections results), s', t10) /\
    List.filter is_external_call t30 = List.filter is_external_call t10.
Proof.
  intros Hmiss Hans.
  assert (Hans30 : answers 30000 net (Shapes (Some results) other)).
  { destruct Hans as [Hlt Hr]. split; [lia | exact Hr]. }
  destruct (Gateway_classify_answers apiKey imageBase64 net s _ results Hmiss Hans30
              (reports_results results other)) as (t30 & H30 & Ht30).
  destruct (Service_classify_answers apiKey imageBase64 net s _ results Hmiss Hans
              (Service_reports_results results other)) as (t10 & H10 & Ht10).
  eexists _, t30, t10. split; [exact H30 |]. split; [exact H10 |]. congruence.
Qed.

(** X10.  A detector that answers with a body in the second shape only
    ([predictions[0].detections]): the 30 s copy computes the verdict from
    these detections; the 10 s copy, which the router imports, reads no
    detection at all, so its verdict is non-waste with confidence 0, and it
    caches that verdict. *)
Theorem Service_ignores_second_shape
    (apiKey : option string) (imageBase64 : string) (net : FetchOutcome)
    (s : State) (detections : list Detection) :
  imageCache s !! MD5.digest_hex imageBase64 = None ->
  answers 10000 net (Shapes None (Some detections)) ->
  exists v s10 t10 s30 t30,
    Service.classifyImage apiKey imageBase64 net s = (Normal v, s10, t10) /\
    isWaste v = false /\ confidence v = 0%Q /\
    imageCache s10 !! MD5.digest_hex imageBase64 = Some v /\
    Gateway.classifyImage apiKey imageBase64 net s =
      (Normal (verdict_of_detections detections), s30, t30).
Proof.
  intros Hmiss Hans.
  assert (Hans30 : answers 30000 net (Shapes None (Some detections))).
  { destruct Hans as [Hlt Hr]. split; [lia | exact Hr]. }
  destruct (Gateway_classify_answers apiKey imageBase64 net s _ detections Hmiss Hans30
              (reports_detections detections)) as (t30 & H30 & _).
  destruct (Service_classify_answers apiKey imageBase64 net s _ [] Hmiss Hans
              (Service_reports_nothing (Some detections))) as (t10 & H10 & _).
  eexists _, _, t10, _, t30. split; [exact H10 |].
  split; [reflexivity |]. split; [reflexivity |]. split; [| exact H30].
  unfold stored. simpl. apply lookup_insert_eq.
Qed.

(** ** The image string: prefix, alphabet, length *)

Lemma append_cons (c : ascii) (a b : string) : String c a +:+ b = String c (a +:+ b).
Proof. reflexivity. Qed.

Lemma drop_prefix_Some (p s r : string) : drop_prefix p s = Some r -> s = p +:+ r.
Proof.
  revert s. induction p as [|a p IH]; intros s H; simpl in H.
  - now injection H as ->.
  - destruct s as [|b s]; [discriminate H |].
    destruct (Ascii.eqb a b) eqn:E; [| discriminate H].
    apply Ascii.eqb_eq in E as ->. rewrite append_cons. f_equal. now apply IH.
Qed.

Lemma drop_prefix_app (p r : string) : drop_prefix p (p +:+ r) = Some r.
Proof.
  induction p as [|a p IH]; [reflexivity |].
  rewrite append_cons. simpl. now rewrite Ascii.eqb_refl.
Qed.

Lemma skip_word_chars_length (s : string) :
  (String.length (skip_word_chars s).2 <= String.length s)%nat.
Proof.
  induction s as [|c s IH]; simpl; [lia |].
  destruct (is_word_char c); simpl; [| lia].
  destruct (skip_word_chars s) as [n r]. simpl in *. lia.
Qed.

Lemma length_app_string (a b : string) :
  String.length (a +:+ b) = (String.length a + String.length b)%nat.
Proof.
  induction a as [|c a IH]; [reflexivity |]. rewrite append_cons. simpl. now rewrite IH.
Qed.

(** Removing the prefix never makes the string longer. *)
Lemma strip_data_uri_length (s : string) :
  (String.length (strip_data_uri s) <= String.length s)%nat.
Proof.
  unfold strip_data_uri, match_data_uri_prefix.
  destruct (drop_prefix "data:image/" s) as [r1|] eqn:H1; [| lia].
  apply drop_prefix_Some in H1. subst s.
  pose proof (skip_word_chars_length r1) as Hlen.
  destruct (skip_word_chars r1) as [[|n] r2]; [lia |]. simpl in Hlen.
  destruct (drop_prefix ";base64," r2) as [r3|] eqn:H3; [| lia].
  apply drop_prefix_Some in H3. subst r2.
  rewrite !length_app_string in *. lia.
Qed.

(** A string with the prefix holds a colon, which is outside both alphabets. *)
Lemma prefixed_not_base64_text (s rest : string) :
  match_data_uri_prefix s = Some rest -> string_forallb is_base64_text_char s = false.
Proof.
  unfold match_data_uri_prefix. intros H.
  destruct (drop_prefix "data:image/" s) as [r1|] eqn:H1; [| discriminate H].
  apply drop_prefix_Some in H1. subst s. reflexivity.
Qed.

Lemma prefixed_not_base64_digits (s rest : string) :
  match_data_uri_prefix s = Some rest -> string_forallb is_base64_digit s = false.
Proof.
  unfold match_data_uri_prefix. intros H.
  destruct (drop_prefix "data:image/" s) as [r1|] eqn:H1; [| discriminate H].
  apply drop_prefix_Some in H1. subst s. reflexivity.
Qed.

Lemma base64_text_no_prefix (s : string) :
  is_base64_text s = true -> match_data_uri_prefix s = None.
Proof.
  intros H. destruct (match_data_uri_prefix s) as [rest|] eqn:E; [| reflexivity].
  apply prefixed_not_base64_text in E. unfold is_base64_text in H.
  apply andb_true_iff in H as [_ H]. congruence.
Qed.

(** What passes the pattern is, once the prefix is off, text of the base64
    alphabet, and not empty. *)
Lemma base64_regex_test_strip (s : string) :
  base64_regex_test s = true -> is_base64_text (strip_data_uri s) = true.
Proof.
  unfold base64_regex_test, strip_data_uri.
  destruct (match_data_uri_prefix s) as [rest|] eqn:E; [| trivial].
  intros H. apply orb_true_iff in H as [H|H]; [exact H |].
  apply prefixed_not_base64_text in E. unfold is_base64_text in H.
  apply andb_true_iff in H as [_ H]. congruence.
Qed.

Lemma base64_digits_le_length (s : string) :
  0 <= base64_digits s <= Z.of_nat (String.length s).
Proof.
  induction s as [|c s IH]; simpl base64_digits; [simpl; lia |].
  change (String.length (String c s)) with (Datatypes.S (String.length s)).
  destruct (Ascii.eqb c "="); [lia |]. destruct (is_base64_digit c); lia.
Qed.

Lemma is_base64_digit_not_pad (c : ascii) : is_base64_digit c = true -> Ascii.eqb c "=" = false.
Proof.
  intros H. destruct (Ascii.eqb c "=") eqn:E; [| reflexivity].
  apply Ascii.eqb_eq in E. subst c. discriminate H.
Qed.

Lemma base64_digits_all (s : string) :
  string_forallb is_base64_digit s = true -> base64_digits s = Z.of_nat (String.length s).
Proof.
  induction s as [|c s IH]; [reflexivity |]. simpl string_forallb.
  intros H. apply andb_true_iff in H as [Hc Hs].
  change (String.length (String c s)) with (Datatypes.S (String.length s)).
  simpl base64_digits. rewrite (is_base64_digit_not_pad c Hc), Hc, (IH Hs). lia.
Qed.

(** X11.  The size check in characters.  An image string of at most 6990507
    characters is never answered IMAGE_TOO_LARGE, whatever it holds; one of
    6990508 or more digits of the base64 alphabet always is. *)
Theorem size_limit_in_characters (req : Request) (s : State) (image_s : string) :
  image req = JStr image_s ->
  (Z.of_nat (String.length image_s) <= 6990507 ->
     validate req s = (Respond (fields_missing (missing_fields req)), s, []) \/
     validate req s = (Respond invalid_image_format, s, []) \/
     validate req s = (Normal image_s, s, [])) /\
  (string_forallb is_base64_digit image_s = true ->
   6990508 <= Z.of_nat (String.length image_s) ->
     validate req s = (Respond image_too_large, s, [])).
Proof.
  intros Himg. split.
  - intros Hlen.
    assert (Hsmall : Buffer_from_base64_length (strip_data_uri image_s) <= 5 * 1024 * 1024).
    { unfold Buffer_from_base64_length.
      pose proof (base64_digits_le_length (strip_data_uri image_s)) as Hd.
      pose proof (strip_data_uri_length image_s) as Hs.
      apply Z.lt_succ_r, Z.div_lt_upper_bound; lia. }
    destruct (missing_fields req) as [|f fs] eqn:Hmiss.
    + destruct (base64_regex_test image_s) eqn:Hre.
      * right. right. now apply validate_passes.
      * right. left. now apply (validate_bad_format req s image_s).
    + left. rewrite <- Hmiss. apply (validate_missing req s image_s Himg Hsmall).
      now rewrite Hmiss.
  - intros Hdigits Hlen. apply (validate_too_large req s image_s Himg).
    unfold strip_data_uri.
    destruct (match_data_uri_prefix image_s) as [rest|] eqn:E.
    { apply prefixed_not_base64_digits in E. congruence. }
    unfold Buffer_from_base64_length. rewrite (base64_digits_all image_s Hdigits).
    assert (5242881 <= 3 * Z.of_nat (String.length image_s) / 4)
      by (apply Z.div_le_lower_bound; lia).
    lia.
Qed.

(** ** Every way a submission can go *)

(** The argument of [new Report({...})] for a request whose three texts are
    strings. *)
Definition new_report (req : Request) (classification : option Verdict)
    (uploadResponse : UploadResponse) (title_s details_s address_s : string) : ReportDoc :=
  {| doc_title := trim title_s;
     doc_image := secure_url uploadResponse;
     doc_publicId := public_id uploadResponse;
     doc_details := trim details_s;
     doc_address := trim address_s;
     doc_reportType := finalReportType req;
     doc_coordinates := (longitude req, latitude req);
     doc_photoTimestamp :=
       if truthy (photoTimestamp req) then Some (photoTimestamp req) else None;
     doc_user := user_id req;
     doc_aiVerification := ai_of_verdict <$> classification |}.

Definition upload_of (image_s : string) : Effect :=
  CloudinaryUpload ("data:image/jpeg;base64," +:+ image_s).

Definition award_of (req : Request) : Effect :=
  UserUpdate (user_id req) (JNum 1) (pointsToAdd req).

(** The three texts of the request are strings. *)
Definition texts (req : Request) (title_s details_s address_s : string) : Prop :=
  title req = JStr title_s /\ details req = JStr details_s /\ address req = JStr address_s.

(** The rest of the handler, step by step: the upload fails; or a text is
    not a string and [trim] throws; or the save fails; or the report is saved
    and the points are awarded, or not. *)
Definition finish_outcome (req : Request) (w : World) (image_s : string)
    (classification : option Verdict) (s1 : State)
    (r : HttpResponse) (s' : State) (t : list Effect) : Prop :=
  (((15000 <= upload_latency w)%N \/ exists e, upload_result w = inl e) /\
   t = [upload_of image_s; Console "error" "Cloudinary Upload Error:"] /\
   (http_status r = 504 \/ http_status r = 500)) \/
  exists u,
    (upload_latency w < 15000)%N /\ upload_result w = inr u /\
    (((forall a b c, ~ texts req a b c) /\
      t = [upload_of image_s; Console "error" "Report Creation Error:"] /\
      http_status r = 500 /\
      body_code (http_body r) = Some "INTERNAL_SERVER_ERROR" /\
      s' = advance (upload_latency w) s1) \/
     exists title_s details_s address_s,
       texts req title_s details_s address_s /\
       let doc := new_report req classification u title_s details_s address_s in
       ((exists e, save_result w = inl e /\
           t = [upload_of image_s; ReportSave doc;
                Console "error" "Report Creation Error:"] /\
           r = save_failed e) \/
        exists id, save_result w = inr id /\
          r = created req classification (mkSavedReport id doc) /\
          ((ledger_result w = inr tt /\
            t = [upload_of image_s; ReportSave doc; award_of req]) \/
           (exists e, ledger_result w = inl e /\
              t = [upload_of image_s; ReportSave doc; award_of req;
                   Console "error" "User update error:"])))).

Lemma finish_order (req : Request) (w : World) (image_s : string)
    (classification : option Verdict) (s1 : State) :
  exists r s' t,
    try_catch (finish req w image_s classification) on_error s1 = (Respond r, s', t) /\
    finish_outcome req w image_s classification s1 r s' t.
Proof.
  run_finish.
  unfold finish_outcome, created, save_failed, upload_of, award_of, texts, new_report.
  destruct (15000 <=? upload_latency w)%N eqn:Hlat; simpl.
  { apply N.leb_le in Hlat. eexists _, _, _. split; [reflexivity |]. left.
    split; [now left |]. split; [reflexivity | now left]. }
  apply N.leb_gt in Hlat.
  destruct (upload_result w) as [ue|u] eqn:Hup; simpl.
  { destruct (String.eqb (err_message ue) "CLOUDINARY_TIMEOUT");
      (eexists _, _, _; split; [reflexivity |]; left;
       split; [right; eauto |]; split; [reflexivity | simpl; auto]). }
  destruct (title req) as [| |tb|tn|title_s|to] eqn:Ht; simpl;
    try (eexists _, _, _; split; [reflexivity |]; right; exists u;
         split; [exact Hlat |]; split; [reflexivity |]; left;
         split; [intros a b c (H & _); discriminate H | now repeat split]).
  destruct (details req) as [| |db|dn|details_s|dobj] eqn:Hd; simpl;
    try (eexists _, _, _; split; [reflexivity |]; right; exists u;
         split; [exact Hlat |]; split; [reflexivity |]; left;
         split; [intros a b c (_ & H & _); discriminate H | now repeat split]).
  destruct (address req) as [| |ab|an|address_s|aobj] eqn:Ha; simpl;
    try (eexists _, _, _; split; [reflexivity |]; right; exists u;
         split; [exact Hlat |]; split; [reflexivity |]; left;
         split; [intros a b c (_ & _ & H); discriminate H | now repeat split]).
  destruct (save_result w) as [se|id] eqn:Hsave; simpl.
  { destruct (String.eqb (err_name se) "ValidationError") eqn:Hname;
      (eexists _, _, _; split; [reflexivity |]; right; exists u;
       split; [exact Hlat |]; split; [reflexivity |]; right;
       exists title_s, details_s, address_s; split; [now repeat split |];
       left; exists se; split; [reflexivity |]; split; [reflexivity |];
       now rewrite Hname). }
  destruct (ledger_result w) as [le|[]] eqn:Hledger; simpl;
    (eexists _, _, _; split; [reflexivity |]; right; exists u;
     split; [exact Hlat |]; split; [reflexivity |]; right;
     exists title_s, details_s, address_s; split; [now repeat split |];
     right; exists id; split; [reflexivity |]; split; [reflexivity |]).
  - right. now exists le.
  - left. now split.
Qed.

Lemma validate_Normal_inv (req : Request) (s s1 : State) (image_s : string)
    (t : list Effect) :
  validate req s = (Normal image_s, s1, t) -> passes_validation req image_s.
Proof.
  intros H.
  destruct (image req) as [| |b|n|str|obj] eqn:Himg;
    try (destruct (validate_no_string req s) as [msg Hthrow];
         [intros ? ?; congruence | rewrite Hthrow in H; discriminate H]).
  destruct (Z.lt_ge_cases (5 * 1024 * 1024) (Buffer_from_base64_length (strip_data_uri str)))
    as [Hbig|Hsmall].
  { rewrite (validate_too_large req s str Himg Hbig) in H. discriminate H. }
  destruct (missing_fields req) as [|f fs] eqn:Hmiss.
  2:{ rewrite (validate_missing req s str Himg Hsmall) in H; [discriminate H |].
      now rewrite Hmiss. }
  destruct (base64_regex_test str) eqn:Hre.
  - rewrite (validate_passes req s str Himg Hsmall Hmiss Hre) in H.
    injection H as <- _ _. now repeat split.
  - rewrite (validate_bad_format req s str Himg Hsmall Hmiss Hre) in H. discriminate H.
Qed.

(** How the handler goes, by its first two steps. *)
Inductive submit_path
    (classifyImage : option string -> string -> FetchOutcome -> M Verdict)
    (req : Request) (w : World) (s : State) :
    Outcome unit * State * list Effect -> Prop :=
| path_refused r t :
    (forall image_s, ~ passes_validation req image_s) ->
    (t = [] \/ t = [Console "error" "Report Creation Error:"]) ->
    (http_status r = 413 \/ http_status r = 400 \/ http_status r = 500) ->
    submit_path classifyImage req w s (Respond r, s, t)
| path_forced image_s r s' t2 :
    passes_validation req image_s ->
    truthy (forceSubmit req) = true ->
    try_catch (finish req w image_s None) on_error s = (Respond r, s', t2) ->
    submit_path classifyImage req w s (Respond r, s', t2)
| path_rejected image_s v s1 t1 :
    passes_validation req image_s ->
    truthy (forceSubmit req) = false ->
    classifyImage (ULTRALYTICS_API_KEY w) image_s (detector w) s = (Normal v, s1, t1) ->
    (isWaste v = false \/ (confidence v < 0.7)%Q) ->
    submit_path classifyImage req w s
      (Respond (if isWaste v then low_confidence v else not_waste v), s1, t1)
| path_accepted image_s v s1 t1 r s' t2 :
    passes_validation req image_s ->
    truthy (forceSubmit req) = false ->
    classifyImage (ULTRALYTICS_API_KEY w) image_s (detector w) s = (Normal v, s1, t1) ->
    isWaste v = true -> (0.7 <= confidence v)%Q ->
    try_catch (finish req w image_s (Some v)) on_error s1 = (Respond r, s', t2) ->
    submit_path classifyImage req w s (Respond r, s', t1 ++ t2)
| path_unavailable image_s e s1 t1 r :
    passes_validation req image_s ->
    truthy (forceSubmit req) = false ->
    classifyImage (ULTRALYTICS_API_KEY w) image_s (detector w) s = (Throw e, s1, t1) ->
    http_status r = 503 -> body_code (http_body r) = Some "SERVICE_UNAVAILABLE" ->
    body_error (http_body r) = Some (err_message e) ->
    submit_path classifyImage req w s
      (Respond r, s1, t1 ++ [Console "error" "Classification Error:"])
| path_answered_inside image_s r s1 t1 :
    passes_validation req image_s ->
    truthy (forceSubmit req) = false ->
    classifyImage (ULTRALYTICS_API_KEY w) image_s (detector w) s = (Respond r, s1, t1) ->
    submit_path classifyImage req w s (Respond r, s1, t1).

Lemma submit_cases
    (classifyImage : option string -> string -> FetchOutcome -> M Verdict)
    (req : Request) (w : World) (s : State) :
  submit_path classifyImage req w s (submit classifyImage req w s).
Proof.
  assert (Hnone : forall o t, validate req s = (o, s, t) -> (forall x, o <> Normal x) ->
            forall image_s, ~ passes_validation req image_s).
  { intros o t Hv Hno image_s Hp.
    rewrite (passes_validation_validate req image_s s Hp) in Hv.
    injection Hv as <- _. now apply (Hno image_s). }
  destruct (validate_cases req s) as [[msg H]|[H|[H|[H|[image_s H]]]]].
  - rewrite (submit_validate_Throw classifyImage req w s _ H).
    destruct (on_error_responds (TypeError msg) s) as (r & -> & Hstatus & _).
    apply path_refused; [now apply (Hnone _ _ H) | now right |].
    right. right. exact Hstatus.
  - rewrite (submit_validate_Respond classifyImage req w s _ H).
    apply path_refused; [now apply (Hnone _ _ H) | now left | now left].
  - rewrite (submit_validate_Respond classifyImage req w s _ H).
    apply path_refused; [now apply (Hnone _ _ H) | now left | right; now left].
  - rewrite (submit_validate_Respond classifyImage req w s _ H).
    apply path_refused; [now apply (Hnone _ _ H) | now left | right; now left].
  - pose proof (validate_Normal_inv req s s image_s [] H) as Hvalid.
    rewrite (submit_validate_Normal classifyImage req w s image_s H).
    destruct (truthy (forceSubmit req)) eqn:Hforce.
    { rewrite (continue_Normal classifyImage req w image_s None s s []
                 (classify_or_skip_forced classifyImage req w image_s s Hforce)).
      destruct (finish_cases req w image_s None s) as (r & s' & t & Hf & _).
      rewrite Hf. now apply (path_forced _ _ _ _ image_s). }
    destruct (classifyImage (ULTRALYTICS_API_KEY w) image_s (detector w) s)
      as [[[v|err|r1] s1] t1] eqn:Hc.
    + pose proof (classify_or_skip_verdict classifyImage req w image_s s s1 v t1 Hforce Hc)
        as Hstep.
      destruct (isWaste v) eqn:Hwaste; simpl in Hstep.
      * destruct (Qlt_bool (confidence v) 0.7) eqn:Hlow.
        -- rewrite (continue_Respond classifyImage _ _ _ _ _ _ _ Hstep).
           apply Qlt_bool_iff in Hlow.
           pose proof (path_rejected classifyImage req w s image_s v s1 t1 Hvalid Hforce Hc
                         (or_intror Hlow)) as Hp.
           now rewrite Hwaste in Hp.
        -- rewrite (continue_Normal classifyImage _ _ _ _ _ _ _ Hstep).
           destruct (finish_cases req w image_s (Some v) s1) as (r & s' & t & Hf & _).
           rewrite Hf.
           apply (path_accepted classifyImage req w s image_s v s1 t1 r s' t
                    Hvalid Hforce Hc Hwaste); [| exact Hf].
           unfold Qlt_bool in Hlow. now apply negb_false_iff, Qle_bool_iff in Hlow.
      * rewrite (continue_Respond classifyImage _ _ _ _ _ _ _ Hstep).
        pose proof (path_rejected classifyImage req w s image_s v s1 t1 Hvalid Hforce Hc
                      (or_introl Hwaste)) as Hp.
        now rewrite Hwaste in Hp.
    + destruct (classify_or_skip_Throw classifyImage req w image_s s s1 err t1 Hforce Hc)
        as (r0 & Hstep & H503 & Hcode & Herr).
      rewrite (continue_Respond classifyImage _ _ _ _ _ _ _ Hstep).
      now apply (path_unavailable _ _ _ _ image_s err).
    + pose proof (classify_or_skip_Respond classifyImage req w image_s s s1 r1 t1 Hforce Hc)
        as Hstep.
      rewrite (continue_Respond classifyImage _ _ _ _ _ _ _ Hstep).
      now apply (path_answered_inside _ _ _ _ image_s).
Qed.

(** ** What either copy contributes to a submission *)

Lemma copy_call_effects
    (classify : option string -> string -> FetchOutcome -> M Verdict)
    (apiKey : option string) (imageBase64 : string) (net : FetchOutcome)
    (s : State) (eff : Effect) :
  is_gateway_copy classify ->
  In eff (classify apiKey imageBase64 net s).2 -> is_gateway_effect eff = true.
Proof.
  intros [->| ->]; [apply Gateway_classify_effects | apply Service_classify_effects].
Qed.

Lemma copy_never_responds
    (classify : option string -> string -> FetchOutcome -> M Verdict)
    (apiKey : option string) (imageBase64 : string) (net : FetchOutcome)
    (s s1 : State) (r : HttpResponse) (t1 : list Effect) :
  is_gateway_copy classify ->
  classify apiKey imageBase64 net s <> (Respond r, s1, t1).
Proof.
  intros Hcopy H.
  destruct (copy_call_shape classify apiKey imageBase64 net s Hcopy)
    as [(c & v & _ & E & _)|[(_ & e & dt & t & E & _)|(_ & ds & t & E & _)]];
    rewrite E in H; discriminate H.
Qed.

(** The requests a call of either copy sends to the detector: none on a hit,
    one otherwise, with the image after [strip_data_uri]. *)
Lemma copy_call_requests
    (classify : option string -> string -> FetchOutcome -> M Verdict)
    (apiKey : option string) (imageBase64 : string) (net : FetchOutcome) (s : State) :
  is_gateway_copy classify ->
  List.filter is_external_call (classify apiKey imageBase64 net s).2 =
    match imageCache s !! MD5.digest_hex imageBase64 with
    | Some _ => []
    | None => [DetectorRequest apiKey (strip_data_uri imageBase64)]
    end.
Proof.
  intros Hcopy.
  destruct (copy_call_shape classify apiKey imageBase64 net s Hcopy)
    as [(c & v & -> & -> & _)|[(-> & e & dt & t & -> & Ht)|(-> & ds & t & -> & Ht)]];
    [reflexivity | exact Ht | exact Ht].
Qed.

(** What a handler does besides logging and asking the detector. *)
Definition persistence_calls (t : list Effect) : list Effect :=
  List.filter (fun e => negb (is_gateway_effect e)) t.

Lemma persistence_calls_gateway (t : list Effect) :
  (forall eff, In eff t -> is_gateway_effect eff = true) -> persistence_calls t = [].
Proof.
  induction t as [|e t IH]; intros H; [reflexivity |]. unfold persistence_calls. simpl.
  rewrite (H e (or_introl eq_refl)). simpl. apply IH. intros eff Hin. apply H. now right.
Qed.

Lemma persistence_calls_app (t1 t2 : list Effect) :
  persistence_calls (t1 ++ t2) = persistence_calls t1 ++ persistence_calls t2.
Proof. apply List.filter_app. Qed.

Lemma detector_calls_external (t : list Effect) :
  List.filter is_detector_call t = List.filter is_detector_call (List.filter is_external_call t).
Proof.
  induction t as [|e t IH]; [reflexivity |]. simpl.
  destruct e; simpl; now rewrite IH.
Qed.

Lemma detector_calls_finish (req : Request) (w : World) (image_s : string)
    (classification : option Verdict) (s1 s' : State) (r : HttpResponse) (t : list Effect) :
  try_catch (finish req w image_s classification) on_error s1 = (Respond r, s', t) ->
  List.filter is_detector_call t = [].
Proof.
  intros Hf.
  destruct (finish_cases req w image_s classification s1) as (r2 & s2 & t2 & Hf' & _ & Hd & _).
  rewrite Hf in Hf'. now injection Hf' as <- <- <-.
Qed.

(** X12.  A submission sends at most one request to the detector, and the
    file of that request is the image without the data-URI prefix: text of
    the base64 alphabet, not empty. *)
Theorem detector_receives_bare_base64
    (classify : option string -> string -> FetchOutcome -> M Verdict)
    (req : Request) (w : World) (s : State) :
  is_gateway_copy classify ->
  List.filter is_detector_call (submit classify req w s).2 = [] \/
  exists image_s,
    image req = JStr image_s /\
    List.filter is_detector_call (submit classify req w s).2 =
      [DetectorRequest (ULTRALYTICS_API_KEY w) (strip_data_uri image_s)] /\
    is_base64_text (strip_data_uri image_s) = true /\
    match_data_uri_prefix (strip_data_uri image_s) = None.
Proof.
  intros Hcopy.
  assert (Hcall : forall image_s t1 t2,
    passes_validation req image_s ->
    t1 = (classify (ULTRALYTICS_API_KEY w) image_s (detector w) s).2 ->
    List.filter is_detector_call t2 = [] ->
    List.filter is_detector_call (t1 ++ t2) = [] \/
    exists image_s,
      image req = JStr image_s /\
      List.filter is_detector_call (t1 ++ t2) =
        [DetectorRequest (ULTRALYTICS_API_KEY w) (strip_data_uri image_s)] /\
      is_base64_text (strip_data_uri image_s) = true /\
      match_data_uri_prefix (strip_data_uri image_s) = None).
  { intros image_s t1 t2 Hvalid -> Ht2. rewrite List.filter_app, Ht2, app_nil_r.
    rewrite detector_calls_external, (copy_call_requests classify _ _ _ _ Hcopy).
    destruct (imageCache s !! MD5.digest_hex image_s); [now left |].
    right. exists image_s. destruct Hvalid as (Himg & _ & _ & Hre).
    split; [exact Himg |]. split; [reflexivity |].
    pose proof (base64_regex_test_strip image_s Hre) as Htext.
    split; [exact Htext | now apply base64_text_no_prefix]. }
  pose proof (submit_cases classify req w s) as Hpath.
  inversion Hpath as
    [ r t Hno Ht Hst Heq
    | image_s r s' t2 Hvalid Hforce Hf Heq
    | image_s v s1 t1 Hvalid Hforce Hc Hrej Heq
    | image_s v s1 t1 r s' t2 Hvalid Hforce Hc Hw Hconf Hf Heq
    | image_s e s1 t1 r Hvalid Hforce Hc H503 Hcode Herr Heq
    | image_s r s1 t1 Hvalid Hforce Hc Heq ]; simpl.
  - left. now destruct Ht as [-> | ->].
  - left. now apply (detector_calls_finish req w image_s None s s' r).
  - rewrite <- (app_nil_r t1). apply (Hcall image_s); [exact Hvalid | now rewrite Hc | reflexivity].
  - apply (Hcall image_s); [exact Hvalid | now rewrite Hc |].
    now apply (detector_calls_finish req w image_s (Some v) s1 s' r).
  - apply (Hcall image_s); [exact Hvalid | now rewrite Hc | reflexivity].
  - now destruct (copy_never_responds classify _ _ _ _ _ _ _ Hcopy Hc).
Qed.

(** Where the verdict a submission goes on with comes from: there is none
    when the submission is forced; otherwise the classifier returned it, and
    it shows waste with a confidence of 0.7 or more. *)
Definition accepted_by
    (classify : option string -> string -> FetchOutcome -> M Verdict)
    (req : Request) (w : World) (s s1 : State) (image_s : string)
    (classification : option Verdict) : Prop :=
  (classification = None /\ truthy (forceSubmit req) = true /\ s1 = s) \/
  exists v t1,
    classification = Some v /\ truthy (forceSubmit req) = false /\
    classify (ULTRALYTICS_API_KEY w) image_s (detector w) s = (Normal v, s1, t1) /\
    isWaste v = true /\ (0.7 <= confidence v)%Q.

(** The calls a submission makes besides the classifier's, and its answer:
    those of the rest of the handler, if it got there. *)
Lemma copy_submit_persistence
    (classify : option string -> string -> FetchOutcome -> M Verdict)
    (req : Request) (w : World) (s s' : State) (r : HttpResponse) (t : list Effect) :
  is_gateway_copy classify ->
  submit classify req w s = (Respond r, s', t) ->
  (persistence_calls t = [] /\ http_status r <> 201) \/
  exists image_s classification s1 t2,
    passes_validation req image_s /\
    finish_outcome req w image_s classification s1 r s' t2 /\
    persistence_calls t = persistence_calls t2 /\
    accepted_by classify req w s s1 image_s classification.
Proof.
  intros Hcopy Hrun.
  assert (Hfin : forall image_s c s1 t1 t2,
    passes_validation req image_s ->
    persistence_calls t1 = [] ->
    try_catch (finish req w image_s c) on_error s1 = (Respond r, s', t2) ->
    t = t1 ++ t2 ->
    accepted_by classify req w s s1 image_s c ->
    exists image_s classification s1 t2,
      passes_validation req image_s /\
      finish_outcome req w image_s classification s1 r s' t2 /\
      persistence_calls t = persistence_calls t2 /\
      accepted_by classify req w s s1 image_s classification).
  { intros image_s c s1 t1 t2 Hvalid Ht1 Hf -> Hacc.
    destruct (finish_order req w image_s c s1) as (r2 & s2 & t2' & Hf' & Hout).
    rewrite Hf in Hf'. injection Hf' as <- <- <-.
    exists image_s, c, s1, t2. split; [exact Hvalid |]. split; [exact Hout |].
    split; [| exact Hacc]. now rewrite persistence_calls_app, Ht1. }
  assert (Hgw : forall image_s o s1 t1,
    classify (ULTRALYTICS_API_KEY w) image_s (detector w) s = (o, s1, t1) ->
    persistence_calls t1 = []).
  { intros image_s o s1 t1 Hc. apply persistence_calls_gateway. intros eff Hin.
    apply (copy_call_effects classify (ULTRALYTICS_API_KEY w) image_s (detector w) s eff Hcopy).
    now rewrite Hc. }
  pose proof (submit_cases classify req w s) as Hpath. rewrite Hrun in Hpath.
  inversion Hpath as
    [ r0 t0 Hno Ht Hst
    | image_s r0 s0 t2 Hvalid Hforce Hf
    | image_s v s1 t1 Hvalid Hforce Hc Hrej
    | image_s v s1 t1 r0 s0 t2 Hvalid Hforce Hc Hw Hconf Hf
    | image_s e s1 t1 r0 Hvalid Hforce Hc H503 Hcode Herr
    | image_s r0 s1 t1 Hvalid Hforce Hc ]; subst.
  - left. split; [now destruct Ht as [-> | ->] |].
    destruct Hst as [H|[H|H]]; rewrite H; discriminate.
  - right. apply (Hfin image_s None s [] t); try assumption; try reflexivity.
    left. now repeat split.
  - left. split; [now apply (Hgw image_s _ _ _ Hc) |]. now destruct (isWaste v).
  - right. apply (Hfin image_s (Some v) s1 t1 t2); try assumption; try reflexivity.
    + now apply (Hgw image_s _ _ _ Hc).
    + right. exists v, t1. now repeat split.
  - left. rewrite persistence_calls_app, (Hgw image_s _ _ _ Hc). split; [reflexivity |].
    rewrite H503. discriminate.
  - now destruct (copy_never_responds classify _ _ _ _ _ _ _ Hcopy Hc).
Qed.

Lemma save_failed_status (e : JsError) : http_status (save_failed e) <> 201.
Proof. unfold save_failed. now destruct (String.eqb (err_name e) "ValidationError"). Qed.

(** X13.  Besides logging and asking the detector, a submission does at most
    three things, in this order: the upload, the save, the update of the
    user.  A report is only saved after the upload succeeded, and carries
    the URL and id the host gave; the user is only updated after the save
    succeeded; and the answer is 201 exactly when all three were done. *)
Theorem persistence_in_order
    (classify : option string -> string -> FetchOutcome -> M Verdict)
    (req : Request) (w : World) (s s' : State) (r : HttpResponse) (t : list Effect) :
  is_gateway_copy classify ->
  submit classify req w s = (Respond r, s', t) ->
  (persistence_calls t = [] /\ http_status r <> 201) \/
  exists image_s,
    image req = JStr image_s /\
    ((persistence_calls t = [upload_of image_s] /\ http_status r <> 201) \/
     exists u doc,
       upload_result w = inr u /\
       doc_image doc = secure_url u /\ doc_publicId doc = public_id u /\
       doc_user doc = user_id req /\
       ((persistence_calls t = [upload_of image_s; ReportSave doc] /\
         http_status r <> 201 /\ exists e, save_result w = inl e) \/
        (persistence_calls t = [upload_of image_s; ReportSave doc; award_of req] /\
         http_status r = 201 /\
         exists id, save_result w = inr id /\
           body_report (http_body r) = Some (mkSavedReport id doc)))).
Proof.
  intros Hcopy Hrun.
  destruct (copy_submit_persistence classify req w s s' r t Hcopy Hrun)
    as [H|(image_s & c & s1 & t2 & (Himg & _) & Hout & -> & _)]; [now left |].
  right. exists image_s. split; [exact Himg |].
  destruct Hout as [(_ & -> & Hst)|(u & _ & Hup & Hrest)].
  { left. split; [reflexivity |]. destruct Hst as [H|H]; rewrite H; discriminate. }
  destruct Hrest as [(_ & -> & H500 & _)|(ts & ds & adr & _ & Hsave)].
  { left. split; [reflexivity |]. rewrite H500. discriminate. }
  right. exists u, (new_report req c u ts ds adr).
  split; [exact Hup |]. split; [reflexivity |]. split; [reflexivity |].
  split; [reflexivity |]. cbv zeta in Hsave.
  destruct Hsave as [(e & Hs & -> & ->)|(id & Hs & -> & Hl)].
  - left. split; [reflexivity |]. split; [apply save_failed_status | now exists e].
  - right. assert (Hcalls : persistence_calls t2 =
      [upload_of image_s; ReportSave (new_report req c u ts ds adr); award_of req]).
    { now destruct Hl as [(_ & ->)|(e & _ & ->)]. }
    split; [exact Hcalls |]. split; [reflexivity |]. now exists id.
Qed.

(** X14.  A title, details or address that is not a string passes the
    validation if it is truthy.  When the handler then gets to the upload and
    the upload succeeds, [trim] throws: the answer is 500
    INTERNAL_SERVER_ERROR, nothing is saved, and the uploaded image stays
    with the host. *)
Theorem text_not_a_string_leaves_upload
    (classify : option string -> string -> FetchOutcome -> M Verdict)
    (req : Request) (w : World) (s s' : State) (r : HttpResponse) (t : list Effect)
    (dataUri : string) (u : UploadResponse) :
  is_gateway_copy classify ->
  submit classify req w s = (Respond r, s', t) ->
  In (CloudinaryUpload dataUri) t ->
  (upload_latency w < 15000)%N -> upload_result w = inr u ->
  (forall a b c, ~ texts req a b c) ->
  http_status r = 500 /\
  body_code (http_body r) = Some "INTERNAL_SERVER_ERROR" /\
  persistence_calls t = [CloudinaryUpload dataUri] /\
  missing_fields req = [].
Proof.
  intros Hcopy Hrun Hin Hlat Hup Hno.
  assert (Hin' : In (CloudinaryUpload dataUri) (persistence_calls t)).
  { apply filter_In. now split. }
  destruct (copy_submit_persistence classify req w s s' r t Hcopy Hrun)
    as [[Hnil _]|(image_s & c & s1 & t2 & (_ & _ & Hmiss & _) & Hout & Hcalls & _)].
  { rewrite Hnil in Hin'. destruct Hin'. }
  rewrite Hcalls in *.
  destruct Hout as [([Hlate|[e He]] & _)|(u' & _ & _ & Hrest)]; [lia | congruence |].
  destruct Hrest as [(_ & -> & H500 & Hcode & _)|(ts & ds & adr & Htexts & _)].
  - destruct Hin' as [Hd|[]]. unfold upload_of in Hd. injection Hd as <-.
    now repeat split.
  - now destruct (Hno ts ds adr).
Qed.

Lemma jpeg_prefix_matches (image_s : string) :
  match_data_uri_prefix ("data:image/jpeg;base64," +:+ image_s) = Some image_s.
Proof. reflexivity. Qed.

(** X15.  The handler puts [data:image/jpeg;base64,] in front of the image
    string as it came in.  What it hands to the host matches the handler's own
    pattern for an image exactly when the image came without a prefix: an
    image sent as a data URI is uploaded with two prefixes. *)
Theorem upload_uri_matches_pattern_iff_bare
    (classify : option string -> string -> FetchOutcome -> M Verdict)
    (req : Request) (w : World) (s : State) (dataUri : string) :
  is_gateway_copy classify ->
  In (CloudinaryUpload dataUri) (submit classify req w s).2 ->
  exists image_s,
    image req = JStr image_s /\
    dataUri = "data:image/jpeg;base64," +:+ image_s /\
    strip_data_uri dataUri = image_s /\
    (base64_regex_test dataUri = true <-> match_data_uri_prefix image_s = None).
Proof.
  intros Hcopy Hin.
  destruct (submit classify req w s) as [[o s'] t] eqn:Hrun. simpl in Hin.
  pose proof (submit_cases classify req w s) as Hpath. rewrite Hrun in Hpath.
  assert (Hr : exists r, o = Respond r) by (inversion Hpath; eauto).
  destruct Hr as [r ->].
  assert (Hin' : In (CloudinaryUpload dataUri) (persistence_calls t)).
  { apply filter_In. now split. }
  destruct (copy_submit_persistence classify req w s s' r t Hcopy Hrun)
    as [[Hnil _]|(image_s & c & s1 & t2 & (Himg & _ & _ & Hre) & Hout & Hcalls & _)].
  { rewrite Hnil in Hin'. destruct Hin'. }
  rewrite Hcalls in Hin'. exists image_s. split; [exact Himg |].
  assert (Hd : dataUri = "data:image/jpeg;base64," +:+ image_s).
  { unfold finish_outcome, upload_of, award_of in Hout.
    destruct Hout as [(_ & -> & _)|(u & _ & _ & [(_ & -> & _)|(ts & ds & adr & _ & Hsave)])].
    - destruct Hin' as [H|[]]. now injection H.
    - destruct Hin' as [H|[]]. now injection H.
    - cbv zeta in Hsave.
      destruct Hsave as [(e & _ & -> & _)|(id & _ & _ & [(_ & ->)|(e & _ & ->)])];
        simpl in Hin';
        repeat match type of Hin' with
          | _ \/ _ => destruct Hin' as [H|Hin']; [first [discriminate H | now injection H] |]
          end;
        destruct Hin'. }
  split; [exact Hd |]. subst dataUri.
  unfold strip_data_uri, base64_regex_test. rewrite jpeg_prefix_matches.
  split; [reflexivity |].
  assert (Hcolon : is_base64_text ("data:image/jpeg;base64," +:+ image_s) = false).
  { unfold is_base64_text.
    now rewrite (prefixed_not_base64_text _ _ (jpeg_prefix_matches image_s)), andb_false_r. }
  rewrite Hcolon, orb_false_r. unfold base64_regex_test in Hre. split.
  - apply base64_text_no_prefix.
  - intros Hnone. now rewrite Hnone in Hre.
Qed.

(** ** The diagnostic endpoint *)

(** X16.  The diagnostic endpoint always answers, with 200 and the verdict,
    400 MISSING_IMAGE or 500; it uploads, saves and updates nothing; and it
    checks nothing but that the image is truthy: any non-empty string that is
    not cached goes to the detector, whatever its size and alphabet, and a
    truthy value that is not a string is answered 500 without a request. *)
Theorem test_classify_answers
    (classify : option string -> string -> FetchOutcome -> M Verdict)
    (message : JsValue -> string) (image : JsValue) (w : World) (s : State) :
  is_gateway_copy classify ->
  exists resp s' t,
    test_classify classify message image w s = (Normal resp, s', t) /\
    persistence_calls t = [] /\
    (truthy image = false ->
       resp = mkTestResponse 400 (ErrorBody "No image provided" (Some "MISSING_IMAGE") None) /\
       s' = s /\ t = []) /\
    (forall image_s,
       image = JStr image_s -> image_s <> EmptyString ->
       imageCache s !! MD5.digest_hex image_s = None ->
       List.filter is_external_call t =
         [DetectorRequest (ULTRALYTICS_API_KEY w) (strip_data_uri image_s)] /\
       (test_status resp = 200 \/ test_status resp = 500)) /\
    (truthy image = true -> (forall image_s, image <> JStr image_s) ->
       resp = mkTestResponse 500
                (ErrorBody "Classification failed" None (Some (message image))) /\
       s' = s /\ List.filter is_external_call t = []).
Proof.
  intros Hcopy.
  assert (Hstr : forall image_s, image = JStr image_s -> image_s <> EmptyString ->
    exists resp s' t,
      test_classify classify message image w s = (Normal resp, s', t) /\
      persistence_calls t = [] /\
      (imageCache s !! MD5.digest_hex image_s = None ->
       List.filter is_external_call t =
         [DetectorRequest (ULTRALYTICS_API_KEY w) (strip_data_uri image_s)]) /\
      (test_status resp = 200 \/ test_status resp = 500)).
  { intros image_s -> Hne.
    unfold test_classify, classifyImage_of_value, try_catch, console, emit, mbind, M_bind,
      mret, M_ret.
    assert (Ht : truthy (JStr image_s) = true) by (destruct image_s; [now destruct Hne | reflexivity]).
    rewrite Ht. cbn [negb].
    pose proof (copy_call_requests classify (ULTRALYTICS_API_KEY w) image_s (detector w) s Hcopy)
      as Hreq.
    assert (Hgw : persistence_calls
                    (classify (ULTRALYTICS_API_KEY w) image_s (detector w) s).2 = []).
    { apply persistence_calls_gateway. intros eff. now apply copy_call_effects. }
    destruct (classify (ULTRALYTICS_API_KEY w) image_s (detector w) s)
      as [[[v|e|r] s1] t1] eqn:Hc; simpl in *.
    - eexists _, _, _. split; [reflexivity |]. rewrite app_nil_r.
      split; [exact Hgw |]. split; [| now left].
      intros Hmiss. now rewrite Hmiss in Hreq.
    - eexists _, _, _. split; [reflexivity |].
      rewrite persistence_calls_app, Hgw. split; [reflexivity |]. split; [| now right].
      intros Hmiss. rewrite Hmiss in Hreq. now rewrite List.filter_app, Hreq.
    - now destruct (copy_never_responds classify _ _ _ _ _ _ _ Hcopy Hc). }
  destruct image as [| |b|n|image_s|o].
  1,2: (eexists _, _, _; split; [reflexivity |]; split; [reflexivity |];
        split; [now intros _ |]; split; [intros ? H; discriminate H |];
        intros H; discriminate H).
  - destruct b;
      (eexists _, _, _; split; [reflexivity |]; split; [reflexivity |];
       split; [first [discriminate | now intros _] |];
       split; [intros ? H; discriminate H |];
       first [discriminate | now intros _ _]).
  - unfold test_classify, classifyImage_of_value, try_catch, console, emit, throw, mbind,
      M_bind, mret, M_ret.
    destruct (truthy (JNum n)) eqn:Ht; simpl;
      (eexists _, _, _; split; [reflexivity |]; split; [reflexivity |];
       split; [first [discriminate | now intros _] |];
       split; [intros ? H; discriminate H |];
       first [discriminate | now intros _ _]).
  - destruct (string_dec image_s EmptyString) as [->|Hne].
    + eexists _, _, _. split; [reflexivity |]. split; [reflexivity |].
      split; [now intros _ |]. split; [intros ? H; now injection H as <- | discriminate].
    + destruct (Hstr image_s eq_refl Hne) as (resp & s' & t & Hrun & Hp & Hreq & Hst).
      exists resp, s', t. split; [exact Hrun |]. split; [exact Hp |].
      split; [destruct image_s; [now destruct Hne | discriminate] |].
      split; [| intros _ H; now destruct (H image_s)].
      intros x Hx _ Hmiss. injection Hx as <-. split; [now apply Hreq | exact Hst].
  - eexists _, _, _. split; [reflexivity |]. split; [reflexivity |].
    split; [discriminate |]. split; [intros ? H; discriminate H | now intros _ _].
Qed.

(** ** A rejection is remembered *)

(** X17.  In either copy, from an empty cache and with one call at a time.
    A classification that found the image not cached gave a verdict that the
    submission endpoint rejects (not waste, or confidence below 0.7).  For
    the next 300000 ms every submission that passes the validation with the
    same image string, and is not forced, is rejected in the same way from
    the cache: no request goes to the detector, whatever it would answer
    now, and nothing else is done. *)
Theorem rejection_repeats_from_cache
    (classify : option string -> string -> FetchOutcome -> M Verdict)
    (history es : list Event) (apiKey : option string) (image_s : string)
    (net : FetchOutcome) (v : Verdict) (s1 : State) (t1 : list Effect)
    (req : Request) (w : World) :
  let s0 := run classify history initial_state in
  let s2 := run classify es s1 in
  is_gateway_copy classify ->
  imageCache s0 !! MD5.digest_hex image_s = None ->
  classify apiKey image_s net s0 = (Normal v, s1, t1) ->
  isWaste v = false \/ (confidence v < 0.7)%Q ->
  (now s2 < now s1 + 300000)%N ->
  passes_validation req image_s ->
  truthy (forceSubmit req) = false ->
  exists r c,
    submit classify req w s2 = (Respond r, s2, []) /\
    http_status r = 400 /\
    body_code (http_body r) = Some (if isWaste v then "LOW_CONFIDENCE" else "NOT_WASTE") /\
    body_classification (http_body r) = Some c /\
    with_cacheHit c true = with_cacheHit v true.
Proof.
  intros s0 s2 Hcopy Hmiss Hrun Hrej Hbefore Hvalid Hforce.
  assert (Hwf : timers_wf s0).
  { apply copy_run_timers_wf; [exact Hcopy | apply timers_wf_initial]. }
  destruct (copy_fresh_verdict classify apiKey image_s net s0 s1 v t1 Hcopy Hmiss Hrun)
    as (Hs1 & _ & _).
  assert (Hexp : expires_at (MD5.digest_hex image_s) v (now s1 + 300000) s2).
  { apply copy_run_expires_at; [exact Hcopy | | exact Hbefore].
    rewrite Hs1.
    apply (stored_expires_at (MD5.digest_hex image_s) v (advance (fetch_latency net) s0));
      [now apply timers_wf_advance | now apply advance_miss]. }
  destruct Hexp as [[Hv _] _].
  destruct (copy_call_shape classify (ULTRALYTICS_API_KEY w) image_s (detector w) s2 Hcopy)
    as [(cached & c & Hhit & Hcall & Hsame)|[(Hnone & _)|(Hnone & _)]];
    [| congruence | congruence].
  rewrite Hv in Hhit. injection Hhit as <-.
  assert (Hw : isWaste c = isWaste v) by exact (f_equal isWaste Hsame).
  assert (Hq : confidence c = confidence v) by exact (f_equal confidence Hsame).
  pose proof (classify_or_skip_verdict classify req w image_s s2 s2 c [] Hforce Hcall) as Hstep.
  rewrite (submit_validate_Normal classify req w s2 image_s
             (passes_validation_validate _ _ _ Hvalid)).
  rewrite Hw, Hq in Hstep.
  destruct (isWaste v) eqn:Hwaste; simpl in Hstep.
  - destruct Hrej as [H|Hlow]; [discriminate H |].
    apply Qlt_bool_iff in Hlow. rewrite Hlow in Hstep.
    rewrite (continue_Respond classify _ _ _ _ _ _ _ Hstep).
    exists (low_confidence c), c. now repeat split.
  - rewrite (continue_Respond classify _ _ _ _ _ _ _ Hstep).
    exists (not_waste c), c. now repeat split.
Qed.

(** ** The deletion endpoint *)

Definition delete_answer (status : Z) (message : string) : HttpResponse :=
  mkHttpResponse status (mkBody message None None None None None None).

(** The calls that change something: at the host, in the ledger, in the
    collection of reports. *)
Definition is_destructive (e : StoreEffect) : bool :=
  match e with
  | CloudinaryDestroy _ | UserDecrement _ _ | DeleteOne _ => true
  | _ => false
  end.

(** What the handler does at the host for the report, with its log. *)
Definition destroy_trace (report : StoredReport) (db : Store) : list StoreEffect :=
  if truthy (stored_publicId report) then
    CloudinaryDestroy (stored_publicId report) ::
    match destroy_result db with
    | inl _ => [StoreConsole "error" "Cloudinary deletion error:"]
    | inr _ => []
    end
  else [].

Ltac run_delete :=
  unfold delete_report, store_try_catch, store_when, store_respond, store_await, store_emit,
    mbind, StoreM_bind, mret, StoreM_ret.

(** Every way the handler can go. *)
Lemma delete_report_cases (id user : string) (db : Store) :
  match find_result db with
  | inl e =>
      delete_report id user db =
        (Respond (delete_answer 500 "Internal Server Error"),
         [FindById id; StoreConsole "error" "Delete Report Error:"])
  | inr None =>
      delete_report id user db =
        (Respond (delete_answer 404 "Report not found"), [FindById id])
  | inr (Some report) =>
      if String.eqb (stored_user report) user then
        let update := UserDecrement user (pointsToDeduct (stored_reportType report)) in
        match decrement_result db, deleteOne_result db with
        | inl e, _ =>
            delete_report id user db =
              (Respond (delete_answer 500 "Internal Server Error"),
               FindById id :: destroy_trace report db ++
               [update; StoreConsole "error" "Delete Report Error:"])
        | inr _, inl e =>
            delete_report id user db =
              (Respond (delete_answer 500 "Internal Server Error"),
               FindById id :: destroy_trace report db ++
               [update; DeleteOne id; StoreConsole "error" "Delete Report Error:"])
        | inr _, inr _ =>
            delete_report id user db =
              (Respond (delete_answer 200 "Report deleted successfully"),
               FindById id :: destroy_trace report db ++ [update; DeleteOne id])
        end
      else
        delete_report id user db =
          (Respond (delete_answer 401 "Unauthorized"), [FindById id])
  end.
Proof.
  run_delete. unfold destroy_trace, delete_answer.
  destruct (find_result db) as [e|[report|]]; simpl; try reflexivity.
  destruct (String.eqb (stored_user report) user); simpl; [| reflexivity].
  destruct (truthy (stored_publicId report)); simpl;
    [destruct (destroy_result db) as [de|[]]; simpl |];
    destruct (decrement_result db) as [ue|[]]; simpl; try reflexivity;
    destruct (deleteOne_result db) as [xe|[]]; simpl; reflexivity.
Qed.

(** X18.  Only the owner changes anything: if the handler destroys the
    image, updates the user or deletes the report, then the report was found
    and belongs to the caller.  For a report that is missing or somebody
    else's the answer is 404 or 401, after the lookup alone. *)
Theorem only_owner_changes_anything (id user : string) (db : Store) :
  (forall eff, In eff (delete_report id user db).2 -> is_destructive eff = true ->
     exists report, find_result db = inr (Some report) /\ stored_user report = user) /\
  (find_result db = inr None ->
     delete_report id user db =
       (Respond (delete_answer 404 "Report not found"), [FindById id])) /\
  (forall report,
     find_result db = inr (Some report) -> stored_user report <> user ->
     delete_report id user db =
       (Respond (delete_answer 401 "Unauthorized"), [FindById id])).
Proof.
  pose proof (delete_report_cases id user db) as Hcases.
  split; [| split].
  - intros eff Hin Hd. destruct (find_result db) as [e|[report|]].
    + rewrite Hcases in Hin. simpl in Hin.
      destruct Hin as [<-|[<-|[]]]; discriminate Hd.
    + exists report. split; [reflexivity |].
      destruct (String.eqb (stored_user report) user) eqn:Hown.
      * now apply String.eqb_eq.
      * rewrite Hcases in Hin. simpl in Hin. destruct Hin as [<-|[]]. discriminate Hd.
    + rewrite Hcases in Hin. simpl in Hin. destruct Hin as [<-|[]]. discriminate Hd.
  - intros Hnone. now rewrite Hnone in Hcases.
  - intros report Hfound Hother. rewrite Hfound in Hcases.
    apply String.eqb_neq in Hother. now rewrite Hother in Hcases.
Qed.

(** X19.  The handler always answers, with 200, 401, 404 or 500.  It
    deducts the points before it deletes the report: a deduction that fails
    stops the deletion, and a deletion that fails is answered 500 with the
    deduction already made and not undone.  The answer is 200 exactly when
    the deletion was asked for and succeeded. *)
Theorem deletion_in_order (id user : string) (db : Store) :
  exists r t,
    delete_report id user db = (Respond r, t) /\
    (http_status r = 200 \/ http_status r = 401 \/ http_status r = 404 \/
     http_status r = 500) /\
    (forall i, In (DeleteOne i) t ->
       i = id /\ decrement_result db = inr tt /\
       exists before p after,
         t = before ++ [UserDecrement user p; DeleteOne id] ++ after) /\
    (forall e, decrement_result db = inl e -> http_status r <> 200) /\
    (forall e p,
       deleteOne_result db = inl e -> In (UserDecrement user p) t ->
       decrement_result db = inr tt ->
       http_status r = 500 /\
       exists before,
         t = before ++ [UserDecrement user p; DeleteOne id;
                        StoreConsole "error" "Delete Report Error:"]) /\
    (http_status r = 200 <-> In (DeleteOne id) t /\ deleteOne_result db = inr tt).
Proof.
  pose proof (delete_report_cases id user db) as Hcases.
  assert (Hhost : forall report eff, In eff (destroy_trace report db) ->
            (forall i, eff <> DeleteOne i) /\ (forall u p, eff <> UserDecrement u p)).
  { intros report eff Hin. unfold destroy_trace in Hin.
    destruct (truthy (stored_publicId report)); [| destruct Hin].
    destruct Hin as [<-|Hin]; [split; discriminate |].
    destruct (destroy_result db); [| destruct Hin].
    destruct Hin as [<-|[]]. split; discriminate. }
  destruct (find_result db) as [e|[report|]].
  - eexists _, _. split; [exact Hcases |]. simpl.
    split; [auto |].
    split; [intros i [H|[H|[]]]; discriminate H |].
    split; [discriminate |].
    split; [intros e0 p _ [H|[H|[]]]; discriminate H |].
    split; [discriminate | intros [[H|[H|[]]] _]; discriminate H].
  - destruct (String.eqb (stored_user report) user).
    2:{ eexists _, _. split; [exact Hcases |]. simpl.
        split; [auto |].
        split; [intros i [H|[]]; discriminate H |].
        split; [discriminate |].
        split; [intros e0 p _ [H|[]]; discriminate H |].
        split; [discriminate | intros [[H|[]] _]; discriminate H]. }
    cbv zeta in Hcases.
    destruct (decrement_result db) as [ue|[]].
    + eexists _, _. split; [exact Hcases |]. simpl.
      split; [auto 6 |].
      split.
      { intros i [H|Hin]; [discriminate H |].
        apply in_app_or in Hin as [Hin|[H|[H|[]]]]; try discriminate H.
        now destruct (proj1 (Hhost report _ Hin) i). }
      split; [discriminate |].
      split; [discriminate |].
      split; [discriminate |].
      intros [[H|Hin] _]; [discriminate H |].
      apply in_app_or in Hin as [Hin|[H|[H|[]]]]; try discriminate H.
      now destruct (proj1 (Hhost report _ Hin) id).
    + destruct (deleteOne_result db) as [xe|[]].
      * eexists _, _. split; [exact Hcases |]. simpl.
        split; [auto 6 |].
        split.
        { intros i [H|Hin]; [discriminate H |].
          apply in_app_or in Hin as [Hin|[H|[H|[H|[]]]]]; try discriminate H.
          - now destruct (proj1 (Hhost report _ Hin) i).
          - injection H as <-. split; [reflexivity |]. split; [reflexivity |].
            eexists (FindById id :: destroy_trace report db), _,
              [StoreConsole "error" "Delete Report Error:"].
            reflexivity. }
        split; [discriminate |].
        split.
        { intros e0 p _ [H|Hin] _; [discriminate H |].
          apply in_app_or in Hin as [Hin|[H|[H|[H|[]]]]]; try discriminate H.
          - now destruct (proj2 (Hhost report _ Hin) user p).
          - injection H as <-. split; [reflexivity |].
            now exists (FindById id :: destroy_trace report db). }
        split; [discriminate | intros [_ H]; discriminate H].
      * eexists _, _. split; [exact Hcases |]. simpl.
        split; [auto |].
        split.
        { intros i [H|Hin]; [discriminate H |].
          apply in_app_or in Hin as [Hin|[H|[H|[]]]]; try discriminate H.
          - now destruct (proj1 (Hhost report _ Hin) i).
          - injection H as <-. split; [reflexivity |]. split; [reflexivity |].
            eexists (FindById id :: destroy_trace report db), _, [].
            reflexivity. }
        split; [discriminate |].
        split; [discriminate |].
        split; [intros _; split; [| reflexivity] | reflexivity].
        right. apply in_or_app. right. right. now left.
  - eexists _, _. split; [exact Hcases |]. simpl.
    split; [auto |].
    split; [intros i [H|[]]; discriminate H |].
    split; [discriminate |].
    split; [intros e0 p _ [H|[]]; discriminate H |].
    split; [discriminate | intros [[H|[]] _]; discriminate H].
Qed.

(** X20.  A failure at the asset host does not matter to the deletion: two
    runs that differ only in what the host did give the same answer and make
    the same changes to the user and the report. *)
Theorem host_failure_does_not_stop_deletion (id user : string) (db db' : Store) :
  find_result db = find_result db' ->
  decrement_result db = decrement_result db' ->
  deleteOne_result db = deleteOne_result db' ->
  (delete_report id user db).1 = (delete_report id user db').1 /\
  List.filter (fun e => match e with UserDecrement _ _ | DeleteOne _ => true | _ => false end)
    (delete_report id user db).2 =
  List.filter (fun e => match e with UserDecrement _ _ | DeleteOne _ => true | _ => false end)
    (delete_report id user db').2.
Proof.
  intros Hf Hu Hd.
  pose proof (delete_report_cases id user db) as H1.
  pose proof (delete_report_cases id user db') as H2.
  rewrite <- Hf, <- Hu, <- Hd in H2.
  assert (Hhost : forall report store,
    List.filter (fun e => match e with UserDecrement _ _ | DeleteOne _ => true | _ => false end)
      (destroy_trace report store) = []).
  { intros report store. unfold destroy_trace.
    destruct (truthy (stored_publicId report)); [| reflexivity].
    simpl. now destruct (destroy_result store). }
  destruct (find_result db) as [e|[report|]]; [now rewrite H1, H2 | | now rewrite H1, H2].
  destruct (String.eqb (stored_user report) user); [| now rewrite H1, H2].
  cbv zeta in H1, H2.
  destruct (decrement_result db) as [ue|[]]; [| destruct (deleteOne_result db) as [xe|[]]];
    rewrite H1, H2; simpl; (split; [reflexivity |]);
    rewrite !List.filter_app, !Hhost; reflexivity.
Qed.

Lemma finalReportType_truthy (req : Request) : truthy (finalReportType req) = true.
Proof.
  unfold finalReportType, js_or. now destruct (truthy (reportType req)) eqn:E.
Qed.

(** X21.  What a deletion takes back is what the submission gave.  A
    report saved by the submission endpoint and stored with the report type
    it was saved with: when its owner deletes it, the points the handler
    deducts are the value the submission added, the one a 201 reports as
    [pointsEarned]. *)
Theorem deletion_takes_back_the_award
    (classify : option string -> string -> FetchOutcome -> M Verdict)
    (req : Request) (w : World) (s s' : State) (r : HttpResponse) (t : list Effect)
    (doc : ReportDoc) (id : string) (db : Store) (report : StoredReport)
    (user : string) (points : JsValue) :
  is_gateway_copy classify ->
  submit classify req w s = (Respond r, s', t) ->
  In (ReportSave doc) t ->
  find_result db = inr (Some report) ->
  stored_reportType report = doc_reportType doc ->
  In (UserDecrement user points) (delete_report id (doc_user doc) db).2 ->
  user = user_id req /\
  points = pointsToAdd req /\
  (forall u a b, In (UserUpdate u a b) t -> u = user /\ a = JNum 1 /\ b = points) /\
  (http_status r = 201 -> body_pointsEarned (http_body r) = Some points).
Proof.
  intros Hcopy Hrun Hin Hfound Htype Hdec.
  assert (Hin' : In (ReportSave doc) (persistence_calls t)) by (apply filter_In; now split).
  assert (Hupd : forall u a b, In (UserUpdate u a b) t ->
            In (UserUpdate u a b) (persistence_calls t)).
  { intros u a b H. apply filter_In. now split. }
  destruct (copy_submit_persistence classify req w s s' r t Hcopy Hrun)
    as [[Hnil _]|(image_s & c & s1 & t2 & _ & Hout & Hcalls & _)].
  { rewrite Hnil in Hin'. destruct Hin'. }
  rewrite Hcalls in Hin', Hupd. clear Hcalls.
  assert (Hdoc : doc_reportType doc = finalReportType req /\ doc_user doc = user_id req /\
                 (forall u a b, In (UserUpdate u a b) (persistence_calls t2) ->
                    u = user_id req /\ a = JNum 1 /\ b = pointsToAdd req) /\
                 (http_status r = 201 ->
                    body_pointsEarned (http_body r) = Some (pointsToAdd req))).
  { unfold finish_outcome, upload_of, award_of in Hout.
    destruct Hout as [(_ & -> & _)|(u & _ & _ & [(_ & -> & _)|(ts & ds & adr & _ & Hsave)])].
    - destruct Hin' as [H|[]]. discriminate H.
    - destruct Hin' as [H|[]]. discriminate H.
    - cbv zeta in Hsave.
      destruct Hsave as [(e & _ & -> & ->)|(id' & _ & -> & [(_ & ->)|(e & _ & ->)])];
        simpl in Hin';
        repeat match type of Hin' with
          | _ \/ _ => destruct Hin' as [H|Hin']; [try discriminate H |]
          | False => destruct Hin'
          end;
        injection H as <-;
        (split; [reflexivity |]; split; [reflexivity |]; split;
         [ intros u0 a b Hu; simpl in Hu;
           repeat match type of Hu with
             | _ \/ _ => destruct Hu as [Hx|Hu]; [try discriminate Hx |]
             | False => destruct Hu
             end;
           injection Hx as <- <- <-; now repeat split
         | first [ reflexivity | intros H201; exfalso; now apply (save_failed_status e) ] ]). }
  destruct Hdoc as (Hty & Huser & Hgave & H201).
  pose proof (delete_report_cases id (doc_user doc) db) as Hcases.
  rewrite Hfound in Hcases.
  assert (Hhost : forall eff, In eff (destroy_trace report db) ->
            forall u p, eff <> UserDecrement u p).
  { intros eff Hd. unfold destroy_trace in Hd.
    destruct (truthy (stored_publicId report)); [| destruct Hd].
    destruct Hd as [<-|Hd]; [discriminate |].
    destruct (destroy_result db); [| destruct Hd].
    destruct Hd as [<-|[]]. discriminate. }
  assert (Hp : user = doc_user doc /\ points = pointsToDeduct (stored_reportType report)).
  { destruct (String.eqb (stored_user report) (doc_user doc)).
    2:{ rewrite Hcases in Hdec. destruct Hdec as [H|[]]. discriminate H. }
    cbv zeta in Hcases.
    destruct (decrement_result db) as [ue|[]]; [| destruct (deleteOne_result db) as [xe|[]]];
      rewrite Hcases in Hdec; simpl in Hdec;
      (destruct Hdec as [H|Hdec]; [discriminate H |]);
      apply in_app_or in Hdec as [Hdec|Hdec];
      try (now destruct (Hhost _ Hdec user points));
      simpl in Hdec;
      repeat match type of Hdec with
        | _ \/ _ => destruct Hdec as [H|Hdec]; [try discriminate H |]
        | False => destruct Hdec
        end;
      injection H as <- <-; now split. }
  destruct Hp as [-> ->]. rewrite Htype, Hty.
  assert (Heq : pointsToDeduct (finalReportType req) = pointsToAdd req).
  { unfold pointsToDeduct, pointsToAdd. now rewrite finalReportType_truthy. }
  rewrite Heq, Huser. split; [reflexivity |]. split; [reflexivity |].
  split; [| exact H201].
  intros u0 a b Hu. now apply Hgave, Hupd.
Qed.

(** ** The keep-alive job *)

Lemma collapse_slashes_head (c : ascii) (rest : string) :
  Ascii.eqb c "/" = false ->
  collapse_slashes (String c rest) = String c (collapse_slashes rest).
Proof. intros Hc. simpl. rewrite Hc. now destruct rest. Qed.

Lemma prefix_two_slashes (c c' : ascii) (rest : string) :
  String.prefix "//" (String c (String c' rest)) = Ascii.eqb c "/" && Ascii.eqb c' "/".
Proof.
  change (String.prefix "//" (String c (String c' rest))) with
    (if ascii_dec "/" c
     then (if ascii_dec "/" c' then String.prefix EmptyString rest else false)
     else false).
  destruct (ascii_dec "/" c) as [<-|Hc].
  - destruct (ascii_dec "/" c') as [<-|Hc']; [now destruct rest |].
    symmetry. apply andb_false_iff. right. apply Ascii.eqb_neq. congruence.
  - symmetry. apply andb_false_iff. left. apply Ascii.eqb_neq. congruence.
Qed.

Lemma prefix_two_slashes_one (c : ascii) : String.prefix "//" (String c EmptyString) = false.
Proof.
  change (String.prefix "//" (String c EmptyString)) with
    (if ascii_dec "/" c then false else false).
  now destruct (ascii_dec "/" c).
Qed.

Lemma collapse_slashes_clean (s : string) : includes (collapse_slashes s) "//" = false.
Proof.
  induction s as [|c rest IH]; [reflexivity |].
  destruct rest as [|c' rest'].
  { change (includes (collapse_slashes (String c EmptyString)) "//") with
      (String.prefix "//" (String c EmptyString) || false).
    now rewrite prefix_two_slashes_one. }
  change (collapse_slashes (String c (String c' rest'))) with
    (if Ascii.eqb c "/" && Ascii.eqb c' "/"
     then collapse_slashes (String c' rest')
     else String c (collapse_slashes (String c' rest'))).
  destruct (Ascii.eqb c "/" && Ascii.eqb c' "/") eqn:Hrun; [exact IH |].
  change (includes (String c (collapse_slashes (String c' rest'))) "//") with
    (String.prefix "//" (String c (collapse_slashes (String c' rest'))) ||
     includes (collapse_slashes (String c' rest')) "//").
  rewrite IH, orb_false_r.
  destruct (Ascii.eqb c' "/") eqn:Hc'.
  - rewrite andb_true_r in Hrun.
    destruct (collapse_slashes (String c' rest')) as [|d rest2].
    + apply prefix_two_slashes_one.
    + rewrite prefix_two_slashes, Hrun. reflexivity.
  - rewrite (collapse_slashes_head c' rest' Hc'), prefix_two_slashes, Hc'.
    apply andb_false_r.
Qed.

Lemma collapse_slashes_fixed (s : string) :
  includes s "//" = false -> collapse_slashes s = s.
Proof.
  induction s as [|c rest IH]; [reflexivity |].
  destruct rest as [|c' rest']; [reflexivity |].
  intros H.
  change (includes (String c (String c' rest')) "//") with
    (String.prefix "//" (String c (String c' rest')) || includes (String c' rest') "//") in H.
  apply orb_false_iff in H as [Hp Hrest]. rewrite prefix_two_slashes in Hp.
  change (collapse_slashes (String c (String c' rest'))) with
    (if Ascii.eqb c "/" && Ascii.eqb c' "/"
     then collapse_slashes (String c' rest')
     else String c (collapse_slashes (String c' rest'))).
  rewrite Hp. f_equal. now apply IH.
Qed.

Lemma collapse_slashes_suffix (p : string) :
  exists pre, collapse_slashes (p +:+ "/health") = pre +:+ "/health".
Proof.
  induction p as [|c p IH]; [now exists EmptyString |].
  destruct IH as [pre IH]. rewrite append_cons.
  destruct (p +:+ "/health") as [|c' rest] eqn:E.
  { destruct p; discriminate E. }
  change (collapse_slashes (String c (String c' rest))) with
    (if Ascii.eqb c "/" && Ascii.eqb c' "/"
     then collapse_slashes (String c' rest)
     else String c (collapse_slashes (String c' rest))).
  destruct (Ascii.eqb c "/" && Ascii.eqb c' "/").
  - now exists pre.
  - exists (String c pre). now rewrite IH.
Qed.

Lemma health_path_clean (pathname : string) :
  includes (health_path pathname) "//" = false /\
  (exists pre, health_path pathname = pre +:+ "/health") /\
  (includes (pathname +:+ "/health") "//" = false ->
     health_path pathname = pathname +:+ "/health").
Proof.
  unfold health_path. split; [apply collapse_slashes_clean |].
  split; [apply collapse_slashes_suffix | apply collapse_slashes_fixed].
Qed.

(** X22.  A run of the job sends at most one request, and none when
    [API_URL] is unset or empty or does not parse.  The request is a GET to
    the host of [API_URL]; its path never holds two slashes in a row and
    always ends in [/health], and is the path of [API_URL] followed by
    [/health] when that needs no cleaning; its port is the one of [API_URL],
    or 443 when there is none. *)
Theorem health_check_request (API_URL : option string)
    (parse : string -> JsError + ParsedUrl) (answer : JsError + Z)
    (options : RequestOptions) :
  In (HttpsRequest options) (health_check API_URL parse answer) ->
  exists url apiUrl rest,
    API_URL = Some url /\ url <> EmptyString /\ parse url = inr apiUrl /\
    health_check API_URL parse answer = HttpsRequest options :: rest /\
    (forall o, ~ In (HttpsRequest o) rest) /\
    opt_hostname options = url_hostname apiUrl /\
    opt_method options = "GET" /\
    includes (opt_path options) "//" = false /\
    (exists pre, opt_path options = pre +:+ "/health") /\
    (includes (url_pathname apiUrl +:+ "/health") "//" = false ->
       opt_path options = url_pathname apiUrl +:+ "/health") /\
    (url_port apiUrl = EmptyString -> opt_port options = inr 443) /\
    (url_port apiUrl <> EmptyString -> opt_port options = inl (url_port apiUrl)).
Proof.
  unfold health_check. intros Hin.
  destruct API_URL as [[|c url]|]; [destruct Hin as [H|[]]; discriminate H | |
                                    destruct Hin as [H|[]]; discriminate H].
  destruct (parse (String c url)) as [e|apiUrl] eqn:Hparse;
    [destruct Hin as [H|[]]; discriminate H |].
  assert (Hopt : options = health_options apiUrl).
  { destruct Hin as [H|Hin]; [now injection H |].
    destruct answer as [e|code]; [destruct Hin as [H|[]]; discriminate H |].
    destruct (Z.eqb code 200); destruct Hin as [H|[]]; discriminate H. }
  subst options. eexists (String c url), apiUrl, _.
  split; [reflexivity |]. split; [discriminate |]. split; [exact Hparse |].
  split; [reflexivity |].
  split.
  { intros o Ho. destruct answer as [e|code]; [destruct Ho as [H|[]]; discriminate H |].
    destruct (Z.eqb code 200); destruct Ho as [H|[]]; discriminate H. }
  destruct (health_path_clean (url_pathname apiUrl)) as (Hclean & Hsuffix & Hfixed).
  split; [reflexivity |]. split; [reflexivity |]. split; [exact Hclean |].
  split; [exact Hsuffix |]. split; [exact Hfixed |]. unfold health_options. simpl. split.
  - intros ->. reflexivity.
  - intros Hne. apply String.eqb_neq in Hne. now rewrite Hne.
Qed.

(** ** What is stored about the classification *)

(** Every cached verdict was computed from a detection list. *)
Definition cache_computed (s : State) : Prop :=
  forall h v, imageCache s !! h = Some v -> exists ds, v = verdict_of_detections ds.

Lemma copy_step_cache_computed
    (classify : option string -> string -> FetchOutcome -> M Verdict)
    (s : State) (e : Event) :
  is_gateway_copy classify -> cache_computed s -> cache_computed (step classify s e).
Proof.
  intros Hcopy Hinv. destruct e as [apiKey img net|dt]; simpl.
  2:{ intros h v Hv. apply advance_cache_subseteq in Hv. now apply (Hinv h). }
  destruct (copy_call_shape classify apiKey img net s Hcopy)
    as [(c & v & _ & -> & _)|[(_ & e & dt & t & -> & _)|(_ & ds & t & -> & _)]]; simpl.
  - exact Hinv.
  - intros h v Hv. apply advance_cache_subseteq in Hv. now apply (Hinv h).
  - intros h v. unfold stored. simpl.
    destruct (decide (MD5.digest_hex img = h)) as [<-|Hne].
    + rewrite lookup_insert_eq. intros [= <-]. now exists ds.
    + rewrite lookup_insert_ne by done. intros Hv.
      apply advance_cache_subseteq in Hv. now apply (Hinv h).
Qed.

Lemma copy_run_cache_computed
    (classify : option string -> string -> FetchOutcome -> M Verdict)
    (es : list Event) :
  is_gateway_copy classify ->
  forall s, cache_computed s -> cache_computed (run classify es s).
Proof.
  intros Hcopy. induction es as [|e es IH]; intros s Hinv; [exact Hinv |].
  simpl. apply IH. now apply copy_step_cache_computed.
Qed.

(** A verdict either copy returns in a state whose cache was computed has
    the fields of a computed one, the flag [cacheHit] apart. *)
Lemma copy_verdict_computed
    (classify : option string -> string -> FetchOutcome -> M Verdict)
    (apiKey : option string) (imageBase64 : string) (net : FetchOutcome)
    (s s1 : State) (v : Verdict) (t1 : list Effect) :
  is_gateway_copy classify -> cache_computed s ->
  classify apiKey imageBase64 net s = (Normal v, s1, t1) ->
  exists ds, with_cacheHit v true = with_cacheHit (verdict_of_detections ds) true.
Proof.
  intros Hcopy Hinv Hrun.
  destruct (copy_call_shape classify apiKey imageBase64 net s Hcopy)
    as [(c & v' & Hc & Hhit & Hsame)|[(_ & e & dt & t & Hthrow & _)|(_ & ds & t & Hok & _)]].
  - rewrite Hhit in Hrun. injection Hrun as <- _ _.
    destruct (Hinv _ _ Hc) as [ds ->]. now exists ds.
  - rewrite Hthrow in Hrun. discriminate Hrun.
  - rewrite Hok in Hrun. injection Hrun as <- _ _. now exists ds.
Qed.

Lemma saved_doc_is_new_report (req : Request) (w : World) (image_s : string)
    (classification : option Verdict) (s1 s' : State) (r : HttpResponse)
    (t2 : list Effect) (doc : ReportDoc) :
  finish_outcome req w image_s classification s1 r s' t2 ->
  In (ReportSave doc) (persistence_calls t2) ->
  exists u title_s details_s address_s,
    doc = new_report req classification u title_s details_s address_s.
Proof.
  unfold finish_outcome, upload_of, award_of. intros Hout Hin.
  destruct Hout as [(_ & -> & _)|(u & _ & _ & [(_ & -> & _)|(ts & ds & adr & _ & Hsave)])].
  - destruct Hin as [H|[]]. discriminate H.
  - destruct Hin as [H|[]]. discriminate H.
  - exists u, ts, ds, adr. cbv zeta in Hsave.
    destruct Hsave as [(e & _ & -> & _)|(id' & _ & _ & [(_ & ->)|(e & _ & ->)])];
      simpl in Hin;
      repeat match type of Hin with
        | _ \/ _ => destruct Hin as [H|Hin]; [try discriminate H |]
        | False => destruct Hin
        end;
      now injection H as <-.
Qed.

(** X23.  In either copy, whatever calls and waits came before.  A report
    the submission endpoint saves carries no [aiVerification] only when the
    submission was forced.  Otherwise the one it carries shows waste with a
    confidence of 0.7 or more, and its [verification] is [medium_confidence]
    below 0.85 and [high_confidence] from 0.85 on: never [unverified]. *)
Theorem saved_verification_is_confident
    (classify : option string -> string -> FetchOutcome -> M Verdict)
    (history : list Event) (req : Request) (w : World) (s' : State)
    (r : HttpResponse) (t : list Effect) (doc : ReportDoc) :
  is_gateway_copy classify ->
  submit classify req w (run classify history initial_state) = (Respond r, s', t) ->
  In (ReportSave doc) t ->
  (doc_aiVerification doc = None /\ truthy (forceSubmit req) = true) \/
  exists ai,
    doc_aiVerification doc = Some ai /\ truthy (forceSubmit req) = false /\
    ai_isWaste ai = true /\ (0.7 <= ai_confidence ai)%Q /\
    (((ai_confidence ai < 0.85)%Q /\ ai_verification ai = "medium_confidence") \/
     ((0.85 <= ai_confidence ai)%Q /\ ai_verification ai = "high_confidence")).
Proof.
  intros Hcopy Hrun Hin.
  assert (Hin' : In (ReportSave doc) (persistence_calls t)) by (apply filter_In; now split).
  destruct (copy_submit_persistence classify req w _ s' r t Hcopy Hrun)
    as [[Hnil _]|(image_s & c & s1 & t2 & _ & Hout & Hcalls & Hacc)].
  { rewrite Hnil in Hin'. destruct Hin'. }
  rewrite Hcalls in Hin'.
  destruct (saved_doc_is_new_report req w image_s c s1 s' r t2 doc Hout Hin')
    as (u & ts & ds & adr & ->).
  destruct Hacc as [(-> & Hforce & _)|(v & t1 & -> & Hforce & Hc & Hw & Hconf)];
    [left; now split |].
  right. exists (ai_of_verdict v). split; [reflexivity |]. split; [exact Hforce |].
  split; [exact Hw |]. split; [exact Hconf |].
  assert (Hinv : cache_computed (run classify history initial_state)).
  { apply copy_run_cache_computed; [exact Hcopy |]. intros h c Hc0.
    unfold initial_state in Hc0. simpl in Hc0. rewrite lookup_empty in Hc0. discriminate Hc0. }
  destruct (copy_verdict_computed classify _ _ _ _ _ _ _ Hcopy Hinv Hc) as [dets Hsame].
  assert (Hw' : isWaste v = isWaste (verdict_of_detections dets))
    by exact (f_equal isWaste Hsame).
  assert (Hq' : confidence v = confidence (verdict_of_detections dets))
    by exact (f_equal confidence Hsame).
  assert (Hv' : verification v = verification (verdict_of_detections dets))
    by exact (f_equal verification Hsame).
  destruct (verdict_of_detections_rules dets) as (_ & _ & Hhigh & Hmed & _).
  unfold ai_of_verdict. simpl. rewrite Hv'. rewrite Hw' in Hw. rewrite Hq' in *.
  destruct (Qlt_le_dec (confidence (verdict_of_detections dets)) 0.85) as [Hlt|Hge].
  - left. split; [exact Hlt |]. apply Hmed. split; [exact Hw |]. split; [exact Hlt |].
    apply Qle_trans with (y := 0.7%Q); [discriminate | exact Hconf].
  - right. split; [exact Hge |]. apply Hhigh. now split.
Qed.

(** ** A coordinate of zero *)

(** X24.  A latitude or longitude sent as the number 0 is falsy, so the
    handler counts the location as missing: once the size check is passed the
    answer is the 400 MISSING_FIELDS, with [location] in the list, and the
    handler does nothing else. *)
Theorem zero_coordinate_counts_as_missing
    (classify : option string -> string -> FetchOutcome -> M Verdict)
    (req : Request) (w : World) (s : State) (image_s : string) (q : Q) :
  image req = JStr image_s ->
  (Buffer_from_base64_length (strip_data_uri image_s) <= 5 * 1024 * 1024)%Z ->
  latitude req = JNum q \/ longitude req = JNum q ->
  (q == 0)%Q ->
  submit classify req w s = (Respond (fields_missing (missing_fields req)), s, []) /\
  In "location" (missing_fields req).
Proof.
  intros Himg Hsmall Hzero Hq.
  assert (Hloc : In "location" (missing_fields req)).
  { apply missing_fields_In. do 4 right. split; [reflexivity |].
    apply Qeq_bool_iff in Hq.
    destruct Hzero as [H|H]; [left | right]; rewrite H; simpl; now rewrite Hq. }
  split; [| exact Hloc].
  apply submit_validate_Respond, (validate_missing req s image_s Himg Hsmall).
  intros Hnil. now rewrite Hnil in Hloc.
Qed.

(** ** A body the gateway cannot read *)

(** The success body [data] holds no detection list the copy [classify]
    looks for: neither shape for the 30 s copy, no [images[0].results] for the
    10 s copy. *)
Definition reads_nothing
    (classify : option string -> string -> FetchOutcome -> M Verdict)
    (data : DetectorData) : Prop :=
  (classify = Gateway.classifyImage /\ data = Shapes None None) \/
  (classify = Service.classifyImage /\ exists other, data = Shapes None other).

(** X25.  A success answer of the detector whose body holds no detection
    list the gateway looks for is not an error: the verdict is non-waste with
    confidence 0 and is cached, and a submission that was not forced is
    answered 400 NOT_WASTE, not 503, with nothing done after the
    classification. *)
Theorem unread_body_reads_as_not_waste
    (classify : option string -> string -> FetchOutcome -> M Verdict)
    (req : Request) (w : World) (s : State) (image_s : string) (data : DetectorData) :
  reads_nothing classify data ->
  passes_validation req image_s ->
  truthy (forceSubmit req) = false ->
  imageCache s !! MD5.digest_hex image_s = None ->
  answers 10000 (detector w) data ->
  exists s1 t1,
    classify (ULTRALYTICS_API_KEY w) image_s (detector w) s =
      (Normal (verdict_of_detections []), s1, t1) /\
    submit classify req w s = (Respond (not_waste (verdict_of_detections [])), s1, t1) /\
    imageCache s1 !! MD5.digest_hex image_s = Some (verdict_of_detections []) /\
    isWaste (verdict_of_detections []) = false /\
    confidence (verdict_of_detections []) = 0%Q.
Proof.
  intros Hread Hvalid Hforce Hmiss Hans.
  assert (Hcall : exists t1,
    classify (ULTRALYTICS_API_KEY w) image_s (detector w) s =
      (Normal (verdict_of_detections []),
       stored (MD5.digest_hex image_s) (verdict_of_detections [])
         (advance (fetch_latency (detector w)) s), t1)).
  { destruct Hread as [[-> ->]|[-> [other ->]]].
    - assert (Hans30 : answers 30000 (detector w) (Shapes None None)).
      { destruct Hans as [Hlt Hr]. split; [lia | exact Hr]. }
      destruct (Gateway_classify_answers (ULTRALYTICS_API_KEY w) image_s (detector w) s _ []
                  Hmiss Hans30 reports_neither) as (t1 & H & _).
      now exists t1.
    - destruct (Service_classify_answers (ULTRALYTICS_API_KEY w) image_s (detector w) s _ []
                  Hmiss Hans (Service_reports_nothing other)) as (t1 & H & _).
      now exists t1. }
  destruct Hcall as [t1 Hcall]. eexists _, t1. split; [exact Hcall |].
  split; [| split; [unfold stored; simpl; apply lookup_insert_eq | split; reflexivity]].
  rewrite (submit_validate_Normal classify req w s image_s
             (passes_validation_validate _ _ _ Hvalid)).
  apply continue_Respond.
  exact (classify_or_skip_verdict classify req w image_s s _ _ t1 Hforce Hcall).
Qed.

(** ** The handlers and the cache *)

Lemma finish_state (req : Request) (w : World) (image_s : string)
    (classification : option Verdict) (s1 : State) :
  exists dt, (try_catch (finish req w image_s classification) on_error s1).1.2 = advance dt s1.
Proof.
  run_finish.
  destruct (15000 <=? upload_latency w)%N; simpl; [now exists 15000%N |].
  destruct (upload_result w) as [ue|u]; simpl.
  { destruct (String.eqb (err_message ue) "CLOUDINARY_TIMEOUT"); now eexists. }
  destruct (title req) as [| |tb|tn|title_s|to]; simpl; try (now eexists).
  destruct (details req) as [| |db|dn|details_s|dobj]; simpl; try (now eexists).
  destruct (address req) as [| |ab|an|address_s|aobj]; simpl; try (now eexists).
  destruct (save_result w) as [se|id]; simpl.
  { destruct (String.eqb (err_name se) "ValidationError"); simpl;
      rewrite advance_advance; now eexists. }
  destruct (ledger_result w) as [le|[]]; simpl; rewrite !advance_advance; now eexists.
Qed.

(** X26.  The two endpoints that classify change the cache, its timers and
    the clock only through [classifyImage] and the passing of time.  A
    submission that does not pass the validation leaves the state as it was;
    one that passes and is forced leaves it as a wait does; one that passes
    and is not forced leaves it as one call of [classifyImage] does, with the
    configured key, the image string of the request and the detector's
    answer, followed by at most one wait.  The diagnostic endpoint leaves
    the state as it was when the image is falsy or not a string, and
    otherwise as one such call with the image [sent] does.  So the
    histories of calls and waits cover the requests to both. *)
Theorem handlers_keep_to_the_history
    (classify : option string -> string -> FetchOutcome -> M Verdict)
    (message : JsValue -> string) (req : Request) (sent : JsValue)
    (w : World) (s : State) :
  is_gateway_copy classify ->
  ((forall image_s, ~ passes_validation req image_s) ->
     (submit classify req w s).1.2 = s) /\
  (forall image_s,
     passes_validation req image_s ->
     let call := Classify (ULTRALYTICS_API_KEY w) image_s (detector w) in
     image req = JStr image_s /\
     (truthy (forceSubmit req) = true ->
        exists dt, (submit classify req w s).1.2 = run classify [Wait dt] s) /\
     (truthy (forceSubmit req) = false ->
        (submit classify req w s).1.2 = run classify [call] s \/
        exists dt, (submit classify req w s).1.2 = run classify [call; Wait dt] s)) /\
  (truthy sent = false \/ (forall image_s, sent <> JStr image_s) ->
     (test_classify classify message sent w s).1.2 = s) /\
  (forall image_s,
     sent = JStr image_s -> image_s <> EmptyString ->
     (test_classify classify message sent w s).1.2 =
       run classify [Classify (ULTRALYTICS_API_KEY w) image_s (detector w)] s).
Proof.
  intros Hcopy.
  pose proof (submit_cases classify req w s) as Hpath.
  assert (Hsame : forall a b, passes_validation req a -> passes_validation req b -> a = b).
  { intros a b (Ha & _) (Hb & _). congruence. }
  split; [| split; [| split]].
  - intros Hno.
    inversion Hpath as
      [ r t _ Ht Hst Heq
      | image_s r s' t2 Hvalid Hforce Hf Heq
      | image_s v s1 t1 Hvalid Hforce Hc Hrej Heq
      | image_s v s1 t1 r s' t2 Hvalid Hforce Hc Hw Hconf Hf Heq
      | image_s e s1 t1 r Hvalid Hforce Hc H503 Hcode Herr Heq
      | image_s r s1 t1 Hvalid Hforce Hc Heq ];
      try (now destruct (Hno image_s)).
    reflexivity.
  - intros image_s Hvalid call. split; [exact (proj1 Hvalid) |]. split.
    + intros Hforce.
      inversion Hpath as
        [ r t Hno Ht Hst Heq
        | image_s' r s' t2 Hvalid' Hforce' Hf Heq
        | image_s' v s1 t1 Hvalid' Hforce' Hc Hrej Heq
        | image_s' v s1 t1 r s' t2 Hvalid' Hforce' Hc Hw Hconf Hf Heq
        | image_s' e s1 t1 r Hvalid' Hforce' Hc H503 Hcode Herr Heq
        | image_s' r s1 t1 Hvalid' Hforce' Hc Heq ];
        try congruence; [now destruct (Hno image_s) |].
      destruct (finish_state req w image_s' None s) as [dt Hdt].
      rewrite Hf in Hdt. simpl in Hdt. exists dt. simpl. exact Hdt.
    + intros Hforce.
      inversion Hpath as
        [ r t Hno Ht Hst Heq
        | image_s' r s' t2 Hvalid' Hforce' Hf Heq
        | image_s' v s1 t1 Hvalid' Hforce' Hc Hrej Heq
        | image_s' v s1 t1 r s' t2 Hvalid' Hforce' Hc Hw Hconf Hf Heq
        | image_s' e s1 t1 r Hvalid' Hforce' Hc H503 Hcode Herr Heq
        | image_s' r s1 t1 Hvalid' Hforce' Hc Heq ];
        try (now destruct (Hno image_s)); try congruence;
        pose proof (Hsame _ _ Hvalid Hvalid') as <-; simpl.
      * left. unfold call. simpl. now rewrite Hc.
      * right. destruct (finish_state req w image_s (Some v) s1) as [dt Hdt].
        rewrite Hf in Hdt. simpl in Hdt. exists dt. unfold call. simpl. now rewrite Hc.
      * left. unfold call. simpl. now rewrite Hc.
      * now destruct (copy_never_responds classify _ _ _ _ _ _ _ Hcopy Hc).
  - intros Hnot.
    unfold test_classify, classifyImage_of_value, try_catch, console, emit, throw, mbind,
      M_bind, mret, M_ret.
    destruct (truthy sent) eqn:Ht; simpl; [| reflexivity].
    destruct Hnot as [H|Hnot]; [discriminate H |].
    destruct sent as [| |b|n|image_s|o]; try reflexivity. now destruct (Hnot image_s).
  - intros image_s -> Hne.
    unfold test_classify, classifyImage_of_value, try_catch, console, emit, throw, mbind,
      M_bind, mret, M_ret.
    assert (Ht : truthy (JStr image_s) = true)
      by (destruct image_s; [now destruct Hne | reflexivity]).
    rewrite Ht. simpl.
    destruct (classify (ULTRALYTICS_API_KEY w) image_s (detector w) s)
      as [[[v|e|r] s1] t1]; reflexivity.
Qed.

(** ** The 503 of a submission *)

(** The messages the 10 s copy throws. *)
Definition Service_message (msg : string) : Prop :=
  msg = "SERVICE_TIMEOUT: Request timed out after 10 seconds" \/
  msg = "SERVICE_TIMEOUT: Request timed out" \/
  msg = "SERVICE_DOWN: API server is unreachable" \/
  exists underlying, msg = "SERVICE_ERROR: " +:+ underlying.

Lemma Service_classify_error_kinds (e : JsError) :
  Service_message (err_message (classify_error "10" e)).
Proof.
  unfold classify_error, Service_message.
  destruct (String.eqb (err_name e) "AbortError"); [now left |].
  destruct (includes (err_message e) "ECONNREFUSED" || includes (err_message e) "ENOTFOUND");
    [right; right; now left |].
  destruct (includes (err_message e) "SERVICE_TIMEOUT"); [right; now left |].
  right. right. right. now exists (err_message e).
Qed.

Lemma finish_outcome_status (req : Request) (w : World) (image_s : string)
    (classification : option Verdict) (s1 s' : State) (r : HttpResponse) (t : list Effect) :
  finish_outcome req w image_s classification s1 r s' t -> http_status r <> 503.
Proof.
  unfold finish_outcome.
  intros [(_ & _ & [H|H])|(u & _ & _ & [(_ & _ & H & _)|(ts & ds & adr & _ & Hsave)])];
    try (rewrite H; discriminate).
  cbv zeta in Hsave. destruct Hsave as [(e & _ & _ & ->)|(id & _ & -> & _)].
  - unfold save_failed. now destruct (String.eqb (err_name e) "ValidationError").
  - discriminate.
Qed.

(** X27.  The router imports the 10 s copy.  A submission is answered 503
    only when the classifier threw: the code is SERVICE_UNAVAILABLE, nothing
    was uploaded, saved or updated, and the [error] of the body is one of the
    four messages of the gateway.  When the image is not cached and the
    detector takes 10000 ms or more, a submission that passes the validation
    and is not forced is answered this way with the timeout message, 10000 ms
    after it came in. *)
Theorem service_unavailable_after_ten_seconds
    (req : Request) (w : World) (s s' : State) (r : HttpResponse) (t : list Effect) :
  submit Service.classifyImage req w s = (Respond r, s', t) ->
  (http_status r = 503 ->
     body_code (http_body r) = Some "SERVICE_UNAVAILABLE" /\
     persistence_calls t = [] /\
     exists msg, body_error (http_body r) = Some msg /\ Service_message msg) /\
  (forall image_s,
     passes_validation req image_s -> truthy (forceSubmit req) = false ->
     imageCache s !! MD5.digest_hex image_s = None ->
     (10000 <= fetch_latency (detector w))%N ->
     http_status r = 503 /\
     body_error (http_body r) =
       Some "SERVICE_TIMEOUT: Request timed out after 10 seconds" /\
     s' = advance 10000 s).
Proof.
  intros Hrun. split.
  - intros H503.
    assert (Hcopy : is_gateway_copy Service.classifyImage) by now right.
    pose proof (submit_cases Service.classifyImage req w s) as Hpath. rewrite Hrun in Hpath.
    inversion Hpath as
      [ r0 t0 Hno Ht Hst
      | image_s r0 s0 t2 Hvalid Hforce Hf
      | image_s v s1 t1 Hvalid Hforce Hc Hrej
      | image_s v s1 t1 r0 s0 t2 Hvalid Hforce Hc Hw Hconf Hf
      | image_s e s1 t1 r0 Hvalid Hforce Hc Hst Hcode Herr
      | image_s r0 s1 t1 Hvalid Hforce Hc ]; subst.
    + destruct Hst as [H|[H|H]]; rewrite H in H503; discriminate H503.
    + destruct (finish_order req w image_s None s) as (r2 & s2 & t2 & Hf' & Hout).
      rewrite Hf in Hf'. injection Hf' as <- <- <-.
      now destruct (finish_outcome_status _ _ _ _ _ _ _ _ Hout).
    + destruct (isWaste v); discriminate H503.
    + destruct (finish_order req w image_s (Some v) s1) as (r2 & s2 & t3 & Hf' & Hout).
      rewrite Hf in Hf'. injection Hf' as <- <- <-.
      now destruct (finish_outcome_status _ _ _ _ _ _ _ _ Hout).
    + split; [exact Hcode |]. split.
      { rewrite persistence_calls_app. rewrite app_nil_r.
        apply persistence_calls_gateway. intros eff Hin.
        apply (Service_classify_effects (ULTRALYTICS_API_KEY w) image_s (detector w) s).
        now rewrite Hc. }
      exists (err_message e). split; [exact Herr |].
      destruct (imageCache s !! MD5.digest_hex image_s) as [c|] eqn:Hcache.
      { rewrite (Service_classify_hit _ _ _ _ _ Hcache) in Hc. discriminate Hc. }
      destruct (Service_raises_or_answers 10000 (detector w))
        as [[e0 He0]|(data & ds & Hans & Hrep)].
      * destruct (Service_classify_raises (ULTRALYTICS_API_KEY w) _ _ _ _ Hcache He0)
          as (t' & Hthrow & _).
        rewrite Hthrow in Hc. injection Hc as <- _ _. apply Service_classify_error_kinds.
      * destruct (Service_classify_answers (ULTRALYTICS_API_KEY w) _ _ _ _ _ Hcache Hans Hrep)
          as (t' & Hok & _).
        rewrite Hok in Hc. discriminate Hc.
    + now destruct (copy_never_responds Service.classifyImage _ _ _ _ _ _ _ Hcopy Hc).
  - intros image_s Hvalid Hforce Hmiss Hlate.
    destruct (Service_classify_raises (ULTRALYTICS_API_KEY w) image_s (detector w) s _ Hmiss
                (raises_abort 10000 (detector w) Hlate)) as (t1 & Hthrow & _).
    destruct (classify_or_skip_Throw Service.classifyImage req w image_s s _ _ t1 Hforce Hthrow)
      as (r0 & Hstep & Hst & _ & Herr).
    rewrite (submit_validate_Normal Service.classifyImage req w s image_s
               (passes_validation_validate _ _ _ Hvalid)) in Hrun.
    rewrite (continue_Respond Service.classifyImage _ _ _ _ _ _ _ Hstep) in Hrun.
    injection Hrun as <- <- _. split; [exact Hst |]. split; [exact Herr |].
    now rewrite N.min_r by lia.
Qed.

(** ** The cache key *)

(** X28.  In either copy, from an empty cache and after any calls and
    waits, one call at a time.  The cache key is the MD5 digest of the string
    as it came in, prefix included, while the detector gets the string
    without the prefix.  After a call that classified a string afresh, a call
    with the string without its prefix is a cache hit exactly when the two
    digests coincide; when they differ, it asks the detector again, for the
    same file, and when it returns a verdict both entries are in the cache. *)
Theorem cache_key_is_digest_of_incoming_string
    (classify : option string -> string -> FetchOutcome -> M Verdict)
    (history : list Event) (apiKey apiKey' : option string)
    (imageBase64 : string) (net1 net2 : FetchOutcome)
    (v1 : Verdict) (s1 : State) (t1 : list Effect) :
  let s := run classify history initial_state in
  let raw := strip_data_uri imageBase64 in
  is_gateway_copy classify ->
  strip_data_uri raw = raw ->
  imageCache s !! MD5.digest_hex imageBase64 = None ->
  imageCache s !! MD5.digest_hex raw = None ->
  classify apiKey imageBase64 net1 s = (Normal v1, s1, t1) ->
  (fetch_latency net2 < 300000)%N ->
  imageCache s1 !! MD5.digest_hex imageBase64 = Some v1 /\
  List.filter is_external_call t1 = [DetectorRequest apiKey raw] /\
  (MD5.digest_hex imageBase64 = MD5.digest_hex raw ->
     exists v,
       classify apiKey' raw net2 s1 = (Normal v, s1, []) /\
       with_cacheHit v true = with_cacheHit v1 true) /\
  (MD5.digest_hex imageBase64 <> MD5.digest_hex raw ->
     List.filter is_external_call (classify apiKey' raw net2 s1).2 =
       [DetectorRequest apiKey' raw] /\
     forall v2 s2 t2,
       classify apiKey' raw net2 s1 = (Normal v2, s2, t2) ->
       cacheHit v2 = false /\
       imageCache s2 !! MD5.digest_hex imageBase64 = Some v1 /\
       imageCache s2 !! MD5.digest_hex raw = Some v2).
Proof.
  intros s raw Hcopy Hraw Hmiss1 Hmiss2 Hrun Hlat.
  assert (Hwf : timers_wf s).
  { apply copy_run_timers_wf; [exact Hcopy | apply timers_wf_initial]. }
  destruct (copy_fresh_verdict classify apiKey imageBase64 net1 s s1 v1 t1 Hcopy Hmiss1 Hrun)
    as (Hs1 & _ & Ht1).
  assert (Hexp : expires_at (MD5.digest_hex imageBase64) v1 (now s1 + 300000) s1).
  { rewrite Hs1.
    apply (stored_expires_at (MD5.digest_hex imageBase64) v1 (advance (fetch_latency net1) s));
      [now apply timers_wf_advance | now apply advance_miss]. }
  split; [exact (proj1 (proj1 Hexp)) |]. split; [exact Ht1 |]. split.
  - intros Heq.
    destruct (copy_call_shape classify apiKey' raw net2 s1 Hcopy)
      as [(c & v & Hhit & Hcall & Hsame)|[(Hnone & _)|(Hnone & _)]].
    + rewrite <- Heq, (proj1 (proj1 Hexp)) in Hhit. injection Hhit as <-. now exists v.
    + rewrite <- Heq, (proj1 (proj1 Hexp)) in Hnone. discriminate Hnone.
    + rewrite <- Heq, (proj1 (proj1 Hexp)) in Hnone. discriminate Hnone.
  - intros Hne.
    assert (Hmiss2' : imageCache s1 !! MD5.digest_hex raw = None).
    { rewrite Hs1. unfold stored. simpl. rewrite lookup_insert_ne by done.
      now apply advance_miss. }
    split.
    + rewrite (copy_call_requests classify apiKey' raw net2 s1 Hcopy), Hmiss2'.
      fold raw. now rewrite Hraw.
    + intros v2 s2 t2 Hrun2.
      destruct (copy_fresh_verdict classify apiKey' raw net2 s1 s2 v2 t2 Hcopy Hmiss2' Hrun2)
        as (Hs2 & [ds ->] & _).
      split; [reflexivity |]. rewrite Hs2. split.
      * refine (proj1 (proj1 (expires_at_stored _ _ v1 _ (now s1 + 300000) _ _ _))).
        -- apply expires_at_advance; [exact Hexp | lia].
        -- now apply not_eq_sym.
      * unfold stored. simpl. apply lookup_insert_eq.
Qed.

(** * Concrete runs *)

(** ** Sample inputs *)

(** A detector that answers 200 after [latency] ms with the detections [ds]
    in the first shape. *)
Definition detector_answer (latency : N) (ds : list Detection) : FetchOutcome :=
  mkFetchOutcome latency
    (inr (mkDetectorResponse 200 (inr "ok") (inr (Shapes (Some ds) None)))).

(** The connection is refused after 35 ms. *)
Definition detector_refuses : FetchOutcome :=
  mkFetchOutcome 35
    (inl (mkError "FetchError"
            "request to https://predict.ultralytics.com/ failed, reason: connect ECONNREFUSED 127.0.0.1:443")).


Definition one_waste_090 : list Detection :=
  [mkDetection (JNum 0) 0.9; mkDetection (JNum 2) 0.95].

Definition one_waste_050 : list Detection := [mkDetection (JNum 0) 0.5].

(** Seven million base64 digits: 5250000 bytes, more than 5 MB. *)
Definition oversized_image : string :=
  String "A" (N.iter 6999999 (String "A") EmptyString).

Definition sample_world (net : FetchOutcome) (ledger : JsError + unit) : World :=
  mkWorld (Some "key") net
    800 (inr (mkUploadResponse "https://res.cloudinary.com/reports/y.jpg" "reports/y"))
    20 (inr "r1")
    10 ledger.

(** A complete request; [title], [image], [latitude] and [forceSubmit] vary. *)
Definition sample_request (title image latitude forceSubmit : JsValue) : Request :=
  mkRequest title image (JStr "bags on the kerb") (JStr "1 Main St")
    latitude (JNum 67.01) JUndefined (JStr "hazardous") forceSubmit "u1".

Definition sample_doc (ai : option AiVerification) : ReportDoc :=
  {| doc_title := "Dump";
     doc_image := "https://res.cloudinary.com/reports/y.jpg";
     doc_publicId := "reports/y";
     doc_details := "bags on the kerb";
     doc_address := "1 Main St";
     doc_reportType := JStr "hazardous";
     doc_coordinates := (JNum 67.01, JNum 24.86);
     doc_photoTimestamp := None;
     doc_user := "u1";
     doc_aiVerification := ai |}.

(** ** The scenarios of the specification *)

Example scenario_high_confidence :
  verdict_of_detections [mkDetection (JNum 0) 0.9] =
  {| isWaste := true; label := "waste"; confidence := 0.9;
     verification := "high_confidence"; isHighConfidence := true;
     isVerifiedWaste := true; modelVersion := "YOLOv8";
     needsImprovement := false; cacheHit := false |}.
Proof. reflexivity. Qed.

Example scenario_low_confidence :
  verdict_of_detections [mkDetection (JNum 0) 0.5] =
  {| isWaste := true; label := "waste"; confidence := 0.5;
     verification := "unverified"; isHighConfidence := false;
     isVerifiedWaste := false; modelVersion := "YOLOv8";
     needsImprovement := false; cacheHit := false |}.
Proof. reflexivity. Qed.

Example scenario_no_detection :
  verdict_of_detections [] =
  {| isWaste := false; label := "non-waste"; confidence := 0;
     verification := "unverified"; isHighConfidence := false;
     isVerifiedWaste := false; modelVersion := "YOLOv8";
     needsImprovement := false; cacheHit := false |}.
Proof. reflexivity. Qed.

(** A confident detection of another class does not count. *)
Example scenario_other_class :
  confidence (verdict_of_detections [mkDetection (JNum 3) 0.99]) = 0%Q /\
  isWaste (verdict_of_detections [mkDetection (JNum 3) 0.99]) = false.
Proof. split; reflexivity. Qed.

(** ** C1 at a concrete input *)

Lemma classify_verdict_from_detections_witness :
  exists v s' t,
    Gateway.classifyImage (Some "key") "QUJD" (detector_answer 1200 one_waste_090)
      initial_state = (Normal v, s', t) /\
    is_max_waste_confidence one_waste_090 (confidence v) /\
    follows_verdict_rules v /\
    cacheHit v = false.
Proof.
  apply (classify_verdict_from_detections (Some "key") "QUJD"
           (detector_answer 1200 one_waste_090) initial_state
           (Shapes (Some one_waste_090) None) one_waste_090).
  - reflexivity.
  - split; [reflexivity |]. eexists. repeat split; reflexivity.
  - constructor.
Defined.

(** ** C2 at a concrete input *)

(** C2 on [services/classificationService.js], the module the router
    imports.  The string QUJD is classified twice from an empty cache.  The
    second call is served from the cache (no effect at all, and the verdict of
    the first call although the detector would now say otherwise), and the
    verdict it returns still has [cacheHit = false]. *)
Lemma Service_cache_hit_not_flagged :
  let first :=
    Service.classifyImage (Some "key") "QUJD" (detector_answer 1200 one_waste_090)
      initial_state in
  let second :=
    Service.classifyImage (Some "key") "QUJD" (detector_answer 900 one_waste_050)
      first.1.2 in
  first.1.1 = Normal (verdict_of_detections one_waste_090) /\
  second.1.1 = Normal (verdict_of_detections one_waste_090) /\
  second.2 = [] /\
  cacheHit (verdict_of_detections one_waste_090) = false.
Proof. vm_compute. repeat split. Qed.

(** The same two calls through the 30 s gateway: the second verdict has
    [cacheHit = true]. *)
Example Gateway_cache_hit_flagged :
  let first :=
    Gateway.classifyImage (Some "key") "QUJD" (detector_answer 1200 one_waste_090)
      initial_state in
  let second :=
    Gateway.classifyImage (Some "key") "QUJD" (detector_answer 900 one_waste_050)
      first.1.2 in
  first.1.1 = Normal (verdict_of_detections one_waste_090) /\
  second.1.1 = Normal (with_cacheHit (verdict_of_detections one_waste_090) true) /\
  second.2 = [].
Proof. vm_compute. repeat split. Qed.

(** ** C4 at concrete inputs *)





(** ** C5 and C9 at concrete inputs *)

Lemma base64_digits_iter (n : N) :
  base64_digits (N.iter n (String "A") EmptyString) = Z.of_N n.
Proof.
  induction n as [|n IH] using N.peano_ind; [reflexivity |].
  rewrite N.iter_succ.
  change (base64_digits (String "A" (N.iter n (String "A") EmptyString)))
    with (1 + base64_digits (N.iter n (String "A") EmptyString))%Z.
  rewrite IH. lia.
Qed.
Lemma strip_oversized : strip_data_uri oversized_image = oversized_image.
Proof. unfold oversized_image. reflexivity. Qed.
Lemma base64_digits_A (s : string) : base64_digits (String "A" s) = (1 + base64_digits s)%Z.
Proof. reflexivity. Qed.

Lemma oversized_image_length :
  Buffer_from_base64_length (strip_data_uri oversized_image) = 5250000%Z.
Proof.
  rewrite strip_oversized.
  unfold Buffer_from_base64_length, oversized_image.
  rewrite base64_digits_A, base64_digits_iter. reflexivity.
Qed.
(** No title, and an image of 5250000 bytes. *)
Definition oversized_untitled : Request :=
  sample_request JUndefined (JStr oversized_image) (JNum 24.86) JUndefined.

(** No title, latitude 0, and a small image. *)
Definition untitled_on_equator : Request :=
  sample_request JUndefined (JStr "QUJD") (JNum 0) JUndefined.

(** No image at all. *)
Definition imageless : Request :=
  sample_request (JStr "Dump") JUndefined (JNum 24.86) JUndefined.

(** C5 as stated fails: the title is absent, and yet the answer is the 413
    IMAGE_TOO_LARGE, because the image decodes to more than 5 MB and that
    check comes first. *)
Lemma oversized_untitled_is_too_large :
  title oversized_untitled = JUndefined /\
  submit Service.classifyImage oversized_untitled
    (sample_world (detector_answer 1200 one_waste_090) (inr tt)) initial_state =
    (Respond image_too_large, initial_state, []) /\
  http_status image_too_large = 413 /\
  body_code (http_body image_too_large) = Some "IMAGE_TOO_LARGE".
Proof.
  split; [reflexivity |]. split; [| split; reflexivity].
  apply submit_validate_Respond.
  apply (validate_too_large oversized_untitled initial_state oversized_image).
  - reflexivity.
  - rewrite oversized_image_length. reflexivity.
Qed.

Lemma missing_fields_rejected_witness :
  exists r,
    submit Service.classifyImage untitled_on_equator
      (sample_world (detector_answer 1200 one_waste_090) (inr tt)) initial_state =
      (Respond r, initial_state, []) /\
    http_status r = 400 /\
    body_missingFields (http_body r) = Some ["title"; "location"].
Proof.
  destruct (missing_fields_rejected Service.classifyImage untitled_on_equator
              (sample_world (detector_answer 1200 one_waste_090) (inr tt))
              initial_state "QUJD")
    as (r & listed & Hrun & Hstatus & _ & Hlisted & _).
  - reflexivity.
  - vm_compute. discriminate.
  - left. reflexivity.
  - exists r. split; [exact Hrun |]. split; [exact Hstatus |].
    assert (Hr : r = fields_missing ["title"; "location"]).
    { assert (Hc : submit Service.classifyImage untitled_on_equator
                     (sample_world (detector_answer 1200 one_waste_090) (inr tt))
                     initial_state =
                   (Respond (fields_missing ["title"; "location"]), initial_state, []))
        by (vm_compute; reflexivity).
      rewrite Hc in Hrun. now injection Hrun as <-. }
    rewrite Hr. reflexivity.
Defined.

Lemma size_check_comes_first_witness :
  submit Service.classifyImage oversized_untitled
    (sample_world (detector_answer 1200 one_waste_090) (inr tt)) initial_state =
    (Respond image_too_large, initial_state, []) /\
  exists r,
    submit Service.classifyImage imageless
      (sample_world (detector_answer 1200 one_waste_090) (inr tt)) initial_state =
      (Respond r, initial_state, [Console "error" "Report Creation Error:"]) /\
    http_status r = 500 /\
    body_error (http_body r) =
      Some "Cannot read properties of undefined (reading 'replace')".
Proof.
  split.
  - apply (proj1 (size_check_comes_first Service.classifyImage oversized_untitled
                    (sample_world (detector_answer 1200 one_waste_090) (inr tt))
                    initial_state) oversized_image).
    + reflexivity.
    + rewrite oversized_image_length. reflexivity.
  - destruct (proj2 (size_check_comes_first Service.classifyImage imageless
                       (sample_world (detector_answer 1200 one_waste_090) (inr tt))
                       initial_state))
      as (r & msg & Hrun & Hstatus & _ & Herr & Hmsg).
    + intros image_s H. discriminate H.
    + exists r. split; [exact Hrun |]. split; [exact Hstatus |].
      rewrite Herr. now rewrite (Hmsg eq_refl).
Defined.

(** ** C3 at a concrete input *)

(** A complete request for an image the detector is half sure about. *)
Definition doubtful_request : Request :=
  sample_request (JStr " Dump ") (JStr "QUJD") (JNum 24.86) JUndefined.

Definition doubtful_world : World :=
  sample_world (detector_answer 1200 one_waste_050) (inr tt).

Lemma classification_gate_witness :
  exists r s' t,
    submit Service.classifyImage doubtful_request doubtful_world initial_state =
      (Respond r, s', t) /\
    http_status r = 400 /\
    body_code (http_body r) = Some "LOW_CONFIDENCE".
Proof.
  destruct (classification_gate Service.classifyImage doubtful_request doubtful_world
              initial_state
              (Service.classifyImage (Some "key") "QUJD"
                 (detector_answer 1200 one_waste_050) initial_state).1.2
              "QUJD" (verdict_of_detections one_waste_050)
              (Service.classifyImage (Some "key") "QUJD"
                 (detector_answer 1200 one_waste_050) initial_state).2)
    as (r & s' & t & Hrun & _ & Hlow & H400 & _).
  - split; [reflexivity |]. split; [vm_compute; discriminate |]. split; reflexivity.
  - reflexivity.
  - vm_compute. reflexivity.
  - exists r, s', t. split; [exact Hrun |]. split.
    + apply H400. right. reflexivity.
    + apply Hlow. split; reflexivity.
Defined.

(** ** C6 at a concrete input *)

Definition forced_request : Request :=
  sample_request (JStr " Dump ") (JStr "QUJD") (JNum 24.86) (JBool true).

Lemma force_submit_skips_classification_witness :
  exists s' t,
    submit Service.classifyImage forced_request
      (sample_world detector_refuses (inr tt)) initial_state =
      (Respond (created forced_request None (mkSavedReport "r1" (sample_doc None))), s', t) /\
    List.filter is_detector_call t = [].
Proof.
  destruct (force_submit_skips_classification Service.classifyImage forced_request
              (sample_world detector_refuses (inr tt)) initial_state)
    as (r & s' & t & Hrun & Hdet & _).
  - reflexivity.
  - exists s', t. split; [| exact Hdet].
    rewrite Hrun. f_equal. f_equal.
    assert (Hc : (submit Service.classifyImage forced_request
                    (sample_world detector_refuses (inr tt)) initial_state).1.1 =
                 Respond (created forced_request None (mkSavedReport "r1" (sample_doc None))))
      by (vm_compute; reflexivity).
    rewrite Hrun in Hc. exact Hc.
Defined.

(** ** C7 at a concrete input *)

Lemma detector_answer_in_unit (latency : N) (ds : list Detection) :
  (forall d, In d ds -> (0 <= det_confidence d)%Q /\ (det_confidence d <= 1)%Q) ->
  confidences_in_unit (detector_answer latency ds).
Proof.
  intros Hds r a b ds' d Hr Hj Hshape Hin. unfold detector_answer in Hr. simpl in Hr.
  injection Hr as <-. simpl in Hj. injection Hj as <- <-.
  destruct Hshape as [Hs|Hs]; [| discriminate Hs]. injection Hs as <-. now apply Hds.
Qed.

Lemma one_waste_050_in_unit (d : Detection) :
  In d one_waste_050 -> (0 <= det_confidence d)%Q /\ (det_confidence d <= 1)%Q.
Proof. intros [<-|[]]. split; discriminate. Qed.

Lemma one_waste_090_in_unit (d : Detection) :
  In d one_waste_090 -> (0 <= det_confidence d)%Q /\ (det_confidence d <= 1)%Q.
Proof. intros [<-|[<-|[]]]; split; discriminate. Qed.

(** An earlier call for another image, a minute of waiting, then the call. *)
Definition earlier_events : list Event :=
  [Classify (Some "key") "QUJE" (detector_answer 700 one_waste_050); Wait 60000].

Lemma classify_verdict_bounds_witness :
  ((0 <= 0.9)%Q /\ (0.9 <= 1)%Q) /\
  (verification (verdict_of_detections one_waste_090) = "high_confidence" ->
     (0.85 <= confidence (verdict_of_detections one_waste_090))%Q) /\
  isWaste (verdict_of_detections one_waste_090) = true.
Proof.
  destruct (classify_verdict_bounds earlier_events (Some "key") "QUJD"
              (detector_answer 1200 one_waste_090)
              (verdict_of_detections one_waste_090)
              (Gateway.classifyImage (Some "key") "QUJD" (detector_answer 1200 one_waste_090)
                 (run Gateway.classifyImage earlier_events initial_state)).1.2
              (Gateway.classifyImage (Some "key") "QUJD" (detector_answer 1200 one_waste_090)
                 (run Gateway.classifyImage earlier_events initial_state)).2)
    as (Hunit & Hhigh & _ & Hwaste).
  - constructor; [apply detector_answer_in_unit, one_waste_050_in_unit |].
    constructor; [exact I | constructor].
  - apply detector_answer_in_unit, one_waste_090_in_unit.
  - vm_compute. reflexivity.
  - split; [exact Hunit |]. split; [exact Hhigh |]. apply Hwaste. left. reflexivity.
Defined.

(** ** C8 at a concrete input *)

Definition accepted_request : Request :=
  sample_request (JStr " Dump ") (JStr "QUJD") (JNum 24.86) JUndefined.

(** The detector is sure, the upload and the save go through, and the update
    of the user fails. *)
Definition ledger_down : World :=
  sample_world (detector_answer 1200 one_waste_090) (inl (Error "connection lost")).

Definition accepted_ai : option AiVerification :=
  Some (mkAiVerification true 0.9 "high_confidence").

Lemma ledger_failure_keeps_report_witness :
  exists before,
    (submit Service.classifyImage accepted_request ledger_down initial_state).2 =
    before ++ [ReportSave (sample_doc accepted_ai);
               UserUpdate "u1" (JNum 1) (JNum 20);
               Console "error" "User update error:"].
Proof.
  destruct (ledger_failure_keeps_report Service.classifyImage accepted_request ledger_down
              initial_state
              (submit Service.classifyImage accepted_request ledger_down initial_state).1.2
              (created accepted_request (Some (verdict_of_detections one_waste_090))
                 (mkSavedReport "r1" (sample_doc accepted_ai)))
              (submit Service.classifyImage accepted_request ledger_down initial_state).2
              (sample_doc accepted_ai) "r1" (Error "connection lost"))
    as (_ & _ & _ & before & Htrace).
  - intros apiKey imageBase64 net st eff. apply Service_classify_effects.
  - vm_compute. reflexivity.
  - vm_compute. auto 8.
  - reflexivity.
  - reflexivity.
  - exists before. exact Htrace.
Defined.

(** ** The further properties at concrete inputs *)

Lemma Gateway_second_classification_hits_witness :
  let first :=
    Gateway.classifyImage (Some "key") "QUJD" (detector_answer 1200 one_waste_090)
      initial_state in
  let s2 := run Gateway.classifyImage earlier_events first.1.2 in
  Gateway.classifyImage (Some "key") "QUJD" detector_refuses s2 =
    (Normal (with_cacheHit (verdict_of_detections one_waste_090) true), s2, []).
Proof.
  apply (Gateway_second_classification_hits [] earlier_events (Some "key") (Some "key")
           "QUJD" (detector_answer 1200 one_waste_090) detector_refuses
           (verdict_of_detections one_waste_090)
           (Gateway.classifyImage (Some "key") "QUJD" (detector_answer 1200 one_waste_090)
              initial_state).1.2
           (Gateway.classifyImage (Some "key") "QUJD" (detector_answer 1200 one_waste_090)
              initial_state).2).
  - reflexivity.
  - vm_compute. reflexivity.
  - vm_compute. reflexivity.
Defined.

(** The detector takes 20 s, twice the bound of the module the router
    imports. *)
Definition detector_slow : FetchOutcome :=
  mkFetchOutcome 20000
    (inr (mkDetectorResponse 200 (inr "ok") (inr (Shapes (Some one_waste_090) None)))).

Lemma service_failure_rejected_witness :
  exists r s' t,
    submit Service.classifyImage accepted_request (sample_world detector_slow (inr tt))
      initial_state = (Respond r, s', t) /\
    http_status r = 503 /\
    body_error (http_body r) = Some "SERVICE_TIMEOUT: Request timed out after 10 seconds" /\
    List.filter is_external_call t = [DetectorRequest (Some "key") "QUJD"].
Proof.
  destruct (service_failure_rejected Service.classifyImage accepted_request
              (sample_world detector_slow (inr tt)) initial_state
              (advance 10000 initial_state) "QUJD"
              (Error "SERVICE_TIMEOUT: Request timed out after 10 seconds")
              [DetectorRequest (Some "key") "QUJD"; Console "error" "Ultralytics API Error:"])
    as (r & Hrun & Hstatus & _ & Herror).
  - split; [reflexivity |]. split; [vm_compute; discriminate |]. split; reflexivity.
  - reflexivity.
  - vm_compute. reflexivity.
  - eexists r, _, _. split; [exact Hrun |]. split; [exact Hstatus |].
    split; [exact Herror | reflexivity].
Defined.

(** The database refuses the report: the schema wants something else. *)
Definition schema_rejects : World :=
  mkWorld (Some "key") (detector_answer 1200 one_waste_090)
    800 (inr (mkUploadResponse "https://res.cloudinary.com/reports/y.jpg" "reports/y"))
    20 (inl (mkError "ValidationError" "Report validation failed: reportType"))
    10 (inr tt).

Lemma save_failure_rejected_witness :
  exists before,
    (submit Service.classifyImage accepted_request schema_rejects initial_state).2 =
    before ++ [ReportSave (sample_doc accepted_ai);
               Console "error" "Report Creation Error:"].
Proof.
  destruct (save_failure_rejected Service.classifyImage accepted_request schema_rejects
              initial_state
              (submit Service.classifyImage accepted_request schema_rejects initial_state).1.2
              (save_failed (mkError "ValidationError" "Report validation failed: reportType"))
              (submit Service.classifyImage accepted_request schema_rejects initial_state).2
              (sample_doc accepted_ai)
              (mkError "ValidationError" "Report validation failed: reportType"))
    as (_ & _ & _ & before & Htrace).
  - intros apiKey imageBase64 net st eff. apply Service_classify_effects.
  - vm_compute. reflexivity.
  - vm_compute. auto 8.
  - reflexivity.
  - exists before. exact Htrace.
Defined.

(** The asset host takes 16 s. *)
Definition host_slow : World :=
  mkWorld (Some "key") (detector_answer 1200 one_waste_090)
    16000 (inr (mkUploadResponse "https://res.cloudinary.com/reports/y.jpg" "reports/y"))
    20 (inr "r1")
    10 (inr tt).

Lemma upload_failure_rejected_witness :
  exists before,
    (submit Service.classifyImage accepted_request host_slow initial_state).2 =
    before ++ [CloudinaryUpload "data:image/jpeg;base64,QUJD";
               Console "error" "Cloudinary Upload Error:"].
Proof.
  destruct (upload_failure_rejected Service.classifyImage accepted_request host_slow
              initial_state
              (submit Service.classifyImage accepted_request host_slow initial_state).1.2
              upload_timed_out
              (submit Service.classifyImage accepted_request host_slow initial_state).2
              "data:image/jpeg;base64,QUJD")
    as (Hlate & _).
  - intros apiKey imageBase64 net st eff. apply Service_classify_effects.
  - vm_compute. reflexivity.
  - vm_compute. auto 8.
  - destruct Hlate as (_ & _ & before & Htrace); [vm_compute; discriminate |].
    exists before. exact Htrace.
Defined.

(** ** The rest of the code at concrete inputs *)

(** A call for the image QUJD while the detector refuses connections, then
    a minute of waiting. *)
Definition hit_then_wait : list Event :=
  [Classify (Some "key") "QUJD" detector_refuses; Wait 60000].

Lemma cache_serves_only_fresh_verdicts_witness :
  let s := run Service.classifyImage earlier_events initial_state in
  imageCache (advance 300000 s) = ∅ /\
  exists v,
    Service.classifyImage (Some "key") "QUJE" detector_refuses s = (Normal v, s, []) /\
    with_cacheHit v true = with_cacheHit (verdict_of_detections one_waste_050) true.
Proof.
  destruct (cache_serves_only_fresh_verdicts Service.classifyImage earlier_events)
    as [Hempty Hfresh].
  - right. reflexivity.
  - split; [apply Hempty; lia |].
    destruct (Hfresh (Some "key") "QUJE" detector_refuses
                (verdict_of_detections one_waste_050)) as [Hhit _].
    + vm_compute. reflexivity.
    + exact Hhit.
Defined.

Lemma expiry_is_not_postponed_witness :
  let first :=
    Service.classifyImage (Some "key") "QUJD" (detector_answer 1200 one_waste_090)
      initial_state in
  let s2 := run Service.classifyImage hit_then_wait first.1.2 in
  imageCache s2 !! MD5.digest_hex "QUJD" = Some (verdict_of_detections one_waste_090) /\
  imageCache (advance 300000 s2) !! MD5.digest_hex "QUJD" = None.
Proof.
  apply (expiry_is_not_postponed Service.classifyImage [] hit_then_wait (Some "key")
           "QUJD" (detector_answer 1200 one_waste_090)
           (verdict_of_detections one_waste_090)
           (Service.classifyImage (Some "key") "QUJD" (detector_answer 1200 one_waste_090)
              initial_state).1.2
           (Service.classifyImage (Some "key") "QUJD" (detector_answer 1200 one_waste_090)
              initial_state).2
           300000).
  - right. reflexivity.
  - reflexivity.
  - vm_compute. reflexivity.
  - vm_compute. reflexivity.
  - vm_compute. discriminate.
Defined.


Lemma copies_agree_on_first_shape_witness :
  exists s' t30 t10,
    Gateway.classifyImage (Some "key") "QUJD" (detector_answer 1200 one_waste_090)
      initial_state = (Normal (verdict_of_detections one_waste_090), s', t30) /\
    Service.classifyImage (Some "key") "QUJD" (detector_answer 1200 one_waste_090)
      initial_state = (Normal (verdict_of_detections one_waste_090), s', t10) /\
    List.filter is_external_call t30 = List.filter is_external_call t10.
Proof.
  apply (copies_agree_on_first_shape (Some "key") "QUJD"
           (detector_answer 1200 one_waste_090) initial_state one_waste_090 None).
  - reflexivity.
  - split; [reflexivity |]. eexists. repeat split; reflexivity.
Defined.

(** A detector that answers in the second shape. *)
Definition detector_predictions : FetchOutcome :=
  mkFetchOutcome 1200
    (inr (mkDetectorResponse 200 (inr "ok") (inr (Shapes None (Some one_waste_090))))).

Lemma Service_ignores_second_shape_witness :
  exists v s10 t10 s30 t30,
    Service.classifyImage (Some "key") "QUJD" detector_predictions initial_state =
      (Normal v, s10, t10) /\
    isWaste v = false /\ confidence v = 0%Q /\
    imageCache s10 !! MD5.digest_hex "QUJD" = Some v /\
    Gateway.classifyImage (Some "key") "QUJD" detector_predictions initial_state =
      (Normal (verdict_of_detections one_waste_090), s30, t30).
Proof.
  apply (Service_ignores_second_shape (Some "key") "QUJD" detector_predictions
           initial_state one_waste_090).
  - reflexivity.
  - split; [reflexivity |]. eexists. repeat split; reflexivity.
Defined.

Lemma size_limit_in_characters_witness :
  validate doubtful_request initial_state =
    (Respond (fields_missing (missing_fields doubtful_request)), initial_state, []) \/
  validate doubtful_request initial_state =
    (Respond invalid_image_format, initial_state, []) \/
  validate doubtful_request initial_state = (Normal "QUJD", initial_state, []).
Proof.
  apply (proj1 (size_limit_in_characters doubtful_request initial_state "QUJD" eq_refl)).
  vm_compute. discriminate.
Defined.

Lemma detector_receives_bare_base64_witness :
  List.filter is_detector_call
    (submit Service.classifyImage doubtful_request doubtful_world initial_state).2 = [] \/
  exists image_s,
    image doubtful_request = JStr image_s /\
    List.filter is_detector_call
      (submit Service.classifyImage doubtful_request doubtful_world initial_state).2 =
      [DetectorRequest (ULTRALYTICS_API_KEY doubtful_world) (strip_data_uri image_s)] /\
    is_base64_text (strip_data_uri image_s) = true /\
    match_data_uri_prefix (strip_data_uri image_s) = None.
Proof.
  apply (detector_receives_bare_base64 Service.classifyImage doubtful_request
           doubtful_world initial_state).
  right. reflexivity.
Defined.

Lemma persistence_in_order_witness :
  persistence_calls
    (submit Service.classifyImage forced_request (sample_world detector_refuses (inr tt))
       initial_state).2 =
  [upload_of "QUJD"; ReportSave (sample_doc None); award_of forced_request].
Proof.
  destruct (persistence_in_order Service.classifyImage forced_request
              (sample_world detector_refuses (inr tt)) initial_state
              (submit Service.classifyImage forced_request
                 (sample_world detector_refuses (inr tt)) initial_state).1.2
              (created forced_request None (mkSavedReport "r1" (sample_doc None)))
              (submit Service.classifyImage forced_request
                 (sample_world detector_refuses (inr tt)) initial_state).2)
    as [[_ Hno]|(image_s & _ & [[_ Hno]|(u & doc & _ & _ & _ & _ & [(_ & Hno & _)|(_ & _)])])].
  - right. reflexivity.
  - vm_compute. reflexivity.
  - now destruct Hno.
  - now destruct Hno.
  - now destruct Hno.
  - vm_compute. reflexivity.
Defined.

(** The title is the number 5. *)
Definition numbered_request : Request :=
  sample_request (JNum 5) (JStr "QUJD") (JNum 24.86) (JBool true).

Lemma text_not_a_string_leaves_upload_witness :
  persistence_calls
    (submit Service.classifyImage numbered_request (sample_world detector_refuses (inr tt))
       initial_state).2 =
    [CloudinaryUpload "data:image/jpeg;base64,QUJD"] /\
  missing_fields numbered_request = [].
Proof.
  destruct (text_not_a_string_leaves_upload Service.classifyImage numbered_request
              (sample_world detector_refuses (inr tt)) initial_state
              (submit Service.classifyImage numbered_request
                 (sample_world detector_refuses (inr tt)) initial_state).1.2
              (mkHttpResponse 500
                 (mkBody "Internal server error" (Some "INTERNAL_SERVER_ERROR") None None
                    (Some "title.trim is not a function") None None))
              (submit Service.classifyImage numbered_request
                 (sample_world detector_refuses (inr tt)) initial_state).2
              "data:image/jpeg;base64,QUJD"
              (mkUploadResponse "https://res.cloudinary.com/reports/y.jpg" "reports/y"))
    as (_ & _ & Hcalls & Hmiss).
  - right. reflexivity.
  - vm_compute. reflexivity.
  - vm_compute. auto.
  - reflexivity.
  - reflexivity.
  - intros a b c (H & _). discriminate H.
  - split; [exact Hcalls | exact Hmiss].
Defined.

(** The image comes as a data URI. *)
Definition prefixed_request : Request :=
  sample_request (JStr "Dump") (JStr "data:image/png;base64,QUJD") (JNum 24.86) (JBool true).

Lemma upload_uri_matches_pattern_iff_bare_witness :
  exists image_s,
    image prefixed_request = JStr image_s /\
    "data:image/jpeg;base64,data:image/png;base64,QUJD" =
      "data:image/jpeg;base64," +:+ image_s /\
    strip_data_uri "data:image/jpeg;base64,data:image/png;base64,QUJD" = image_s /\
    (base64_regex_test "data:image/jpeg;base64,data:image/png;base64,QUJD" = true <->
     match_data_uri_prefix image_s = None).
Proof.
  apply (upload_uri_matches_pattern_iff_bare Service.classifyImage prefixed_request
           (sample_world detector_refuses (inr tt)) initial_state
           "data:image/jpeg;base64,data:image/png;base64,QUJD").
  - right. reflexivity.
  - vm_compute. auto.
Defined.

Lemma test_classify_answers_witness :
  exists resp s' t,
    test_classify Service.classifyImage (fun _ => "The data argument must be of type string")
      (JNum 5) doubtful_world initial_state = (Normal resp, s', t) /\
    persistence_calls t = [] /\
    test_status resp = 500.
Proof.
  destruct (test_classify_answers Service.classifyImage
              (fun _ => "The data argument must be of type string")
              (JNum 5) doubtful_world initial_state)
    as (resp & s' & t & Hrun & Hcalls & _ & _ & Hvalue).
  - right. reflexivity.
  - exists resp, s', t. split; [exact Hrun |]. split; [exact Hcalls |].
    destruct Hvalue as (-> & _); [reflexivity | discriminate | reflexivity].
Defined.

Lemma rejection_repeats_from_cache_witness :
  let first :=
    Service.classifyImage (Some "key") "QUJD" (detector_answer 1200 one_waste_050)
      initial_state in
  let s2 := run Service.classifyImage [Wait 60000] first.1.2 in
  exists r,
    submit Service.classifyImage doubtful_request
      (sample_world (detector_answer 100 one_waste_090) (inr tt)) s2 = (Respond r, s2, []) /\
    http_status r = 400 /\
    body_code (http_body r) = Some "LOW_CONFIDENCE".
Proof.
  destruct (rejection_repeats_from_cache Service.classifyImage [] [Wait 60000] (Some "key")
              "QUJD" (detector_answer 1200 one_waste_050)
              (verdict_of_detections one_waste_050)
              (Service.classifyImage (Some "key") "QUJD" (detector_answer 1200 one_waste_050)
                 initial_state).1.2
              (Service.classifyImage (Some "key") "QUJD" (detector_answer 1200 one_waste_050)
                 initial_state).2
              doubtful_request
              (sample_world (detector_answer 100 one_waste_090) (inr tt)))
    as (r & c & Hrun & Hstatus & Hcode & _).
  - right. reflexivity.
  - reflexivity.
  - vm_compute. reflexivity.
  - right. reflexivity.
  - vm_compute. reflexivity.
  - split; [reflexivity |]. split; [vm_compute; discriminate |]. split; reflexivity.
  - reflexivity.
  - exists r. split; [exact Hrun |]. split; [exact Hstatus | exact Hcode].
Defined.

(** The report of the sample request as it is stored, and two databases
    that differ in what the asset host does. *)
Definition stored_sample : StoredReport :=
  mkStoredReport "u1" (JStr "reports/y") (JStr "hazardous").

Definition store_host_down : Store :=
  mkStore (inr (Some stored_sample)) (inl (Error "host down")) (inr tt) (inr tt).

Definition store_host_up : Store :=
  mkStore (inr (Some stored_sample)) (inr tt) (inr tt) (inr tt).

Lemma host_failure_does_not_stop_deletion_witness :
  (delete_report "r1" "u1" store_host_down).1 = (delete_report "r1" "u1" store_host_up).1 /\
  List.filter (fun e => match e with UserDecrement _ _ | DeleteOne _ => true | _ => false end)
    (delete_report "r1" "u1" store_host_down).2 =
  List.filter (fun e => match e with UserDecrement _ _ | DeleteOne _ => true | _ => false end)
    (delete_report "r1" "u1" store_host_up).2.
Proof.
  apply (host_failure_does_not_stop_deletion "r1" "u1" store_host_down store_host_up);
    reflexivity.
Defined.

Lemma deletion_takes_back_the_award_witness :
  JNum 20 = pointsToAdd forced_request /\
  body_pointsEarned
    (http_body (created forced_request None (mkSavedReport "r1" (sample_doc None)))) =
    Some (JNum 20).
Proof.
  destruct (deletion_takes_back_the_award Service.classifyImage forced_request
              (sample_world detector_refuses (inr tt)) initial_state
              (submit Service.classifyImage forced_request
                 (sample_world detector_refuses (inr tt)) initial_state).1.2
              (created forced_request None (mkSavedReport "r1" (sample_doc None)))
              (submit Service.classifyImage forced_request
                 (sample_world detector_refuses (inr tt)) initial_state).2
              (sample_doc None) "r1" store_host_down stored_sample "u1" (JNum 20))
    as (_ & Hpoints & _ & H201).
  - right. reflexivity.
  - vm_compute. reflexivity.
  - vm_compute. auto 8.
  - reflexivity.
  - reflexivity.
  - vm_compute. auto 8.
  - split; [exact Hpoints | apply H201; reflexivity].
Defined.

(** An [API_URL] whose path ends in a slash, and no port. *)
Definition sample_url : ParsedUrl := mkParsedUrl "greensnap.example" "/api/" EmptyString.

Lemma health_check_request_witness :
  opt_path (health_options sample_url) = "/api/health" /\
  opt_port (health_options sample_url) = inr 443.
Proof.
  destruct (health_check_request (Some "https://greensnap.example/api/")
              (fun _ => inr sample_url) (inr 500) (health_options sample_url))
    as (url & apiUrl & rest & _ & _ & Hparse & _ & _ & _ & _ & _ & _ & _ & Hport & _).
  - left. reflexivity.
  - injection Hparse as <-. split; [reflexivity | apply Hport; reflexivity].
Defined.

Lemma saved_verification_is_confident_witness :
  (doc_aiVerification (sample_doc accepted_ai) = None /\
   truthy (forceSubmit accepted_request) = true) \/
  exists ai,
    doc_aiVerification (sample_doc accepted_ai) = Some ai /\
    truthy (forceSubmit accepted_request) = false /\
    ai_isWaste ai = true /\ (0.7 <= ai_confidence ai)%Q /\
    (((ai_confidence ai < 0.85)%Q /\ ai_verification ai = "medium_confidence") \/
     ((0.85 <= ai_confidence ai)%Q /\ ai_verification ai = "high_confidence")).
Proof.
  apply (saved_verification_is_confident Service.classifyImage [] accepted_request
           ledger_down
           (submit Service.classifyImage accepted_request ledger_down initial_state).1.2
           (created accepted_request (Some (verdict_of_detections one_waste_090))
              (mkSavedReport "r1" (sample_doc accepted_ai)))
           (submit Service.classifyImage accepted_request ledger_down initial_state).2
           (sample_doc accepted_ai)).
  - right. reflexivity.
  - vm_compute. reflexivity.
  - vm_compute. auto 8.
Defined.

(** A complete request from the equator, the latitude sent as a number. *)
Definition on_equator : Request :=
  sample_request (JStr "Dump") (JStr "QUJD") (JNum 0) JUndefined.

Lemma zero_coordinate_counts_as_missing_witness :
  submit Service.classifyImage on_equator doubtful_world initial_state =
    (Respond (fields_missing ["location"]), initial_state, []) /\
  In "location" (missing_fields on_equator).
Proof.
  apply (zero_coordinate_counts_as_missing Service.classifyImage on_equator doubtful_world
           initial_state "QUJD" 0%Q).
  - reflexivity.
  - vm_compute. discriminate.
  - left. reflexivity.
  - reflexivity.
Defined.

Lemma unread_body_reads_as_not_waste_witness :
  exists s1 t1,
    submit Service.classifyImage doubtful_request
      (sample_world detector_predictions (inr tt)) initial_state =
      (Respond (not_waste (verdict_of_detections [])), s1, t1) /\
    imageCache s1 !! MD5.digest_hex "QUJD" = Some (verdict_of_detections []).
Proof.
  destruct (unread_body_reads_as_not_waste Service.classifyImage doubtful_request
              (sample_world detector_predictions (inr tt)) initial_state "QUJD"
              (Shapes None (Some one_waste_090)))
    as (s1 & t1 & _ & Hrun & Hcached & _).
  - right. split; [reflexivity |]. now exists (Some one_waste_090).
  - split; [reflexivity |]. split; [vm_compute; discriminate |]. split; reflexivity.
  - reflexivity.
  - reflexivity.
  - split; [reflexivity |]. eexists. repeat split; reflexivity.
  - exists s1, t1. split; [exact Hrun | exact Hcached].
Defined.

Lemma handlers_keep_to_the_history_witness :
  let call := Classify (Some "key") "QUJD" (detector_answer 1200 one_waste_050) in
  (submit Service.classifyImage doubtful_request doubtful_world initial_state).1.2 =
    run Service.classifyImage [call] initial_state \/
  exists dt,
    (submit Service.classifyImage doubtful_request doubtful_world initial_state).1.2 =
    run Service.classifyImage [call; Wait dt] initial_state.
Proof.
  destruct (handlers_keep_to_the_history Service.classifyImage (fun _ => "not a string")
              doubtful_request (JStr "QUJD") doubtful_world initial_state)
    as (_ & Hsubmit & _).
  - right. reflexivity.
  - destruct (Hsubmit "QUJD") as (_ & _ & Hcall).
    + split; [reflexivity |]. split; [vm_compute; discriminate |]. split; reflexivity.
    + exact (Hcall eq_refl).
Defined.

Lemma cache_key_is_digest_of_incoming_string_witness :
  let first :=
    Service.classifyImage (Some "key") "data:image/png;base64,QUJD"
      (detector_answer 1200 one_waste_090) initial_state in
  List.filter is_external_call first.2 = [DetectorRequest (Some "key") "QUJD"] /\
  List.filter is_external_call
    (Service.classifyImage (Some "key") "QUJD" (detector_answer 900 one_waste_090)
       first.1.2).2 = [DetectorRequest (Some "key") "QUJD"].
Proof.
  destruct (cache_key_is_digest_of_incoming_string Service.classifyImage []
              (Some "key") (Some "key") "data:image/png;base64,QUJD"
              (detector_answer 1200 one_waste_090) (detector_answer 900 one_waste_090)
              (verdict_of_detections one_waste_090)
              (Service.classifyImage (Some "key") "data:image/png;base64,QUJD"
                 (detector_answer 1200 one_waste_090) initial_state).1.2
              (Service.classifyImage (Some "key") "data:image/png;base64,QUJD"
                 (detector_answer 1200 one_waste_090) initial_state).2)
    as (_ & Hfirst & _ & Hdiffer).
  - right. reflexivity.
  - reflexivity.
  - reflexivity.
  - reflexivity.
  - vm_compute. reflexivity.
  - reflexivity.
  - split; [exact Hfirst |]. apply Hdiffer.
    intros H. vm_compute in H. discriminate H.
Defined.

Lemma service_unavailable_after_ten_seconds_witness :
  (submit Service.classifyImage accepted_request (sample_world detector_slow (inr tt))
     initial_state).1.2 = advance 10000 initial_state.
Proof.
  destruct (service_unavailable_after_ten_seconds accepted_request
              (sample_world detector_slow (inr tt)) initial_state
              (submit Service.classifyImage accepted_request
                 (sample_world detector_slow (inr tt)) initial_state).1.2
              (mkHttpResponse 503
                 (mkBody "Waste verification service unavailable"
                    (Some "SERVICE_UNAVAILABLE") None None
                    (Some "SERVICE_TIMEOUT: Request timed out after 10 seconds") None None))
              (submit Service.classifyImage accepted_request
                 (sample_world detector_slow (inr tt)) initial_state).2)
    as [_ Hlate].
  - vm_compute. reflexivity.
  - destruct (Hlate "QUJD") as (_ & _ & Hstate).
    + split; [reflexivity |]. split; [vm_compute; discriminate |]. split; reflexivity.
    + reflexivity.
    + reflexivity.
    + vm_compute. discriminate.
    + exact Hstate.
Defined.
